(** * adsdb: the marshalling layer of a DB API 2.0 driver, embedded in Rocq

    The development follows [adsdb.py] top to bottom: the exception classes,
    the native type codes, the [DBAPISet] categories, the value codec
    ([mk_valueof], [mk_assign]), the string converters, and the cursor
    ([columns], [executemany], [rows], [fetchmany], [fetchone], [fetchall]).

    Python objects are modelled by the data the code observes:
    - an [int] is a [Z]; a [float] is the 64-bit pattern of its C double;
    - [bytes] is a list of bytes, [str] is a [string] (code points 0..255);
    - a ctypes pointer field is an [option] ([None] is the NULL pointer);
    - a raised exception is the [Raise] outcome of the [result] type, and
      only the class of the exception is kept;
    - the native library is a script of the answers it gives. *)

From Stdlib Require Import ZArith List String Ascii Bool Lia.
From Stdlib Require Import Strings.Byte Floats.SpecFloat.
From stdpp Require Import base option list gmap strings.

Local Open Scope Z_scope.

(* ===================================================================== *)
(** ** Exceptions *)
(* ===================================================================== *)

(** The exception classes the module defines (lines 175-211) and the
    built-in ones its code can raise. *)
Inductive exn : Set :=
  | Exception
  | LookupError | IndexError | KeyError
  | NameError | UnboundLocalError
  | ArithmeticError | OverflowError | ZeroDivisionError
  | TypeError | ValueError | AttributeError
  | struct_error | ArgumentError
  | Error | Warning
  | InterfaceError | DatabaseError
  | InternalError | OperationalError | ProgrammingError
  | IntegrityError | DataError | NotSupportedError.

Global Instance exn_eq_dec : EqDecision exn.
Proof. solve_decision. Defined.

(** The direct base class, as the [class] statements give it. *)
Definition exn_base (e : exn) : option exn :=
  match e with
  | Exception => None
  | IndexError | KeyError => Some LookupError
  | UnboundLocalError => Some NameError
  | OverflowError | ZeroDivisionError => Some ArithmeticError
  | InterfaceError | DatabaseError => Some Error
  | InternalError | OperationalError | ProgrammingError
  | IntegrityError | DataError | NotSupportedError => Some DatabaseError
  | _ => Some Exception
  end.

Fixpoint exn_isa_fuel (n : nat) (e c : exn) : bool :=
  bool_decide (e = c) ||
  match n, exn_base e with
  | S n', Some b => exn_isa_fuel n' b c
  | _, _ => false
  end.

(** [exn_isa e c]: an exception of class [e] is caught by [except c]. *)
Definition exn_isa (e c : exn) : bool := exn_isa_fuel 4 e c.

(** ** Outcomes *)

Inductive result (A : Type) : Type :=
  | Return (a : A)
  | Raise (e : exn).
Arguments Return {A} a.
Arguments Raise {A} e.

Global Instance result_eq_dec {A} `{EqDecision A} : EqDecision (result A).
Proof. solve_decision. Defined.

(** Sequencing: an exception raised by the first statement ends the
    block. *)
Definition and_then {A B} (m : result A) (f : A → result B) : result B :=
  match m with
  | Return a => f a
  | Raise e => Raise e
  end.

Notation "'let!' x ':=' m 'in' k" := (and_then m (fun x => k))
  (at level 10, x pattern, m at level 200, k at level 200,
   format "'[v' 'let!'  x  ':='  m  'in' '/' k ']'").

Definition returns {A} (r : result A) : bool :=
  match r with Return _ => true | Raise _ => false end.

Definition raises {A} (r : result A) (c : exn) : bool :=
  match r with Return _ => false | Raise e => exn_isa e c end.

(* ===================================================================== *)
(** ** Native type codes (lines 21-73) *)
(* ===================================================================== *)

Definition A_INVALID_TYPE : Z := 0.
Definition A_BINARY       : Z := 1.
Definition A_STRING       : Z := 2.
Definition A_DOUBLE       : Z := 3.
Definition A_VAL64        : Z := 4.
Definition A_UVAL64       : Z := 5.
Definition A_VAL32        : Z := 6.
Definition A_UVAL32       : Z := 7.
Definition A_VAL16        : Z := 8.
Definition A_UVAL16       : Z := 9.
Definition A_VAL8         : Z := 10.
Definition A_UVAL8        : Z := 11.
Definition A_NCHAR        : Z := 12.
Definition A_DECIMAL      : Z := 13.
Definition A_DATE         : Z := 14.
Definition A_TIME         : Z := 15.
Definition A_TIMESTAMP    : Z := 16.

Definition DT_NOTYPE       : Z := 0.
Definition DT_DATE         : Z := 384.
Definition DT_TIME         : Z := 388.
Definition DT_TIMESTAMP    : Z := 392.
Definition DT_VARCHAR      : Z := 448.
Definition DT_FIXCHAR      : Z := 452.
Definition DT_LONGVARCHAR  : Z := 456.
Definition DT_STRING       : Z := 460.
Definition DT_DOUBLE       : Z := 480.
Definition DT_FLOAT        : Z := 482.
Definition DT_DECIMAL      : Z := 484.
Definition DT_INT          : Z := 496.
Definition DT_SMALLINT     : Z := 500.
Definition DT_BINARY       : Z := 524.
Definition DT_LONGBINARY   : Z := 528.
Definition DT_TINYINT      : Z := 604.
Definition DT_BIGINT       : Z := 608.
Definition DT_UNSINT       : Z := 612.
Definition DT_UNSSMALLINT  : Z := 616.
Definition DT_UNSBIGINT    : Z := 620.
Definition DT_BIT          : Z := 624.
Definition DT_NSTRING      : Z := 628.
Definition DT_NFIXCHAR     : Z := 632.
Definition DT_NVARCHAR     : Z := 636.
Definition DT_LONGNVARCHAR : Z := 640.

Definition DD_INVALID      : Z := 0.
Definition DD_INPUT        : Z := 1.
Definition DD_OUTPUT       : Z := 2.
Definition DD_INPUT_OUTPUT : Z := 3.

(* ===================================================================== *)
(** ** DBAPISet (lines 116-147) *)
(* ===================================================================== *)

Module DBAPISet.

(** A [DBAPISet] is a frozenset of native codes. *)
Definition t : Type := gset Z.

(** What [==] can be given as the other side: a native code (an [int]; a
    [bool] or a [float] equal to one hashes and compares as it does), a
    category, a builtin [set] or [frozenset] of codes, a [list] of codes
    (which cannot be hashed), or another hashable object, one that equals
    no [int] and no set, whose [__eq__] knows nothing of sets and which is
    told from the others by identity ([None], a [str], an instance of a
    plain class). *)
Inductive operand : Type :=
  | Code (c : Z)
  | Cat (s : gset Z)
  | BuiltinSet (s : gset Z)
  | Frozenset (s : gset Z)
  | List (items : list Z)
  | Other (id : nat).

(** [other in self] (line 125): the members are codes, so only a code can
    be found; a [set] is looked up as the frozenset of its members, and a
    [list] has no hash. *)
Definition __contains__ (self : gset Z) (other : operand) : result bool :=
  match other with
  | Code c => Return (bool_decide (c ∈ self))
  | List _ => Raise TypeError
  | Cat _ | BuiltinSet _ | Frozenset _ | Other _ => Return false
  end.

(** [DBAPISet.__eq__]: set equality against a [DBAPISet], membership
    against anything else. *)
Definition __eq__ (self : gset Z) (other : operand) : result bool :=
  match other with
  | Cat o => Return (bool_decide (self = o))
  | _ => __contains__ self other
  end.

(** [DBAPISet.__ne__]: [not self == other], where [self == other] is this
    [__eq__], the left operand being a [DBAPISet]. *)
Definition __ne__ (self : gset Z) (other : operand) : result bool :=
  let! r := __eq__ self other in Return (negb r).

(** The [__eq__] of the left operand's own type; [None] is
    [NotImplemented].  The one of [set] and of [frozenset] compares the
    members with those of any set, a [DBAPISet] too. *)
Definition left_eq (a b : operand) : result (option bool) :=
  match a with
  | Cat s => let! r := __eq__ s b in Return (Some r)
  | Code x => Return (match b with Code y => Some (x =? y) | _ => None end)
  | BuiltinSet s | Frozenset s =>
      Return (match b with
              | Cat o | BuiltinSet o | Frozenset o =>
                  Some (bool_decide (s = o))
              | _ => None
              end)
  | List l =>
      Return (match b with
              | List k => Some (bool_decide (l = k))
              | _ => None
              end)
  | Other _ => Return None
  end.

(** [a is b], for two operands whose [__eq__] both gave
    [NotImplemented]. *)
Definition same_object (a b : operand) : bool :=
  match a, b with
  | Code x, Code y => x =? y
  | Other i, Other j => (i =? j)%nat
  | _, _ => false
  end.

(** The reflected [__eq__] is asked first when the type of the right
    operand is a proper subclass of the type of the left one: a category
    on the right of a [frozenset]. *)
Definition reflected_first (a b : operand) : bool :=
  match a, b with
  | Frozenset _, Cat _ => true
  | _, _ => false
  end.

(** Python's [a == b]: the [__eq__] of one operand, then the one of the
    other, then identity; an exception of either ends the comparison. *)
Definition py_eq (a b : operand) : result bool :=
  let '(first, second) := if reflected_first a b then (b, a) else (a, b) in
  let! r := left_eq first second in
  match r with
  | Some r => Return r
  | None =>
      let! r := left_eq second first in
      match r with
      | Some r => Return r
      | None => Return (same_object a b)
      end
  end.

End DBAPISet.

Import DBAPISet.

Definition STRING    : gset Z := list_to_set [A_STRING; A_NCHAR].
Definition BINARY    : gset Z := list_to_set [A_BINARY].
Definition NUMBER    : gset Z :=
  list_to_set [A_DOUBLE; A_VAL64; A_UVAL64; A_VAL32; A_UVAL32;
               A_VAL16; A_UVAL16; A_VAL8; A_UVAL8; A_DECIMAL].
Definition DATE      : gset Z := list_to_set [A_DATE].
Definition TIME      : gset Z := list_to_set [A_TIME].
Definition TIMESTAMP : gset Z := list_to_set [A_TIMESTAMP].
Definition DATETIME  : gset Z := TIMESTAMP.
Definition ROWID     : gset Z := ∅.

Definition ToPyType : gmap Z (gset Z) :=
  list_to_map
    [ (DT_DATE, DATE); (DT_TIME, TIME); (DT_TIMESTAMP, TIMESTAMP);
      (DT_VARCHAR, STRING); (DT_FIXCHAR, STRING); (DT_LONGVARCHAR, STRING);
      (DT_STRING, STRING); (DT_DOUBLE, NUMBER); (DT_FLOAT, NUMBER);
      (DT_DECIMAL, NUMBER); (DT_INT, NUMBER); (DT_SMALLINT, NUMBER);
      (DT_BINARY, BINARY); (DT_LONGBINARY, BINARY); (DT_TINYINT, NUMBER);
      (DT_BIGINT, NUMBER); (DT_UNSINT, NUMBER); (DT_UNSSMALLINT, NUMBER);
      (DT_UNSBIGINT, NUMBER); (DT_BIT, NUMBER); (DT_LONGNVARCHAR, STRING);
      (DT_NSTRING, STRING); (DT_NFIXCHAR, STRING); (DT_NVARCHAR, STRING) ].

(* ===================================================================== *)
(** ** Host values *)
(* ===================================================================== *)

(** The Python objects that cross the codec.  A [float] is carried as the
    64 bits of its C double, which is what [struct] reads and writes; a
    [str] is a text of code points below 256. *)
Inductive pyval : Type :=
  | VNone
  | VInt (z : Z)
  | VFloat (bits : Z)
  | VStr (s : string)
  | VBinary (s : string)          (* class Binary(str), line 660 *)
  | VBytes (b : list byte)
  | VDate (y m d : Z)             (* datetime.date *)
  | VTime (h m s us : Z).         (* datetime.time *)

(** Truth value of an object, as [if not s] tests it. *)
Definition truthy (v : pyval) : bool :=
  match v with
  | VNone => false
  | VInt z => negb (z =? 0)
  | VFloat b => negb (Z.land b (Z.ones 63) =? 0)
  | VStr s | VBinary s => negb (String.length s =? 0)%nat
  | VBytes b => negb (length b =? 0)%nat
  | VDate _ _ _ | VTime _ _ _ _ => true
  end.

(** [isinstance(v, str)]; [Binary] is a subclass of [str]. *)
Definition is_str (v : pyval) : bool :=
  match v with VStr _ | VBinary _ => true | _ => false end.
Definition is_int (v : pyval) : bool :=
  match v with VInt _ => true | _ => false end.
Definition is_float (v : pyval) : bool :=
  match v with VFloat _ => true | _ => false end.
Definition is_Binary (v : pyval) : bool :=
  match v with VBinary _ => true | _ => false end.

(** Python indexing of a sequence by an [int]: a negative index counts from
    the end, and an index outside the sequence raises [IndexError]. *)
Definition py_getitem {A} (l : list A) (i : Z) : result A :=
  let n := Z.of_nat (length l) in
  let j := if i <? 0 then i + n else i in
  if (j <? 0) || (n <=? j) then Raise IndexError
  else match l !! Z.to_nat j with
       | Some a => Return a
       | None => Raise IndexError
       end.

(** [l[:n]] on a Python sequence: a negative [n] counts from the end. *)
Definition py_slice_to {A} (l : list A) (n : Z) : list A :=
  if n <? 0 then take (Z.to_nat (Z.of_nat (length l) + n)) l
  else take (Z.to_nat n) l.

(* ===================================================================== *)
(** ** Bytes and machine integers *)
(* ===================================================================== *)

Definition byte_to_Z (b : byte) : Z := Z.of_N (Byte.to_N b).

Definition byte_of_Z (z : Z) : byte :=
  match Byte.of_N (Z.to_N (Z.land z 255)) with
  | Some b => b
  | None => x00
  end.

Inductive byteorder : Set := little | big.

(** The [n] low bytes of [z], least significant first. *)
Fixpoint le_bytes (n : nat) (z : Z) : list byte :=
  match n with
  | O => []
  | S n' => byte_of_Z z :: le_bytes n' (Z.shiftr z 8)
  end.

Fixpoint le_value (bs : list byte) : Z :=
  match bs with
  | [] => 0
  | b :: bs' => Z.lor (byte_to_Z b) (Z.shiftl (le_value bs') 8)
  end.

Definition int_to_bytes (o : byteorder) (n : nat) (z : Z) : list byte :=
  match o with
  | little => le_bytes n z
  | big => rev (le_bytes n z)
  end.

Definition int_of_bytes (o : byteorder) (bs : list byte) : Z :=
  match o with
  | little => le_value bs
  | big => le_value (rev bs)
  end.

(* ===================================================================== *)
(** ** C doubles *)
(* ===================================================================== *)

Module Double.

Definition prec : Z := 53.
Definition emax : Z := 1024.

(** The IEEE 754 binary64 pattern of a float of the specification. *)
Definition to_bits (f : spec_float) : Z :=
  let sign (s : bool) : Z := if s then Z.shiftl 1 63 else 0 in
  match f with
  | S754_zero s => sign s
  | S754_infinity s => Z.lor (sign s) (Z.shiftl 2047 52)
  | S754_nan => Z.lor (Z.shiftl 2047 52) (Z.shiftl 1 51)
  | S754_finite s m e =>
      if Z.pos (digits2_pos m) =? prec
      then Z.lor (sign s)
             (Z.lor (Z.shiftl (e + 1075) 52) (Z.pos m - Z.shiftl 1 52))
      else Z.lor (sign s) (Z.pos m)
  end.

Definition of_bits (b : Z) : spec_float :=
  let s := Z.testbit b 63 in
  let ef := Z.land (Z.shiftr b 52) 2047 in
  let mf := Z.land b (Z.ones 52) in
  if ef =? 0 then
    match mf with
    | Z.pos m => S754_finite s m (-1074)
    | _ => S754_zero s
    end
  else if ef =? 2047 then
    (if mf =? 0 then S754_infinity s else S754_nan)
  else
    match Z.lor mf (Z.shiftl 1 52) with
    | Z.pos m => S754_finite s m (ef - 1075)
    | _ => S754_nan
    end.

(** [float(z)] for an [int]: nearest double, ties to even;
    [OverflowError] when the result is not finite. *)
Definition of_int (z : Z) : result Z :=
  match binary_normalize prec emax z 0 false with
  | S754_infinity _ => Raise OverflowError
  | f => Return (to_bits f)
  end.

(** [int(f)] for a [float]: truncation towards zero. *)
Definition to_int (b : Z) : result Z :=
  match of_bits b with
  | S754_zero _ => Return 0
  | S754_infinity _ => Raise OverflowError
  | S754_nan => Raise ValueError
  | S754_finite s m e =>
      let a := if 0 <=? e then Z.shiftl (Z.pos m) e
               else Z.shiftr (Z.pos m) (- e) in
      Return (if s then - a else a)
  end.

(** The double 1000000.0. *)
Definition million_bits : Z :=
  to_bits (binary_normalize prec emax 1000000 0 false).

Definition mul (a b : Z) : Z :=
  to_bits (SFmul prec emax (of_bits a) (of_bits b)).

(** The quotient [n / d] of two integers, correctly rounded ([d > 0]). *)
Definition of_ratio (n d : Z) : spec_float :=
  match n, d with
  | Z0, _ => S754_zero false
  | Z.pos p, Z.pos q =>
      SFdiv prec emax (S754_finite false p 0) (S754_finite false q 0)
  | Z.neg p, Z.pos q =>
      SFdiv prec emax (S754_finite true p 0) (S754_finite false q 0)
  | _, _ => S754_nan
  end.

(** [a / b] on two [int]s (true division); a zero quotient takes the sign
    of the divisor. *)
Definition truediv (a b : Z) : result Z :=
  if b =? 0 then Raise ZeroDivisionError
  else
    let f := if a =? 0 then S754_zero (b <? 0)
             else if 0 <? b then of_ratio a b
             else of_ratio (- a) (- b) in
    match f with
    | S754_infinity _ => Raise OverflowError
    | _ => Return (to_bits f)
    end.

End Double.


(* ===================================================================== *)
(** ** Text: the [str] methods and conversions the converters call *)
(* ===================================================================== *)

Module Str.

Definition chars (s : string) : list ascii := list_ascii_of_string s.
Definition text (l : list ascii) : string := string_of_list_ascii l.

Definition code (c : ascii) : Z := Z.of_N (N_of_ascii c).

(** Whitespace of [str.split()], [str.strip()], [int()] and [float()],
    among the code points 0..255. *)
Definition is_space (c : ascii) : bool :=
  let n := code c in
  ((9 <=? n) && (n <=? 13)) || ((28 <=? n) && (n <=? 32))
  || (n =? 133) || (n =? 160).

(** Whitespace of [bytes.split()]. *)
Definition is_space_byte (b : byte) : bool :=
  let n := byte_to_Z b in
  ((9 <=? n) && (n <=? 13)) || (n =? 32).

Definition is_digit (c : ascii) : bool :=
  let n := code c in (48 <=? n) && (n <=? 57).

Definition digit (c : ascii) : Z := code c - 48.

(** [s.split(sep)] for a one-character separator: empty pieces are kept. *)
Fixpoint split_on {A} (is_sep : A → bool) (l : list A) : list (list A) :=
  match l with
  | [] => [[]]
  | c :: l' =>
      if is_sep c then [] :: split_on is_sep l'
      else match split_on is_sep l' with
           | h :: t => (c :: h) :: t
           | [] => [[c]]
           end
  end.

(** [s.split()]: pieces between runs of whitespace, none of them empty. *)
Definition split_ws {A} (is_sp : A → bool) (l : list A) : list (list A) :=
  filter (λ p, p ≠ []) (split_on is_sp l).

Definition split (sep : ascii) (s : string) : list string :=
  text <$> split_on (Ascii.eqb sep) (chars s).

Definition split_space (s : string) : list string :=
  text <$> split_ws is_space (chars s).

(** [sep in s] for a one-character [sep]. *)
Definition contains (sep : ascii) (s : string) : bool :=
  existsb (Ascii.eqb sep) (chars s).

Fixpoint lstrip (l : list ascii) : list ascii :=
  match l with
  | c :: l' => if is_space c then lstrip l' else l
  | [] => []
  end.

Definition strip (l : list ascii) : list ascii :=
  rev (lstrip (rev (lstrip l))).

Fixpoint take_while_digit (l : list ascii) : list ascii :=
  match l with
  | c :: l' => if is_digit c then c :: take_while_digit l' else []
  | [] => []
  end.

(** An underscore is accepted in a numeric literal only between two
    digits; [None] when one is misplaced. *)
Fixpoint drop_underscores (after_digit : bool) (l : list ascii)
  : option (list ascii) :=
  match l with
  | [] => Some []
  | c :: l' =>
      if Ascii.eqb c "_" then
        match l' with
        | d :: _ =>
            if after_digit && is_digit d then drop_underscores false l'
            else None
        | [] => None
        end
      else (c ::.) <$> drop_underscores (is_digit c) l'
  end.

Definition digits_value (l : list ascii) : Z :=
  fold_left (λ acc c, 10 * acc + digit c) l 0.

(** An optional sign; the flag is set for a minus. *)
Definition take_sign (l : list ascii) : bool * list ascii :=
  match l with
  | c :: l' =>
      if Ascii.eqb c "-" then (true, l')
      else if Ascii.eqb c "+" then (false, l')
      else (false, l)
  | [] => (false, [])
  end.

(** [int(s)] for a [str], base 10. *)
Definition int (s : string) : result Z :=
  let '(neg, body) := take_sign (strip (chars s)) in
  match drop_underscores false body with
  | Some (d :: ds) =>
      if forallb is_digit (d :: ds)
      then Return (if neg then - digits_value (d :: ds)
                   else digits_value (d :: ds))
      else Raise ValueError
  | _ => Raise ValueError
  end.

Definition lower (c : ascii) : ascii :=
  let n := code c in
  if (65 <=? n) && (n <=? 90) then ascii_of_N (Z.to_N (n + 32)) else c.

(** The decimal number [m * 10^e] with its sign, rounded to a double. *)
Definition decimal_to_double (neg : bool) (m e : Z) : spec_float :=
  let f := if 0 <=? e then Double.of_ratio (m * 10 ^ e) 1
           else Double.of_ratio m (10 ^ (- e)) in
  if neg then SFopp f else f.

(** The exponent part of a float literal: empty, or [e] or [E], an
    optional sign and at least one digit. *)
Definition exponent (l : list ascii) : option Z :=
  match l with
  | [] => Some 0
  | c :: l' =>
      if Ascii.eqb (lower c) "e" then
        let '(neg, ds) := take_sign l' in
        match ds with
        | _ :: _ =>
            if forallb is_digit ds
            then Some (if neg then - digits_value ds else digits_value ds)
            else None
        | [] => None
        end
      else None
  end.

(** [float(s)] for a [str]; the result is the bit pattern of the double. *)
Definition float (s : string) : result Z :=
  match drop_underscores false (strip (chars s)) with
  | None => Raise ValueError
  | Some l =>
      let '(neg, body) := take_sign l in
      let name := text (lower <$> body) in
      if bool_decide (name = "inf"%string) || bool_decide (name = "infinity"%string)
      then Return (Double.to_bits (S754_infinity neg))
      else if bool_decide (name = "nan"%string)
      then Return (Double.to_bits S754_nan)
      else
        let ip := take_while_digit body in
        let rest := drop (length ip) body in
        let '(fp, rest) :=
          match rest with
          | c :: r =>
              if Ascii.eqb c "."
              then (take_while_digit r, drop (length (take_while_digit r)) r)
              else ([], rest)
          | [] => ([], [])
          end in
        match ip ++ fp, exponent rest with
        | _ :: _, Some e =>
            Return (Double.to_bits
                      (decimal_to_double neg (digits_value (ip ++ fp))
                         (e - Z.of_nat (length fp))))
        | _, _ => Raise ValueError
        end
  end.

End Str.


(* ===================================================================== *)
(** ** The name [datetime] (lines 12 and 18) *)
(* ===================================================================== *)

(** The objects a name of the module's namespace stands for in the
    converters: the [datetime] module, its three classes, and the methods
    [date] and [time] of the class [datetime.datetime]. *)
Inductive pyname : Set :=
  | datetime_module
  | class_datetime
  | class_date
  | class_time
  | method_of_datetime (name : string).

(** Attribute lookup [o.attr]. *)
Definition getattr (o : pyname) (attr : string) : result pyname :=
  match o with
  | datetime_module =>
      if bool_decide (attr = "datetime"%string) then Return class_datetime
      else if bool_decide (attr = "date"%string) then Return class_date
      else if bool_decide (attr = "time"%string) then Return class_time
      else Raise AttributeError
  | class_datetime =>
      if bool_decide (attr = "date"%string) || bool_decide (attr = "time"%string)
      then Return (method_of_datetime attr)
      else Raise AttributeError
  | _ => Raise AttributeError
  end.

(** The statements that bind [datetime] at module level, in source order:
    [import datetime] (line 12), then [from datetime import datetime]
    (line 18). *)
Inductive import_stmt : Set :=
  | import_module (name : string) (m : pyname)
  | from_import (m : pyname) (name : string).

Definition imports : list import_stmt :=
  [ import_module "datetime" datetime_module;
    from_import datetime_module "datetime" ].

(** Running an import statement binds a name in the namespace; a later
    binding of the same name replaces the earlier one. *)
Definition run_import (g : gmap string pyname) (i : import_stmt)
  : gmap string pyname :=
  match i with
  | import_module name m => <[name := m]> g
  | from_import m name =>
      match getattr m name with
      | Return o => <[name := o]> g
      | Raise _ => g
      end
  end.

Definition module_globals : gmap string pyname :=
  foldl run_import ∅ imports.

(** The namespace the module would have with line 12 alone. *)
Definition globals_line12 : gmap string pyname :=
  foldl run_import ∅ (take 1 imports).

(** A global name that is not bound raises [NameError]. *)
Definition global (g : gmap string pyname) (name : string) : result pyname :=
  match g !! name with
  | Some o => Return o
  | None => Raise NameError
  end.

(** [isinstance(v, c)]: the second argument must be a class. *)
Definition isinstance (v : pyval) (c : pyname) : result bool :=
  match c with
  | class_date => Return (match v with VDate _ _ _ => true | _ => false end)
  | class_time => Return (match v with VTime _ _ _ _ => true | _ => false end)
  | class_datetime => Return false
  | datetime_module | method_of_datetime _ => Raise TypeError
  end.

Definition is_leap (y : Z) : bool :=
  (y mod 4 =? 0) && (negb (y mod 100 =? 0) || (y mod 400 =? 0)).

Definition days_in_month (y m : Z) : Z :=
  if m =? 2 then (if is_leap y then 29 else 28)
  else if (m =? 4) || (m =? 6) || (m =? 9) || (m =? 11) then 30
  else 31.

(** Calling [c(y, m, d)]: the constructor of [datetime.date] checks its
    fields; a method of [datetime.datetime] refuses an [int] as its
    receiver, and a module is not callable. *)
(** An [int] handed to a constructor that takes C integers: one that
    does not fit 32 bits raises [OverflowError] before any range is
    looked at. *)
Definition fits_c_int (z : Z) : bool := (- 2 ^ 31 <=? z) && (z <? 2 ^ 31).

Definition call_date (c : pyname) (y m d : Z) : result pyval :=
  match c with
  | class_date =>
      if negb (fits_c_int y && fits_c_int m && fits_c_int d)
      then Raise OverflowError
      else if (1 <=? y) && (y <=? 9999) && (1 <=? m) && (m <=? 12)
              && (1 <=? d) && (d <=? days_in_month y m)
      then Return (VDate y m d) else Raise ValueError
  | _ => Raise TypeError
  end.

Definition call_time (c : pyname) (h m s us : Z) : result pyval :=
  match c with
  | class_time =>
      if negb (fits_c_int h && fits_c_int m && fits_c_int s
               && fits_c_int us)
      then Raise OverflowError
      else if (0 <=? h) && (h <=? 23) && (0 <=? m) && (m <=? 59)
              && (0 <=? s) && (s <=? 59) && (0 <=? us) && (us <=? 999999)
      then Return (VTime h m s us) else Raise ValueError
  | _ => Raise TypeError
  end.

(* ===================================================================== *)
(** ** The string converters (lines 663-720) *)
(* ===================================================================== *)

Section Converters.

(** The namespace in which the converters look [datetime] up. *)
Variable g : gmap string pyname.

(** [ads_typecast_timestamp] returns its argument; the statements after
    the [return] of line 665 are never run. *)
Definition ads_typecast_timestamp_in (s : pyval) : result pyval :=
  Return s.

Definition ads_typecast_date_in (s : pyval) : result pyval :=
  if negb (truthy s) then Return VNone
  else
    let! dt := global g "datetime" in
    let! cls := getattr dt "date" in
    let! inst := isinstance s cls in
    if inst then Return s
    else
      match s with
      | VStr txt | VBinary txt =>
          match Str.split "/" txt with
          | [m; d; y] =>
              let! dt := global g "datetime" in
              let! cls := getattr dt "date" in
              let! yi := Str.int y in
              let! mi := Str.int m in
              let! di := Str.int d in
              call_date cls yi mi di
          | _ => Raise ValueError
          end
      | VBytes _ => Raise TypeError       (* bytes.split('/') *)
      | _ => Raise AttributeError         (* no method split *)
      end.

Definition ads_typecast_time_in (s : pyval) : result pyval :=
  if negb (truthy s) then Return VNone
  else
    let! dt := global g "datetime" in
    let! cls := getattr dt "time" in
    let! inst := isinstance s cls in
    if inst then Return s
    else
      match s with
      | VStr txt | VBinary txt =>
          match Str.split_space txt with
          | [t; ampm] =>
              match Str.split ":" t with
              | [hour; minutes; seconds] =>
                  let! iHour := Str.int hour in
                  let iHour := if iHour =? 12 then 0 else iHour in
                  let iHour := if bool_decide (ampm = "PM"%string)
                               then iHour + 12 else iHour in
                  let! (seconds, microseconds) :=
                    (if Str.contains "." seconds then
                       match Str.split "." seconds with
                       | [sec; us] => Return (sec, us)
                       | _ => Raise ValueError
                       end
                     else Return (seconds, "0"%string)) in
                  let! dt := global g "datetime" in
                  let! cls := getattr dt "time" in
                  let! mi := Str.int minutes in
                  let! si := Str.int seconds in
                  let! f := Str.float ("." ++ microseconds) in
                  let! us := Double.to_int (Double.mul f Double.million_bits) in
                  call_time cls iHour mi si us
              | _ => Raise ValueError
              end
          | _ => Raise ValueError
          end
      | VBytes b =>
          match Str.split_ws Str.is_space_byte b with
          | [t; ampm] => Raise TypeError  (* bytes.split(':') *)
          | _ => Raise ValueError
          end
      | _ => Raise AttributeError         (* no method split *)
      end.

End Converters.

Definition ads_typecast_timestamp : pyval → result pyval :=
  ads_typecast_timestamp_in.
Definition ads_typecast_date : pyval → result pyval :=
  ads_typecast_date_in module_globals.
Definition ads_typecast_time : pyval → result pyval :=
  ads_typecast_time_in module_globals.


(* ===================================================================== *)
(** ** The [struct] module, for the one-character formats of [format] *)
(* ===================================================================== *)

Module struct.

(** What a format character stands for: a pad byte, a signed or an
    unsigned integer of [n] bytes, a double. *)
Inductive layout : Set :=
  | pad
  | sint (n : nat)
  | uint (n : nat)
  | float64.

Definition layout_of (c : ascii) : result layout :=
  if Ascii.eqb c "x" then Return pad
  else if Ascii.eqb c "b" then Return (sint 1)
  else if Ascii.eqb c "B" then Return (uint 1)
  else if Ascii.eqb c "h" then Return (sint 2)
  else if Ascii.eqb c "H" then Return (uint 2)
  else if Ascii.eqb c "i" then Return (sint 4)
  else if Ascii.eqb c "I" then Return (uint 4)
  else if Ascii.eqb c "q" then Return (sint 8)
  else if Ascii.eqb c "Q" then Return (uint 8)
  else if Ascii.eqb c "d" then Return float64
  else Raise struct_error.

Definition size (l : layout) : nat :=
  match l with
  | pad => 1
  | sint n | uint n => n
  | float64 => 8
  end.

Definition calcsize (c : ascii) : result Z :=
  let! l := layout_of c in Return (Z.of_nat (size l)).

Definition bits (n : nat) : Z := 8 * Z.of_nat n.

(** [pack(c, v)] with one argument; a value of the wrong type or out of
    range, an [int] too large for a double too, raises [struct.error]. *)
Definition pack (o : byteorder) (c : ascii) (v : pyval)
  : result (list byte) :=
  let! l := layout_of c in
  match l, v with
  | sint n, VInt z =>
      if (- 2 ^ (bits n - 1) <=? z) && (z <? 2 ^ (bits n - 1))
      then Return (int_to_bytes o n z) else Raise struct_error
  | uint n, VInt z =>
      if (0 <=? z) && (z <? 2 ^ bits n)
      then Return (int_to_bytes o n z) else Raise struct_error
  | float64, VFloat b => Return (int_to_bytes o 8 b)
  | float64, VInt z =>
      match Double.of_int z with
      | Return b => Return (int_to_bytes o 8 b)
      | Raise _ => Raise struct_error
      end
  | _, _ => Raise struct_error
  end.

(** [unpack(c, bs)]: the tuple of the values read. *)
Definition unpack (o : byteorder) (c : ascii) (bs : list byte)
  : result (list pyval) :=
  let! l := layout_of c in
  if negb (length bs =? size l)%nat then Raise struct_error
  else
    match l with
    | pad => Return []
    | sint n =>
        let u := int_of_bytes o bs in
        Return [VInt (if u <? 2 ^ (bits n - 1) then u else u - 2 ^ bits n)]
    | uint n => Return [VInt (int_of_bytes o bs)]
    | float64 => Return [VFloat (int_of_bytes o bs)]
    end.

End struct.

(** Line 214: one format character per native type code. *)
Definition format : string := "xxxdqQiIhHbBxxxx".

(* ===================================================================== *)
(** ** The ctypes records (lines 75-111) *)
(* ===================================================================== *)

Module DataValue.
(** [a_ads_data_value]: [buffer], [length] and [is_null] are pointers. *)
Record t : Type := mk {
  buffer      : option (list byte);
  buffer_size : Z;
  length      : option Z;
  type        : Z;
  is_null     : option Z
}.

(** [DataValue()]: every field zero, every pointer NULL. *)
Definition new : t := mk None 0 None 0 None.

Definition set_is_null (v : option Z) (d : t) : t :=
  mk (buffer d) (buffer_size d) (length d) (type d) v.
Definition set_type (v : Z) (d : t) : t :=
  mk (buffer d) (buffer_size d) (length d) v (is_null d).
Definition set_buffer (v : option (list byte)) (d : t) : t :=
  mk v (buffer_size d) (length d) (type d) (is_null d).
Definition set_buffer_size (v : Z) (d : t) : t :=
  mk (buffer d) v (length d) (type d) (is_null d).
Definition set_length (v : option Z) (d : t) : t :=
  mk (buffer d) (buffer_size d) v (type d) (is_null d).
End DataValue.

Module BindParam.
(** [a_ads_bind_param]. *)
Record t : Type := mk {
  direction : Z;
  value     : DataValue.t;
  name      : option string
}.

Definition new : t := mk 0 DataValue.new None.

Definition set_value (v : DataValue.t) (p : t) : t :=
  mk (direction p) v (name p).
End BindParam.

Module ColumnInfo.
(** [a_ads_column_info]. *)
Record t : Type := mk {
  name        : option (list byte);
  type        : Z;
  native_type : Z;
  precision   : Z;
  scale       : Z;
  max_size    : Z;
  nullable    : Z
}.

Definition new : t := mk None 0 0 0 0 0 0.
End ColumnInfo.

(** [p.contents] on a pointer field: a NULL pointer raises [ValueError]. *)
Definition contents {A} (p : option A) : result A :=
  match p with
  | Some a => Return a
  | None => Raise ValueError
  end.

(** [create_string_buffer(init)]: a [bytes] initialiser is copied and
    followed by a NUL, an [int] gives that many zero bytes, and anything
    else (a [str] too) raises [TypeError]. *)
Definition create_string_buffer (init : pyval) : result (list byte) :=
  match init with
  | VBytes b => Return (b ++ [x00])
  | VInt n => if n <? 0 then Raise ValueError
              else Return (replicate (Z.to_nat n) x00)
  | _ => Raise TypeError
  end.

(** [len(v)]. *)
Definition len (v : pyval) : result Z :=
  match v with
  | VStr s | VBinary s => Return (Z.of_nat (String.length s))
  | VBytes b => Return (Z.of_nat (List.length b))
  | _ => Raise TypeError
  end.

(* ===================================================================== *)
(** ** What the interpreter and its platform supply *)
(* ===================================================================== *)

(** [sys.byteorder], the codec behind [bytes.decode(cs)] and
    [str(bytes, cs)], [str(v)] on an object that is not a [str], the
    bytes a read finds where nothing was written, by offset (behind the
    end of a buffer, and in the bytes object a slice of a NULL pointer
    returns without filling it), and the width in bits of a C [long]. *)
Record platform : Type := {
  sys_byteorder : byteorder;
  decode : string → list byte → result string;
  str : pyval → string;
  memory : nat → byte;
  long_bits : Z
}.

(** [p[:n]] on a pointer to characters: ctypes returns [n] bytes whatever
    the pointer is (none for an [n] that is not positive), those of the
    buffer it points to first. *)
Definition pointer_slice (P : platform) (p : option (list byte)) (n : Z)
  : list byte :=
  take (Z.to_nat n) (default [] p ++ (memory P <$> seq 0 (Z.to_nat n))).

(** [s.encode('utf-16')]: the byte-order mark, then one 16-bit unit per
    code point.  Every code point of a [string] is below 256; a text with
    a lone surrogate, on which [encode] raises, is none of the texts of
    this model. *)
Definition encode_utf16 (o : byteorder) (s : string) : list byte :=
  int_to_bytes o 2 65279
  ++ concat ((λ c, int_to_bytes o 2 (Str.code c)) <$> Str.chars s).


(* ===================================================================== *)
(** ** The value codec (lines 216-283) *)
(* ===================================================================== *)

Section Codec.

Variable P : platform.

(** [data.buffer[:data.length.contents.value]]. *)
Definition buffer_to_length (data : DataValue.t) : result (list byte) :=
  let! n := contents (DataValue.length data) in
  Return (pointer_slice P (DataValue.buffer data) n).

(** [mk_valueof(raw, char_set)] returns [valueof]; this is [valueof]. *)
Definition mk_valueof (raw : list Z) (char_set : string)
    (data : DataValue.t) : result pyval :=
  let! null := contents (DataValue.is_null data) in
  let ty := DataValue.type data in
  if negb (null =? 0) then Return VNone
  else if bool_decide (ty ∈ raw) then
    let! b := buffer_to_length data in Return (VBytes b)
  else if bool_decide (ty ∈ [A_STRING]) then
    let! b := buffer_to_length data in
    let! s := decode P char_set b in Return (VStr s)
  else if bool_decide (ty ∈ [A_NCHAR]) then
    (* isinstance(data, str) is false: data is a DataValue *)
    let! b := buffer_to_length data in
    let! s := decode P char_set b in Return (VStr s)
  else if bool_decide (ty ∈ [A_DECIMAL]) then
    let! b := buffer_to_length data in
    Raise TypeError                      (* Decimal(bytes) *)
  else if bool_decide (ty ∈ [A_DATE]) then
    let! b := buffer_to_length data in ads_typecast_date (VBytes b)
  else if bool_decide (ty ∈ [A_TIME]) then
    let! b := buffer_to_length data in ads_typecast_time (VBytes b)
  else if bool_decide (ty ∈ [A_TIMESTAMP]) then
    let! b := buffer_to_length data in ads_typecast_timestamp (VBytes b)
  else
    let! fmt := py_getitem (Str.chars format) ty in
    let! n := struct.calcsize fmt in
    let! t :=
      struct.unpack (sys_byteorder P) fmt
        (pointer_slice P (DataValue.buffer data) n) in
    py_getitem t 0.

(** The branch of [assign] for a format character [x] (lines 264-276):
    the parameter as the branch leaves it, and the buffer, [size] and
    [length] it computes. *)
Definition assign_text (param : BindParam.t) (value : pyval)
  : BindParam.t * result (list byte * Z * Z) :=
  let '(param, sized) :=
    if is_str value then
      (param, let! n := len value in Return (value, n))
    else if is_str value then
      let param :=
        BindParam.set_value
          (DataValue.set_type A_NCHAR (BindParam.value param)) param in
      match value with
      | VStr s | VBinary s =>
          let value := VBytes (encode_utf16 (sys_byteorder P) s) in
          (param, let! n := len value in Return (value, n + 2))
      | _ => (param, Raise AttributeError)
      end
    else
      let value := VStr (str P value) in
      (param, let! n := len value in Return (value, n))
  in
  (param,
   let! (value, length) := sized in
   let size :=
     if negb (BindParam.direction param =? DD_INPUT)
        && (length <? DataValue.buffer_size (BindParam.value param))
     then DataValue.buffer_size (BindParam.value param)
     else length in
   let! buffer := create_string_buffer value in
   Return (buffer, size, length)).

(** [mk_assign(char_set)] returns [assign]; this is [assign].  The
    parameter is a ctypes structure changed in place, so what was written
    before an exception stays written: the first component is the
    parameter as the call leaves it. *)
Definition mk_assign (char_set : string) (param : BindParam.t)
    (value : pyval) : BindParam.t * result unit :=
  let is_null := match value with VNone => true | _ => false end in
  let param :=
    BindParam.set_value
      (DataValue.set_is_null (Some (if is_null then 1 else 0))
         (BindParam.value param)) param in
  let value :=
    if is_null && (BindParam.direction param =? DD_INPUT)
    then VInt 0 else value in
  let param :=
    if DataValue.type (BindParam.value param) =? A_INVALID_TYPE then
      BindParam.set_value
        (DataValue.set_type
           (if is_int value then A_VAL32
            else if is_float value then A_DOUBLE
            else if is_Binary value then A_BINARY
            else A_STRING)
           (BindParam.value param)) param
    else param in
  match py_getitem (Str.chars format)
          (DataValue.type (BindParam.value param)) with
  | Raise e => (param, Raise e)
  | Return fmt =>
      let '(param, filled) :=
        if Ascii.eqb fmt "x" then assign_text param value
        else
          (param,
           let! packed := struct.pack (sys_byteorder P) fmt value in
           let! buffer := create_string_buffer (VBytes packed) in
           let! n := struct.calcsize fmt in
           Return (buffer, n, n))
      in
      match filled with
      | Raise e => (param, Raise e)
      | Return (buffer, size, length) =>
          (BindParam.set_value
             (DataValue.set_length (Some length)
                (DataValue.set_buffer_size size
                   (DataValue.set_buffer (Some buffer)
                      (BindParam.value param)))) param,
           Return tt)
      end
  end.

End Codec.


(* ===================================================================== *)
(** ** The native library, as the answers it gives *)
(* ===================================================================== *)

(** A statement or connection handle: a pointer, NULL or not. *)
Inductive handle : Set :=
  | NULL
  | pointer (address : Z).

Definition handle_true (h : handle) : bool :=
  match h with NULL => false | pointer _ => true end.

(** What one call of [ads_execute] answers and leaves behind: its return
    value, the columns [ads_get_column_info] reports, the counts of
    [ads_num_rows] and [ads_affected_rows], the rows [ads_fetch_next] will
    step through (each the values [ads_get_column] writes), and the bound
    parameters after the call. *)
Record execution : Type := {
  succeeded     : bool;
  column_infos  : list ColumnInfo.t;
  num_rows      : Z;
  affected_rows : Z;
  result_rows   : list (list DataValue.t);
  params_after  : list BindParam.t
}.

(** The answers of the library to one cursor: the handle [ads_prepare]
    returns, [ads_num_params], what [ads_describe_bind_param] writes for a
    parameter index, [ads_execute] for the n-th call on the given bound
    parameters, and the code [ads_error] returns. *)
Record library : Type := {
  ads_prepare             : handle;
  ads_num_params          : Z;
  ads_describe_bind_param : Z → BindParam.t;
  ads_execute             : nat → list BindParam.t → execution;
  ads_error               : Z
}.

(* ===================================================================== *)
(** ** Connection and Cursor (lines 363-633) *)
(* ===================================================================== *)

Module Connection.
(** [c] is the connection handle, [None] once closed. *)
Record t : Type := mk { c : option handle }.
End Connection.

(** One entry of [description]. *)
Record column : Type := {
  col_name        : option (list byte);
  col_type        : gset Z;
  col_max_size    : Z;
  col_precision   : Z;
  col_scale       : Z;
  col_nullable    : Z;
  col_native_type : Z
}.

Module Cursor.
(** The attributes of a cursor, and with them what the library holds for
    its statement: how many times it ran, the rows not fetched yet. *)
Record t : Type := mk {
  parent      : option Connection.t;
  arraysize   : Z;
  converter   : option (list Z);
  rowcount    : Z;
  stmt        : option handle;            (* __stmt *)
  description : option (list column);
  runs        : nat;
  pending     : list (list DataValue.t)
}.

(** [Cursor.__init__]. *)
Definition new (parent : Connection.t) : t :=
  mk (Some parent) 1 None (-1) None None 0 [].

Definition set_rowcount (v : Z) (s : t) : t :=
  mk (parent s) (arraysize s) (converter s) v (stmt s) (description s)
     (runs s) (pending s).
Definition set_stmt (v : option handle) (s : t) : t :=
  mk (parent s) (arraysize s) (converter s) (rowcount s) v (description s)
     (runs s) (pending s).
Definition set_description (d : option (list column))
    (cv : option (list Z)) (s : t) : t :=
  mk (parent s) (arraysize s) cv (rowcount s) (stmt s) d
     (runs s) (pending s).
Definition set_native (n : nat) (rows : list (list DataValue.t)) (s : t)
  : t :=
  mk (parent s) (arraysize s) (converter s) (rowcount s) (stmt s)
     (description s) n rows.
End Cursor.

Section Driver.

Variable P : platform.
Variable L : library.

(** Lines 380 and 391-392: the codec of every connection. *)
Definition char_set : string := "utf-16".
Definition valueof : DataValue.t → result pyval :=
  mk_valueof P [A_BINARY; A_STRING] char_set.
Definition assign : BindParam.t → pyval → BindParam.t * result unit :=
  mk_assign P char_set.

(** [Connection.con]. *)
Definition Connection_con (self : Connection.t) : result handle :=
  match Connection.c self with
  | Some h => if handle_true h then Return h else Raise InterfaceError
  | None => Raise InterfaceError
  end.

(** [Connection.error] returns the exception to raise. *)
Definition Connection_error (self : Connection.t) : result exn :=
  let! _ := Connection_con self in
  let rc := ads_error L in
  if bool_decide (rc ∈ [-193; -194; -195; -196])
  then Return IntegrityError else Return OperationalError.

(** [raise self.parent.error()]. *)
Definition raise_parent_error {A} (self : Cursor.t) : result A :=
  match Cursor.parent self with
  | None => Raise AttributeError
  | Some p =>
      match Connection_error p with
      | Return e => Raise e
      | Raise e => Raise e
      end
  end.

(** The getter of the property [stmt] (lines 487-492). *)
Definition stmt_get (self : Cursor.t) : result handle :=
  match Cursor.stmt self with
  | None => Raise InterfaceError
  | Some h => if handle_true h then Return h else raise_parent_error self
  end.

Definition get_stmt := stmt_get.

(** [Cursor.con]. *)
Definition con (self : Cursor.t) : result handle :=
  match Cursor.parent self with
  | None => Raise InterfaceError
  | Some p => Connection_con p
  end.

(** [free_statement] (lines 518-524). *)
Definition free_statement (self : Cursor.t) : Cursor.t * result unit :=
  match Cursor.stmt self with
  | Some (pointer a) =>
      (Cursor.set_rowcount (-1)
         (Cursor.set_description None None
            (Cursor.set_stmt None (Cursor.set_native 0 [] self))),
       Return tt)
  | _ => (self, Return tt)
  end.

(** Passing [v] to a foreign function without [argtypes]: ctypes takes
    [None], [bytes], a [str] without a NUL character and an [int] that
    fits a C [long], signed or unsigned, and refuses the other objects. *)
Definition as_argument (v : pyval) : result unit :=
  match v with
  | VNone | VBytes _ => Return tt
  | VStr s | VBinary s =>
      if existsb (Ascii.eqb "000") (Str.chars s)
      then Raise ArgumentError else Return tt
  | VInt z =>
      if (- 2 ^ (long_bits P - 1) <=? z) && (z <? 2 ^ long_bits P)
      then Return tt else Raise ArgumentError
  | _ => Raise ArgumentError
  end.

(** [new_statement] (lines 510-516): a [str] is encoded as UTF-16 before
    it is prepared, anything else is handed to [ads_prepare] as it is. *)
Definition new_statement (self : Cursor.t) (operation : pyval)
  : Cursor.t * result unit :=
  let '(self, _) := free_statement self in
  let operation :=
    match operation with
    | VStr s | VBinary s => VBytes (encode_utf16 (sys_byteorder P) s)
    | _ => operation
    end in
  match con self with
  | Raise e => (self, Raise e)
  | Return _ =>
      match as_argument operation with
      | Raise e => (self, Raise e)
      | Return _ =>
          (Cursor.set_stmt (Some (ads_prepare L))
             (Cursor.set_native 0 [] self),
           Return tt)
      end
  end.

(** Assigning a Python object to an integer field of [w] bits of a
    ctypes structure: an [int] is stored modulo [2^w], as a signed
    number; a [float] is refused. *)
Definition set_int_field (w : Z) (v : pyval) : result Z :=
  match v with
  | VInt z => Return ((z + 2 ^ (w - 1)) mod 2 ^ w - 2 ^ (w - 1))
  | _ => Raise TypeError
  end.

Definition wide_types : list Z :=
  [DT_NSTRING; DT_NFIXCHAR; DT_NVARCHAR; DT_LONGNVARCHAR].

(** One turn of the loop of [columns] (lines 537-551), on the record
    [ads_get_column_info] has filled. *)
Definition column_of (info : ColumnInfo.t) : result (column * Z) :=
  let! info :=
    if bool_decide (ColumnInfo.native_type info ∈ wide_types) then
      let! half := Double.truediv (ColumnInfo.precision info) 2 in
      let! precision := set_int_field 16 (VFloat half) in
      let! half := Double.truediv (ColumnInfo.max_size info) 2 in
      let! max_size := set_int_field 32 (VFloat half) in
      Return (ColumnInfo.mk (ColumnInfo.name info) (ColumnInfo.type info)
                (ColumnInfo.native_type info) precision
                (ColumnInfo.scale info) max_size (ColumnInfo.nullable info))
    else Return info in
  match ToPyType !! ColumnInfo.native_type info with
  | None => Raise KeyError
  | Some category =>
      Return ({| col_name := ColumnInfo.name info;
                 col_type := category;
                 col_max_size := ColumnInfo.max_size info;
                 col_precision := ColumnInfo.precision info;
                 col_scale := ColumnInfo.scale info;
                 col_nullable := ColumnInfo.nullable info;
                 col_native_type := ColumnInfo.native_type info |},
              ColumnInfo.native_type info)
  end.

(** Running a generator to its end: the items in order, or the first
    exception. *)
Fixpoint collect {A B} (f : A → result B) (l : list A) : result (list B) :=
  match l with
  | [] => Return []
  | a :: l' =>
      let! b := f a in
      let! bs := collect f l' in
      Return (b :: bs)
  end.

(** [columns], consumed whole, as the call of [zip] on line 573 does. *)
Definition columns (self : Cursor.t) (infos : list ColumnInfo.t)
  : result (list (column * Z)) :=
  let! _ := get_stmt self in
  collect column_of infos.

(** [bind] (lines 555-560), local to [executemany]. *)
Definition bind (self : Cursor.t) (k : Z) (col : pyval)
  : result BindParam.t :=
  let! _ := stmt_get self in
  let param := ads_describe_bind_param L k in
  let '(param, assigned) := assign param col in
  let! _ := assigned in
  let! _ := stmt_get self in
  Return param.

(** The list comprehension of lines 567-568, from index [k] on. *)
Fixpoint bind_from (self : Cursor.t) (k : Z) (cols : list pyval)
  : result (list BindParam.t) :=
  match cols with
  | [] => Return []
  | col :: cols' =>
      let! param := bind self k col in
      let! params := bind_from self (k + 1) cols' in
      Return (param :: params)
  end.

(** Lines 582-586: the new value of [self.rowcount], given the count
    [rowcount] of the execution that just ran. *)
Definition add_rowcount (self_rowcount rowcount : Z) : Z :=
  if rowcount <? 0 then -1
  else if self_rowcount >=? 0 then self_rowcount + rowcount
  else self_rowcount.

(** Lines 572-580: the description, the converter types and the count
    of the execution; a [ValueError] (no column to unpack) selects the
    affected-row count. *)
Definition describe_result (self : Cursor.t) (e : execution)
  : Cursor.t * result Z :=
  let no_result_set :=
    (Cursor.set_description None None self, Return (affected_rows e)) in
  match columns self (column_infos e) with
  | Return [] => no_result_set
  | Return cols =>
      (Cursor.set_description (Some cols.*1) (Some cols.*2) self,
       Return (num_rows e))
  | Raise x =>
      if exn_isa x ValueError then no_result_set else (self, Raise x)
  end.

(** One turn of the loop of [executemany] up to line 580: the cursor,
    the local [rowcount] and the list [parms]. *)
Definition run_once (bind_count : Z) (self : Cursor.t)
    (parameters : list pyval)
  : Cursor.t * result (Z * list BindParam.t) :=
  match bind_from self 0 (py_slice_to parameters bind_count) with
  | Raise x => (self, Raise x)
  | Return parms =>
      match stmt_get self with
      | Raise x => (self, Raise x)
      | Return _ =>
          let e := ads_execute L (Cursor.runs self) parms in
          let self :=
            Cursor.set_native (S (Cursor.runs self)) (result_rows e) self in
          if negb (succeeded e) then (self, raise_parent_error self)
          else
            match describe_result self e with
            | (self, Raise x) => (self, Raise x)
            | (self, Return rowcount) =>
                (self, Return (rowcount, params_after e))
            end
      end
  end.

(** One whole turn of the loop (lines 567-586). *)
Definition execute_once (bind_count : Z) (self : Cursor.t)
    (parameters : list pyval) : Cursor.t * result (list BindParam.t) :=
  match run_once bind_count self parameters with
  | (self, Raise x) => (self, Raise x)
  | (self, Return (rowcount, parms)) =>
      (Cursor.set_rowcount
         (add_rowcount (Cursor.rowcount self) rowcount) self,
       Return parms)
  end.

(** The loop of line 566; [parms] is [None] while the local variable
    [parms] has not been assigned. *)
Fixpoint execute_each (bind_count : Z) (self : Cursor.t)
    (parms : option (list BindParam.t))
    (seq_of_parameters : list (list pyval))
  : Cursor.t * result (option (list BindParam.t)) :=
  match seq_of_parameters with
  | [] => (self, Return parms)
  | parameters :: rest =>
      match execute_once bind_count self parameters with
      | (self, Raise x) => (self, Raise x)
      | (self, Return parms) => execute_each bind_count self (Some parms) rest
      end
  end.

(** The [try] block of [executemany] (lines 563-586). *)
Definition executemany_try (self : Cursor.t) (operation : pyval)
    (seq_of_parameters : list (list pyval))
  : Cursor.t * result (option (list BindParam.t)) :=
  match new_statement self operation with
  | (self, Raise x) => (self, Raise x)
  | (self, Return _) =>
      match stmt_get self with
      | Raise x => (self, Raise x)
      | Return _ =>
          let bind_count := ads_num_params L in
          let self := Cursor.set_rowcount 0 self in
          execute_each bind_count self None seq_of_parameters
      end
  end.

(** [executemany] (lines 553-591): the cursor as the call leaves it, and
    what the call returns or raises. *)
Definition executemany (self : Cursor.t) (operation : pyval)
    (seq_of_parameters : list (list pyval))
  : Cursor.t * result (list pyval) :=
  match executemany_try self operation seq_of_parameters with
  | (self, Raise x) => (Cursor.set_rowcount (-1) self, Raise x)
  | (self, Return None) => (self, Raise UnboundLocalError)
  | (self, Return (Some parms)) =>
      (self, collect (λ param, valueof (BindParam.value param)) parms)
  end.

(** [execute] (lines 593-594). *)
Definition execute (self : Cursor.t) (operation : pyval)
    (parameters : list pyval) : Cursor.t * result pyval :=
  let '(self, r) := executemany self operation [parameters] in
  (self, let! _ := r in Return VNone).

(** [values] (lines 600-609), run to its end on the row the library is
    positioned on. *)
Definition values (self : Cursor.t) (row : list DataValue.t)
  : result (list pyval) :=
  let! _ := get_stmt self in
  collect valueof row.

(** One [next] on the generator that [rows()] returns (lines 611-617).
    [started] is false for the first [next], which runs the test of line
    612; a result of [None] is the end of the iteration. *)
Definition rows_next (started : bool) (self : Cursor.t)
  : Cursor.t * result (option (list pyval)) :=
  if negb started
     && negb (match Cursor.description self with
              | Some (_ :: _) => true
              | _ => false
              end)
  then (self, Raise InterfaceError)
  else
    match get_stmt self with
    | Raise x => (self, Raise x)
    | Return _ =>
        match Cursor.pending self with
        | [] => (self, Return None)
        | row :: rest =>
            let self := Cursor.set_native (Cursor.runs self) rest self in
            (self, let! vs := values self row in Return (Some vs))
        end
    end.

(** [zip(range(n), self.rows())] collected in a list: [range] is asked
    first, and the generator is not resumed once [range] is used up. *)
Fixpoint zip_range_rows (n : nat) (started : bool) (self : Cursor.t)
  : Cursor.t * result (list (list pyval)) :=
  match n with
  | O => (self, Return [])
  | S n' =>
      match rows_next started self with
      | (self, Raise x) => (self, Raise x)
      | (self, Return None) => (self, Return [])
      | (self, Return (Some row)) =>
          let '(self, more) := zip_range_rows n' true self in
          (self, let! rows := more in Return (row :: rows))
      end
  end.

(** [fetchmany] (lines 620-623); [size] is [None] when not given. *)
Definition fetchmany (self : Cursor.t) (size : option Z)
  : Cursor.t * result (list (list pyval)) :=
  let size := match size with
              | None => Cursor.arraysize self
              | Some n => n
              end in
  zip_range_rows (Z.to_nat size) false self.

(** [fetchone] (lines 625-629). *)
Definition fetchone (self : Cursor.t)
  : Cursor.t * result (option (list pyval)) :=
  let '(self, fetched) := fetchmany self (Some 1) in
  (self,
   let! rows := fetched in
   match rows with
   | row :: _ => Return (Some row)
   | [] => Return None
   end).

(** [list(self.rows())]: the generator resumed until it ends; [rows] is
    what the library still has to deliver, one row less at each turn. *)
Fixpoint list_rows (started : bool) (self : Cursor.t)
    (rows : list (list DataValue.t))
  : Cursor.t * result (list (list pyval)) :=
  match rows_next started
          (Cursor.set_native (Cursor.runs self) rows self) with
  | (self, Raise x) => (self, Raise x)
  | (self, Return None) => (self, Return [])
  | (self, Return (Some row)) =>
      match rows with
      | [] => (self, Return [row])
      | _ :: rest =>
          let '(self, more) := list_rows true self rest in
          (self, let! rows := more in Return (row :: rows))
      end
  end.

(** [fetchall] (lines 631-633). *)
Definition fetchall (self : Cursor.t)
  : Cursor.t * result (list (list pyval)) :=
  list_rows false self (Cursor.pending self).

End Driver.


(* ===================================================================== *)
(** ** Vocabulary of the properties *)
(* ===================================================================== *)

(** The fixed-width numeric tags, with the width and signedness their
    names give. *)
Definition numeric_layout (tag : Z) : option struct.layout :=
  match tag with
  | 3 => Some struct.float64        (* A_DOUBLE *)
  | 4 => Some (struct.sint 8)       (* A_VAL64 *)
  | 5 => Some (struct.uint 8)       (* A_UVAL64 *)
  | 6 => Some (struct.sint 4)       (* A_VAL32 *)
  | 7 => Some (struct.uint 4)       (* A_UVAL32 *)
  | 8 => Some (struct.sint 2)       (* A_VAL16 *)
  | 9 => Some (struct.uint 2)       (* A_UVAL16 *)
  | 10 => Some (struct.sint 1)      (* A_VAL8 *)
  | 11 => Some (struct.uint 1)      (* A_UVAL8 *)
  | _ => None
  end.

(** The least and the greatest integer of a layout. *)
Definition int_min (l : struct.layout) : Z :=
  match l with
  | struct.sint n => - 2 ^ (struct.bits n - 1)
  | _ => 0
  end.

Definition int_max (l : struct.layout) : Z :=
  match l with
  | struct.sint n => 2 ^ (struct.bits n - 1) - 1
  | struct.uint n => 2 ^ struct.bits n - 1
  | _ => 0
  end.

(** A value a layout can hold: an [int] within its bounds, or any double
    for the layout of doubles. *)
Definition representable (l : struct.layout) (v : pyval) : bool :=
  match l, v with
  | (struct.sint _ | struct.uint _), VInt z =>
      (int_min l <=? z) && (z <=? int_max l)
  | struct.float64, VFloat b => (0 <=? b) && (b <? 2 ^ 64)
  | _, _ => false
  end.

(** The tags the branches of [valueof] name, with the connection's [raw]:
    binary, string, national character, decimal, date, time, timestamp. *)
Definition named_tags : list Z :=
  [A_BINARY; A_STRING; A_NCHAR; A_DECIMAL; A_DATE; A_TIME; A_TIMESTAMP].

(** A tag no static decode rule covers. *)
Definition uncovered (tag : Z) : bool :=
  negb (bool_decide (tag ∈ named_tags))
  && match numeric_layout tag with Some _ => false | None => true end.

(** The counts the executions of a batch report, in order: the local
    [rowcount] of each turn of the loop that reaches line 582. *)
Fixpoint reported_counts (P : platform) (L : library) (bind_count : Z)
    (self : Cursor.t) (seq_of_parameters : list (list pyval)) : list Z :=
  match seq_of_parameters with
  | [] => []
  | parameters :: rest =>
      match run_once P L bind_count self parameters with
      | (self, Return (rowcount, _)) =>
          rowcount ::
            reported_counts P L bind_count
              (Cursor.set_rowcount
                 (add_rowcount (Cursor.rowcount self) rowcount) self) rest
      | (_, Raise _) => []
      end
  end.

Definition batch_counts (P : platform) (L : library) (self : Cursor.t)
    (operation : pyval) (seq_of_parameters : list (list pyval)) : list Z :=
  match new_statement P L self operation with
  | (self, Return _) =>
      match stmt_get L self with
      | Return _ =>
          reported_counts P L (ads_num_params L)
            (Cursor.set_rowcount 0 self) seq_of_parameters
      | Raise _ => []
      end
  | (_, Raise _) => []
  end.

(** The statement is prepared: [new_statement] returns, and the handle it
    stored is one the property [stmt] gives back. *)
Definition prepares (P : platform) (L : library) (self : Cursor.t)
    (operation : pyval) : bool :=
  match new_statement P L self operation with
  | (self, Return _) => returns (stmt_get L self)
  | (_, Raise _) => false
  end.

(** *** A host and libraries for the examples *)

(** UTF-16 with the byte order [o] unless a byte-order mark says otherwise;
    a code unit above 255 has no place in a [string]. *)
Fixpoint decode_units (o : byteorder) (b : list byte) (n : nat)
  : result (list ascii) :=
  match n, b with
  | _, [] => Return []
  | S n', lo :: hi :: b' =>
      let u := int_of_bytes o [lo; hi] in
      if u <? 256 then
        let! cs := decode_units o b' n' in
        Return (ascii_of_N (Z.to_N u) :: cs)
      else Raise ValueError
  | _, _ => Raise ValueError
  end.

Definition decode_utf16 (o : byteorder) (b : list byte) : result string :=
  let '(o, b) :=
    match b with
    | lo :: hi :: b' =>
        if int_of_bytes little [lo; hi] =? 65279 then (little, b')
        else if int_of_bytes big [lo; hi] =? 65279 then (big, b')
        else (o, b)
    | _ => (o, b)
    end in
  let! cs := decode_units o b (length b) in
  Return (Str.text cs).

(** A little-endian host with a C [long] of 64 bits that knows the codec
    [utf-16]; its [str] is only needed on objects that are not text, and
    names the kind of object; where nothing was written its memory holds
    zero bytes. *)
Definition example_host : platform :=
  {| sys_byteorder := little;
     decode := λ cs b, if bool_decide (cs = "utf-16"%string)
                       then decode_utf16 little b else Raise LookupError;
     str := λ v, match v with
                 | VNone => "None"
                 | VInt _ => "int"
                 | VFloat _ => "float"
                 | VBytes _ => "bytes"
                 | VStr s | VBinary s => s
                 | VDate _ _ _ => "date"
                 | VTime _ _ _ _ => "time"
                 end%string;
     memory := λ _, x00;
     long_bits := 64 |}.

(** A buffer holding [bs], not null, with the given tag. *)
Definition buffer_of (tag : Z) (bs : list byte) : DataValue.t :=
  DataValue.mk (Some bs) (Z.of_nat (length bs)) (Some (Z.of_nat (length bs)))
    tag (Some 0).

(** A parameter as [ads_describe_bind_param] leaves it: an input of the
    given tag, nothing bound yet. *)
Definition input_param (tag : Z) : BindParam.t :=
  BindParam.mk DD_INPUT (DataValue.set_type tag DataValue.new) None.

(** A statement without result set whose n-th execution reports the n-th
    count of [counts] as its affected rows. *)
Definition dml_library (counts : list Z) : library :=
  {| ads_prepare := pointer 1;
     ads_num_params := 0;
     ads_describe_bind_param := λ _, input_param A_INVALID_TYPE;
     ads_execute := λ n parms,
       {| succeeded := true; column_infos := []; num_rows := 0;
          affected_rows := nth n counts 0; result_rows := [];
          params_after := parms |};
     ads_error := 0 |}.

(** A query with one column described by [info], and no row. *)
Definition query_library (info : ColumnInfo.t) : library :=
  {| ads_prepare := pointer 1;
     ads_num_params := 0;
     ads_describe_bind_param := λ _, input_param A_INVALID_TYPE;
     ads_execute := λ n parms,
       {| succeeded := true; column_infos := [info]; num_rows := 0;
          affected_rows := 0; result_rows := [];
          params_after := parms |};
     ads_error := 0 |}.

(** A cursor just opened on a live connection. *)
Definition fresh_cursor : Cursor.t :=
  Cursor.new (Connection.mk (Some (pointer 7))).

(** The wide-character column of the example: precision 20, size 40. *)
Definition wide_column (native_type : Z) : ColumnInfo.t :=
  ColumnInfo.mk None A_NCHAR native_type 20 0 40 1.

(** The bytes of a text of ASCII characters. *)
Definition ascii_bytes (s : string) : list byte := list_byte_of_string s.

(** The boundary values of every numeric tag, on both byte orders: zero,
    the greatest and the least value of the width and -1 for the integers;
    zero, one, the infinities and a NaN for the doubles. *)
Definition boundary_values (l : struct.layout) : list pyval :=
  match l with
  | struct.sint _ => [VInt 0; VInt (int_max l); VInt (int_min l); VInt (-1)]
  | struct.uint _ => [VInt 0; VInt (int_max l)]
  | struct.float64 =>
      [VFloat 0; VFloat 4607182418800017408; VFloat 9218868437227405312;
       VFloat 18442240474082181120; VFloat 9221120237041090560;
       VFloat (2 ^ 64 - 1)]
  | struct.pad => []
  end.

Definition round_trips (P : platform) (tag : Z) (v : pyval) : bool :=
  match assign P (input_param tag) v with
  | (param, Return _) =>
      match valueof P (BindParam.value param) with
      | Return (VInt z) => match v with VInt y => z =? y | _ => false end
      | Return (VFloat z) => match v with VFloat y => z =? y | _ => false end
      | _ => false
      end
  | (_, Raise _) => false
  end.

Definition big_endian_host : platform :=
  {| sys_byteorder := big;
     decode := decode example_host;
     str := str example_host;
     memory := memory example_host;
     long_bits := long_bits example_host |}.

(* ===================================================================== *)
(** ** Further vocabulary *)
(* ===================================================================== *)

(** Lines 249-252: the value [assign] goes on with, zero for a [None]
    bound to an input parameter. *)
Definition bound_value (param : BindParam.t) (value : pyval) : pyval :=
  match value with
  | VNone => if BindParam.direction param =? DD_INPUT then VInt 0 else VNone
  | _ => value
  end.

(** Lines 253-261: the tag [assign] goes on with, inferred from the value
    when the parameter has none. *)
Definition bound_tag (param : BindParam.t) (value : pyval) : Z :=
  if DataValue.type (BindParam.value param) =? A_INVALID_TYPE then
    match bound_value param value with
    | VInt _ => A_VAL32
    | VFloat _ => A_DOUBLE
    | VBinary _ => A_BINARY
    | _ => A_STRING
    end
  else DataValue.type (BindParam.value param).

(** The null indicator [assign] writes. *)
Definition null_flag (value : pyval) : Z :=
  match value with VNone => 1 | _ => 0 end.

(** The parameter [assign] leaves when it has packed [bs]. *)
Definition bound_param (param : BindParam.t) (value : pyval)
    (bs : list byte) : BindParam.t :=
  BindParam.mk (BindParam.direction param)
    (DataValue.mk (Some (bs ++ [x00])) (Z.of_nat (length bs))
       (Some (Z.of_nat (length bs))) (bound_tag param value)
       (Some (null_flag value)))
    (BindParam.name param).

(** The six categories the module exports for native codes. *)
Definition categories : list (gset Z) :=
  [STRING; BINARY; NUMBER; DATE; TIME; TIMESTAMP].

(** The class [Connection.error] gives to the code [ads_error] returns. *)
Definition error_class (L : library) : exn :=
  if bool_decide (ads_error L ∈ [-193; -194; -195; -196])
  then IntegrityError else OperationalError.

(** What [description] and [converter] are after an execution: both
    unset, or a description that is not empty with the native types of its
    columns as the converter's types. *)
Definition described (s : Cursor.t) : Prop :=
  (Cursor.description s = None ∧ Cursor.converter s = None)
  ∨ ∃ c cs, Cursor.description s = Some (c :: cs)
            ∧ Cursor.converter s = Some (col_native_type <$> c :: cs).

(** A cursor that was closed: it has no parent any more. *)
Definition closed_cursor : Cursor.t :=
  Cursor.mk None 1 None (-1) None None 0 [].

(** A statement whose preparation fails, with the code 7200 as the
    error. *)
Definition failing_library (rc : Z) : library :=
  {| ads_prepare := NULL;
     ads_num_params := 0;
     ads_describe_bind_param := λ _, input_param A_INVALID_TYPE;
     ads_execute := λ n parms,
       {| succeeded := false; column_infos := []; num_rows := 0;
          affected_rows := 0; result_rows := []; params_after := parms |};
     ads_error := rc |}.

(** A statement that prepares and whose every execution fails. *)
Definition rejecting_library (rc : Z) : library :=
  {| ads_prepare := pointer 1;
     ads_num_params := 0;
     ads_describe_bind_param := λ _, input_param A_INVALID_TYPE;
     ads_execute := λ n parms,
       {| succeeded := false; column_infos := []; num_rows := 0;
          affected_rows := 0; result_rows := []; params_after := parms |};
     ads_error := rc |}.

(** The cursor has a result set: [self.description] is true. *)
Definition has_result_set (s : Cursor.t) : bool :=
  match Cursor.description s with
  | Some (_ :: _) => true
  | _ => false
  end.

(** The rows a list of native rows decodes to: every value of every row
    through [valueof], or the first exception. *)
Definition decode_rows (P : platform) (rows : list (list DataValue.t))
  : result (list (list pyval)) :=
  collect (collect (valueof P)) rows.

(** The cursor with the rows [rows] left to fetch. *)
Definition with_pending (rows : list (list DataValue.t)) (s : Cursor.t)
  : Cursor.t :=
  Cursor.set_native (Cursor.runs s) rows s.

(** A 32-bit column value. *)
Definition int_value (z : Z) : DataValue.t :=
  buffer_of A_VAL32 (le_bytes 4 z).

(** A cursor on an executed query with one integer column and the rows
    1, 2 and 3 still to fetch. *)
Definition query_cursor : Cursor.t :=
  Cursor.mk (Some (Connection.mk (Some (pointer 7)))) 1 (Some [DT_INT]) 3
    (Some (pointer 1))
    (Some [ {| col_name := None; col_type := NUMBER; col_max_size := 4;
               col_precision := 10; col_scale := 0; col_nullable := 1;
               col_native_type := DT_INT |} ])
    1 [[int_value 1]; [int_value 2]; [int_value 3]].

(* ===================================================================== *)
(** ** The type converters (lines 465-474 and 722-724) *)
(* ===================================================================== *)

(** A callback registered for a native type: a function of one value, that
    can raise. *)
Definition callback : Type := pyval → result pyval.

(** [register_converter]: the dictionary [CONVERSION_CALLBACKS] with the
    entry set. *)
Definition register_converter (datatype : Z) (f : callback)
    (registry : gmap Z callback) : gmap Z callback :=
  <[datatype := f]> registry.

(** [find_converter] (lines 467-468). *)
Definition find_converter (registry : gmap Z callback) (t : Z) : callback :=
  default (λ x, Return x) (registry !! t).

(** [TypeConverter.gen], run to its end.  The attribute [converters] is
    the iterator [map(find_converter, types)]: a [TypeConverter] is the
    types that iterator has not reached yet, and [find_converter] sees the
    dictionary as it is when the iterator moves.  [zip] asks the
    converters first, so the converter drawn when the values run out is
    gone.  The result is the types left and the values yielded. *)
Fixpoint gen (registry : gmap Z callback) (converters : list Z)
    (values : list pyval) : list Z * result (list pyval) :=
  match converters with
  | [] => ([], Return [])
  | t :: converters' =>
      match values with
      | [] => (converters', Return [])
      | v :: values' =>
          match find_converter registry t v with
          | Raise e => (converters', Raise e)
          | Return w =>
              let '(rest, more) := gen registry converters' values' in
              (rest, let! ws := more in Return (w :: ws))
          end
      end
  end.

(* ===================================================================== *)
(** ** The constructors of date and time literals (lines 642-649) *)
(* ===================================================================== *)

From Stdlib Require DecimalString.

(** The decimal digits of a natural number. *)
Definition decimal (n : N) : string :=
  DecimalString.NilZero.string_of_uint (N.to_uint n).

(** ["%0wd" % n]: the sign of a negative number, then its digits with
    zeros before them up to the width [w]. *)
Definition zero_padded (w : nat) (n : Z) : string :=
  let sign := if n <? 0 then "-" else "" in
  let digits := decimal (Z.abs_N n) in
  (sign
   ++ Str.text (replicate (w - String.length sign - String.length digits) "0"%char)
   ++ digits)%string.

(** The pieces of a format string, for the directives the module uses. *)
Inductive piece : Set :=
  | literal (c : ascii)
  | zero_padded_int (width : nat).

Fixpoint parse_format (l : list ascii) : result (list piece) :=
  match l with
  | [] => Return []
  | c :: rest =>
      if Ascii.eqb c "%" then
        match rest with
        | zero :: w :: d :: rest' =>
            if Ascii.eqb zero "0" && Str.is_digit w && Ascii.eqb d "d" then
              let! ps := parse_format rest' in
              Return (zero_padded_int (Z.to_nat (Str.digit w)) :: ps)
            else Raise ValueError
        | _ => Raise ValueError
        end
      else
        let! ps := parse_format rest in Return (literal c :: ps)
  end.

(** The number a [%d] directive prints for an argument: an [int] itself,
    a [float] truncated; anything else raises [TypeError]. *)
Definition as_integer (v : pyval) : result Z :=
  match v with
  | VInt z => Return z
  | VFloat b => Double.to_int b
  | _ => Raise TypeError
  end.

(** Filling the pieces from a tuple of arguments, left to right; an
    argument missing or left over raises [TypeError]. *)
Fixpoint fill (ps : list piece) (args : list pyval) : result string :=
  match ps with
  | [] => match args with
          | [] => Return ""%string
          | _ :: _ => Raise TypeError
          end
  | literal c :: ps' =>
      let! s := fill ps' args in Return (String c s)
  | zero_padded_int w :: ps' =>
      match args with
      | [] => Raise TypeError
      | a :: args' =>
          let! n := as_integer a in
          let! s := fill ps' args' in
          Return (zero_padded w n ++ s)%string
      end
  end.

(** [fmt % args] for a tuple [args]. *)
Definition percent (fmt : string) (args : list pyval) : result string :=
  let! ps := parse_format (Str.chars fmt) in fill ps args.

Definition Date (ymd : list pyval) : result string :=
  percent "%04d/%02d/%02d" ymd.

Definition Time (hms : list pyval) : result string :=
  percent "%02d:%02d:%02d" hms.

Definition Timestamp (ymdhms : list pyval) : result string :=
  percent "%04d/%02d/%02d %02d:%02d:%02d" ymdhms.

(* ===================================================================== *)
(** ** Loading the native library (lines 313-322) *)
(* ===================================================================== *)

(** [load_library]: the first name [LoadLibrary] can load.  [LoadLibrary]
    answers the library or raises [OSError], which is [None] here. *)
Fixpoint load_library {lib : Type} (LoadLibrary : string → option lib)
    (names : list string) : result lib :=
  match names with
  | [] => Raise InterfaceError
  | name :: names' =>
      match LoadLibrary name with
      | Some l => Return l
      | None => load_library LoadLibrary names'
      end
  end.

(* ===================================================================== *)
(** ** Opening a connection (lines 356-405) *)
(* ===================================================================== *)

(** [a + b] for a [str] on the left: the other side has to be a [str]
    too. *)
Definition str_add (a : string) (b : pyval) : result string :=
  match b with
  | VStr s | VBinary s => Return (a ++ s)%string
  | _ => Raise TypeError
  end.

(** [s.replace(old, "")] for one character [old]: every occurrence is
    left out. *)
Fixpoint replace_by_empty (old : ascii) (s : string) : string :=
  match s with
  | EmptyString => EmptyString
  | String c s' =>
      if Ascii.eqb c old then replace_by_empty old s'
      else String c (replace_by_empty old s')
  end.

(** [s.encode('utf-8')]: one byte for a code point below 128, two for
    the others.  Every code point of a [string] is below 256; a text with
    a lone surrogate, on which [encode] raises, is none of the texts of
    this model. *)
Definition encode_utf8 (s : string) : list byte :=
  concat ((λ c, let n := Str.code c in
                if n <? 128 then [byte_of_Z n]
                else [byte_of_Z (192 + n / 64); byte_of_Z (128 + n mod 64)])
          <$> Str.chars s).

(** Lines 381-383: the connection string, from the keyword arguments in
    the order they were given. *)
Definition connection_string (kwargs : list (string * pyval))
  : result (list byte) :=
  let! items := collect (λ '(kw, arg), str_add (kw ++ "=") arg) kwargs in
  let params := String.concat ";" items in
  let params := replace_by_empty " " params in
  Return (encode_utf8 params).

(** A keyword argument with the spaces of its name and of its text
    taken out. *)
Definition without_spaces (item : string * pyval) : string * pyval :=
  (replace_by_empty " " item.1,
   match item.2 with
   | VStr s => VStr (replace_by_empty " " s)
   | VBinary s => VBinary (replace_by_empty " " s)
   | v => v
   end).

(** The answers of the library to a connection attempt: the handle
    [ads_new_connection] returns, and whether [ads_connect] accepts the
    connection string. *)
Record connector : Type := {
  ads_new_connection : handle;
  ads_connect        : list byte → bool
}.

(** The calls that release a resource of the library or end a
    transaction. *)
Inductive call : Set :=
  | ads_free_stmt (stmt : handle)
  | ads_disconnect (c : handle)
  | ads_free_connection (c : handle)
  | ads_commit (c : handle)
  | ads_rollback (c : handle).

(** [Connection.__init__] (lines 365-405): the calls it made, and the
    connection or the exception. *)
Definition Connection_init (K : connector) (L : library)
    (kwargs : list (string * pyval)) : list call * result Connection.t :=
  match connection_string kwargs with
  | Raise e => ([], Raise e)
  | Return paramsTwo =>
      let self := Connection.mk (Some (ads_new_connection K)) in
      if negb (handle_true (ads_new_connection K)) then
        ([], let! error := Connection_error L self in Raise error)
      else if negb (ads_connect K paramsTwo) then
        match Connection_error L self with
        | Raise e => ([], Raise e)
        | Return error =>
            ([ads_free_connection (ads_new_connection K)], Raise error)
        end
      else ([], Return self)
  end.

(** [connect] (lines 356-360); the positional arguments are not used. *)
Definition connect (K : connector) (L : library) (args : list pyval)
    (kwargs : list (string * pyval)) : list call * result Connection.t :=
  Connection_init K L kwargs.

(* ===================================================================== *)
(** ** Closing (lines 411-462 and 526-532) *)
(* ===================================================================== *)

Module Session.
(** A connection object with its attribute [cursors]: the identities of
    the cursors it holds, [None] once it was closed. *)
Record t : Type := mk {
  connection : Connection.t;
  cursors    : option (gset nat)
}.
End Session.

(** [self.parent = p] on a cursor. *)
Definition set_parent (p : option Connection.t) (self : Cursor.t)
  : Cursor.t :=
  Cursor.mk p (Cursor.arraysize self) (Cursor.converter self)
    (Cursor.rowcount self) (Cursor.stmt self) (Cursor.description self)
    (Cursor.runs self) (Cursor.pending self).

(** The call [free_statement] makes (lines 519-520). *)
Definition free_statement_calls (self : Cursor.t) : list call :=
  match Cursor.stmt self with
  | Some (pointer a) => [ads_free_stmt (pointer a)]
  | _ => []
  end.

(** [Cursor.close] (lines 526-532) on the cursor object [x] in the state
    [self]; [cursors] is the attribute of its parent.  The result is the
    cursor, the attribute and the calls made. *)
Definition Cursor_close (remove : bool) (x : nat) (self : Cursor.t)
    (cursors : option (gset nat))
  : (Cursor.t * option (gset nat) * list call) * result unit :=
  match Cursor.parent self with
  | None => ((self, cursors, []), Return tt)
  | Some p =>
      let self := set_parent None self in
      if remove then
        match cursors with
        | None => ((self, cursors, []), Raise AttributeError)
        | Some members =>
            if bool_decide (x ∈ members) then
              let '(self', r) := free_statement self in
              ((self', Some (members ∖ {[x]}), free_statement_calls self), r)
            else ((self, cursors, []), Raise KeyError)
        end
      else
        let '(self', r) := free_statement self in
        ((self', cursors, free_statement_calls self), r)
  end.

(** What [close(remove=False)] leaves of a cursor, and the calls it
    makes. *)
Definition after_close (self : Cursor.t) : Cursor.t :=
  match Cursor.parent self with
  | Some _ => fst (free_statement (set_parent None self))
  | None => self
  end.

Definition close_calls (self : Cursor.t) : list call :=
  match Cursor.parent self with
  | Some _ => free_statement_calls self
  | None => []
  end.

(** The loop of lines 445-446 over the cursor objects of [self.cursors]:
    the objects after it and the calls made, up to the first
    exception. *)
Fixpoint close_each (members : list (nat * Cursor.t))
    (cursors : option (gset nat))
  : (list (nat * Cursor.t) * list call) * result unit :=
  match members with
  | [] => (([], []), Return tt)
  | (x, self) :: rest =>
      let '((self', _, calls), r) := Cursor_close false x self cursors in
      match r with
      | Raise e => (((x, self') :: rest, calls), Raise e)
      | Return _ =>
          let '((rest', calls'), r') := close_each rest cursors in
          (((x, self') :: rest', calls ++ calls'), r')
      end
  end.

(** The cursors that refer to the connection see its new state. *)
Definition refer_to (c : Connection.t) (self : Cursor.t) : Cursor.t :=
  match Cursor.parent self with
  | Some _ => set_parent (Some c) self
  | None => self
  end.

(** [Connection.close] (lines 442-449).  [objects] are the cursor objects
    created on this connection, by identity; the members of
    [self.cursors] are those whose identity is in the set.  The result is
    the connection, the objects and the calls made. *)
Definition Connection_close (s : Session.t) (objects : gmap nat Cursor.t)
  : (Session.t * gmap nat Cursor.t * list call) * result unit :=
  match Connection_con (Session.connection s) with
  | Raise e => ((s, objects, []), Raise e)
  | Return c =>
      let self_c := Connection.mk None in
      let objects := refer_to self_c <$> objects in
      match Session.cursors s with
      | None => ((Session.mk self_c None, objects, []), Raise TypeError)
      | Some members =>
          let held :=
            map_to_list (filter (λ o, o.1 ∈ members) objects) in
          let '((held', calls), r) := close_each held (Some members) in
          let objects := list_to_map held' ∪ objects in
          match r with
          | Raise e =>
              ((Session.mk self_c (Some members), objects, calls), Raise e)
          | Return _ =>
              ((Session.mk self_c None, objects,
                calls ++ [ads_disconnect c; ads_free_connection c]),
               Return tt)
          end
      end
  end.

(** [Connection.cursor] (lines 451-454): the new cursor object gets an
    identity no object has. *)
Definition Connection_cursor (s : Session.t) (objects : gmap nat Cursor.t)
  : (Session.t * gmap nat Cursor.t) * result nat :=
  let x := fresh (dom objects) in
  let objects := <[x := Cursor.new (Session.connection s)]> objects in
  match Session.cursors s with
  | None => ((s, objects), Raise AttributeError)
  | Some members =>
      ((Session.mk (Session.connection s) (Some ({[x]} ∪ members)),
        objects),
       Return x)
  end.

(** [commit] and [rollback] (lines 419-423): the call made, when the
    connection is open. *)
Definition Connection_commit (s : Session.t) : list call * result unit :=
  match Connection_con (Session.connection s) with
  | Raise e => ([], Raise e)
  | Return c => ([ads_commit c], Return tt)
  end.

Definition Connection_rollback (s : Session.t) : list call * result unit :=
  match Connection_con (Session.connection s) with
  | Raise e => ([], Raise e)
  | Return c => ([ads_rollback c], Return tt)
  end.

(** [__exit__] (lines 458-462): [exc] is the class of the exception that
    left the block, if one did. *)
Definition Connection_exit (exc : option exn) (s : Session.t)
  : list call * result unit :=
  match exc with
  | Some _ => Connection_rollback s
  | None => Connection_commit s
  end.

(** A library that hands out a connection handle and refuses every
    connection string. *)
Definition refusing_connector : connector :=
  {| ads_new_connection := pointer 7; ads_connect := λ _, false |}.

(** An open connection that holds the cursor 1, and the cursors created
    on it: the cursor 1, on an executed query, and the cursor 2, which the
    connection does not hold. *)
Definition example_session : Session.t :=
  Session.mk (Connection.mk (Some (pointer 7))) (Some {[1%nat]}).

Definition example_objects : gmap nat Cursor.t :=
  {[1%nat := query_cursor; 2%nat := fresh_cursor]}.

(* ===================================================================== *)
(** * Properties *)
(* ===================================================================== *)

(** ** Bytes *)

Lemma byte_to_of_Z (z : Z) : byte_to_Z (byte_of_Z z) = Z.land z 255.
Proof.
  unfold byte_to_Z, byte_of_Z.
  assert (Hb : 0 <= Z.land z 255 < 256).
  { change 255 with (Z.ones 8). rewrite Z.land_ones by lia.
    apply Z.mod_pos_bound. lia. }
  destruct (Byte.of_N (Z.to_N (Z.land z 255))) as [b|] eqn:E.
  - apply Byte.to_of_N in E. rewrite E. lia.
  - apply Byte.of_N_None_iff in E. lia.
Qed.

Lemma length_le_bytes (n : nat) (z : Z) : length (le_bytes n z) = n.
Proof. revert z. induction n as [|n IH]; intros z; simpl; [done|]. by rewrite IH. Qed.

Lemma le_value_le_bytes (n : nat) (z : Z) :
  le_value (le_bytes n z) = z mod 2 ^ (8 * Z.of_nat n).
Proof.
  revert z. induction n as [|n IH]; intros z.
  - simpl. by rewrite Z.mod_1_r.
  - cbn [le_bytes le_value]. rewrite IH, byte_to_of_Z.
    replace (8 * Z.of_nat (S n)) with (8 + 8 * Z.of_nat n) by lia.
    rewrite <- !Z.land_ones by lia.
    change 255 with (Z.ones 8).
    apply Z.bits_inj'. intros i Hi.
    rewrite Z.lor_spec, !Z.land_spec.
    destruct (Z.lt_ge_cases i 8) as [Hlt|Hge].
    + rewrite Z.shiftl_spec_low by lia.
      rewrite !Z.testbit_ones_nonneg by lia.
      replace (i <? 8) with true by (symmetry; apply Z.ltb_lt; lia).
      replace (i <? 8 + 8 * Z.of_nat n) with true
        by (symmetry; apply Z.ltb_lt; lia).
      by rewrite orb_false_r.
    + rewrite Z.shiftl_spec by lia.
      rewrite Z.land_spec, Z.shiftr_spec by lia.
      rewrite !Z.testbit_ones_nonneg by lia.
      replace (i - 8 + 8) with i by lia.
      replace (i <? 8) with false by (symmetry; apply Z.ltb_ge; lia).
      rewrite andb_false_r, orb_false_l.
      f_equal.
      destruct (Z.ltb_spec (i - 8) (8 * Z.of_nat n));
        destruct (Z.ltb_spec i (8 + 8 * Z.of_nat n)); lia || done.
Qed.

Lemma length_int_to_bytes (o : byteorder) (n : nat) (z : Z) :
  length (int_to_bytes o n z) = n.
Proof. destruct o; simpl; rewrite ?length_rev; apply length_le_bytes. Qed.

Lemma int_of_to_bytes (o : byteorder) (n : nat) (z : Z) :
  int_of_bytes o (int_to_bytes o n z) = z mod 2 ^ (8 * Z.of_nat n).
Proof.
  destruct o; simpl; rewrite ?rev_involutive; apply le_value_le_bytes.
Qed.

(** ** The codec *)

Lemma pack_unpack (o : byteorder) (c : ascii) (l : struct.layout) (v : pyval) :
  struct.layout_of c = Return l →
  representable l v = true →
  ∃ bs, struct.pack o c v = Return bs
        ∧ length bs = struct.size l
        ∧ struct.unpack o c bs = Return [v].
Proof.
  intros Hc Hv. unfold struct.pack, struct.unpack. rewrite Hc. cbn [and_then].
  destruct l as [|n|n|], v as [|z|b| | | | |]; try discriminate Hv;
    cbn [representable int_min int_max] in Hv;
    apply andb_true_iff in Hv as [Hlo Hhi].
  - (* signed *)
    apply Z.leb_le in Hlo, Hhi.
    replace ((- 2 ^ (struct.bits n - 1) <=? z) && (z <? 2 ^ (struct.bits n - 1)))
      with true by (symmetry; apply andb_true_iff; split;
                    [apply Z.leb_le | apply Z.ltb_lt]; lia).
    eexists; split; [reflexivity|].
    rewrite length_int_to_bytes. split; [done|].
    cbn [struct.size]. rewrite Nat.eqb_refl. cbn [negb].
    rewrite int_of_to_bytes. do 3 f_equal.
    unfold struct.bits in *.
    destruct n as [|n].
    { exfalso. change (2 ^ (8 * Z.of_nat 0 - 1)) with 0 in *. lia. }
    assert (Hp : 2 ^ (8 * Z.of_nat (S n)) = 2 * 2 ^ (8 * Z.of_nat (S n) - 1)).
    { rewrite <- Z.pow_succ_r by lia. f_equal. lia. }
    set (h := 2 ^ (8 * Z.of_nat (S n) - 1)) in *.
    assert (0 < h) by (apply Z.pow_pos_nonneg; lia).
    rewrite Hp.
    destruct (Z.ltb_spec z 0).
    + rewrite <- (Z.mod_add z 1) by lia.
      rewrite Z.mod_small by lia.
      destruct (Z.ltb_spec (z + 1 * (2 * h)) h); lia.
    + rewrite Z.mod_small by lia.
      destruct (Z.ltb_spec z h); lia.
  - (* unsigned *)
    apply Z.leb_le in Hlo, Hhi.
    replace ((0 <=? z) && (z <? 2 ^ struct.bits n))
      with true by (symmetry; apply andb_true_iff; split;
                    [apply Z.leb_le | apply Z.ltb_lt]; lia).
    eexists; split; [reflexivity|].
    rewrite length_int_to_bytes. split; [done|].
    cbn [struct.size]. rewrite Nat.eqb_refl. cbn [negb].
    rewrite int_of_to_bytes. do 3 f_equal.
    unfold struct.bits in *. apply Z.mod_small. lia.
  - (* double *)
    apply Z.leb_le in Hlo. apply Z.ltb_lt in Hhi.
    eexists; split; [reflexivity|].
    rewrite length_int_to_bytes. split; [done|].
    cbn [struct.size]. cbn [Nat.eqb negb].
    rewrite int_of_to_bytes. do 3 f_equal.
    apply Z.mod_small. change (8 * Z.of_nat 8) with 64. lia.
Qed.

(** The format character of a numeric tag is the one of its layout. *)
Lemma format_of_numeric (tag : Z) (l : struct.layout) :
  numeric_layout tag = Some l →
  ∃ c, py_getitem (Str.chars format) tag = Return c
       ∧ struct.layout_of c = Return l
       ∧ Ascii.eqb c "x" = false
       ∧ (tag =? A_INVALID_TYPE) = false
       ∧ bool_decide (tag ∈ [A_BINARY; A_STRING; A_NCHAR; A_DECIMAL;
                             A_DATE; A_TIME; A_TIMESTAMP]) = false.
Proof.
  intros H.
  destruct tag as [|p|p]; try discriminate H.
  repeat (match goal with q : positive |- _ => destruct q end;
          simpl in H; try discriminate H);
    injection H as <-; eexists; repeat split; vm_compute; reflexivity.
Qed.

Lemma length_pointer_slice (P : platform) (p : option (list byte)) (n : Z) :
  length (pointer_slice P p n) = Z.to_nat n.
Proof.
  unfold pointer_slice.
  rewrite length_take, length_app, length_fmap, length_seq. lia.
Qed.

(** Within the buffer a slice reads the bytes of the buffer. *)
Lemma pointer_slice_within (P : platform) (buf : list byte) (n : Z) :
  (Z.to_nat n <= length buf)%nat →
  pointer_slice P (Some buf) n = take (Z.to_nat n) buf.
Proof.
  intros Hn. unfold pointer_slice. cbn [default].
  by rewrite take_app_le.
Qed.

Lemma pointer_slice_app_length (P : platform) (l k : list byte) :
  pointer_slice P (Some (l ++ k)) (Z.of_nat (length l)) = l.
Proof.
  rewrite pointer_slice_within by (rewrite Nat2Z.id, length_app; lia).
  rewrite Nat2Z.id. apply take_app_length.
Qed.

Lemma not_elem_of_sublist (x : Z) (l k : list Z) :
  bool_decide (x ∈ l) = false →
  forallb (λ y, bool_decide (y ∈ l)) k = true →
  bool_decide (x ∈ k) = false.
Proof.
  rewrite !bool_decide_eq_false, forallb_forall. intros Hn Hsub Hx.
  apply Hn. apply list_elem_of_In, Hsub in Hx.
  by apply bool_decide_eq_true in Hx.
Qed.

(** C1. Null propagation: a buffer whose null indicator is set decodes to
    [None], whatever its tag, its bytes and its length are (also when the
    buffer and length pointers are NULL), for every [raw] and charset. *)
Theorem null_indicator_decodes_to_None (P : platform) (raw : list Z)
    (cs : string) (data : DataValue.t) (n : Z) :
  DataValue.is_null data = Some n →
  n ≠ 0 →
  mk_valueof P raw cs data = Return VNone.
Proof.
  intros Hnull Hn. unfold mk_valueof. rewrite Hnull. cbn [contents and_then].
  destruct (Z.eqb_spec n 0); [done|reflexivity].
Qed.
Ltac fields :=
  cbn [BindParam.value BindParam.direction BindParam.name BindParam.set_value
       DataValue.buffer DataValue.buffer_size DataValue.length DataValue.type
       DataValue.is_null DataValue.set_is_null DataValue.set_type
       DataValue.set_buffer DataValue.set_buffer_size DataValue.set_length
       contents and_then] in *.

(** C2. Round trip of the fixed-width numeric tags: for a parameter whose
    tag is one of the nine numeric tags and a value its width and
    signedness can hold, [assign] succeeds and [valueof] on the buffer it
    filled gives the value back, on either byte order. *)
Theorem numeric_round_trip (P : platform) (param : BindParam.t)
    (l : struct.layout) (v : pyval) :
  numeric_layout (DataValue.type (BindParam.value param)) = Some l →
  representable l v = true →
  ∃ param', assign P param v = (param', Return tt)
            ∧ valueof P (BindParam.value param') = Return v.
Proof.
  intros Hl Hv.
  destruct (format_of_numeric _ _ Hl) as (c & Hc & Hlay & Hx & Hinv & Hcov).
  destruct (pack_unpack (sys_byteorder P) c l v Hlay Hv)
    as (bs & Hpack & Hlen & Hunpack).
  assert (Hnn : match v with VNone => true | _ => false end = false).
  { destruct l, v; try discriminate Hv; reflexivity. }
  destruct param as [dir [buf bsz len ty nul] nm]. fields.
  unfold assign, mk_assign. fields.
  rewrite Hnn. cbn [andb]. rewrite Hinv. fields. rewrite Hc, Hx, Hpack.
  cbn [and_then create_string_buffer].
  unfold struct.calcsize. rewrite Hlay. fields.
  eexists. split; [reflexivity|].
  unfold valueof, mk_valueof. fields.
  change (0 =? 0) with true. cbn [negb].
  rewrite (not_elem_of_sublist ty _ [A_BINARY; A_STRING] Hcov) by reflexivity.
  rewrite (not_elem_of_sublist ty _ [A_STRING] Hcov) by reflexivity.
  rewrite (not_elem_of_sublist ty _ [A_NCHAR] Hcov) by reflexivity.
  rewrite (not_elem_of_sublist ty _ [A_DECIMAL] Hcov) by reflexivity.
  rewrite (not_elem_of_sublist ty _ [A_DATE] Hcov) by reflexivity.
  rewrite (not_elem_of_sublist ty _ [A_TIME] Hcov) by reflexivity.
  rewrite (not_elem_of_sublist ty _ [A_TIMESTAMP] Hcov) by reflexivity.
  rewrite Hc. fields. unfold struct.calcsize. rewrite Hlay. fields.
  rewrite <- Hlen, pointer_slice_app_length, Hunpack. reflexivity.
Qed.

(** ** Categories *)



(** ** The name [datetime] and the converters *)

Lemma datetime_rebound :
  module_globals !! "datetime"%string = Some class_datetime
  ∧ globals_line12 !! "datetime"%string = Some datetime_module.
Proof. split; reflexivity. Qed.

(** With [datetime] bound to the class, [datetime.time] is a method, and
    every argument that passes the emptiness test stops at [isinstance]. *)
Lemma ads_typecast_time_raises (s : pyval) :
  truthy s = true → ads_typecast_time s = Raise TypeError.
Proof.
  intros Hs. unfold ads_typecast_time, ads_typecast_time_in.
  rewrite Hs. reflexivity.
Qed.

Lemma ads_typecast_date_raises (s : pyval) :
  truthy s = true → ads_typecast_date s = Raise TypeError.
Proof.
  intros Hs. unfold ads_typecast_date, ads_typecast_date_in.
  rewrite Hs. reflexivity.
Qed.

(** The body of the converter does what its comments say when [datetime]
    names the module, as after line 12 alone. *)
Lemma ads_typecast_time_line12 :
  ads_typecast_time_in globals_line12 (VStr "12:00:00 AM")
    = Return (VTime 0 0 0 0)
  ∧ ads_typecast_time_in globals_line12 (VStr "12:30:15.5 PM")
    = Return (VTime 12 30 15 500000)
  ∧ ads_typecast_time_in globals_line12 (VStr "01:02:03 PM")
    = Return (VTime 13 2 3 0).
Proof. repeat split; vm_compute; reflexivity. Qed.

(** C6. Decoding a TIME-tagged buffer: the bytes of "12:00:00 AM" and of
    "12:30:15.5 PM" do not decode to a time; [valueof] raises [TypeError],
    and so does the converter on the same text as a [str]. *)
Theorem time_decode_raises_TypeError (P : platform) :
  valueof P (buffer_of A_TIME (ascii_bytes "12:00:00 AM")) = Raise TypeError
  ∧ valueof P (buffer_of A_TIME (ascii_bytes "12:30:15.5 PM"))
    = Raise TypeError
  ∧ ads_typecast_time (VStr "12:00:00 AM") = Raise TypeError
  ∧ ads_typecast_time (VStr "12:30:15.5 PM") = Raise TypeError.
Proof. repeat split; vm_compute; reflexivity. Qed.

(** ** Binding text *)

(** C7. Binding a text value: whatever the tag of a text parameter is
    (unset, string or national character), [assign] raises [TypeError]
    at [create_string_buffer]; the tag is never turned into [A_NCHAR], and
    no buffer, size or length is recorded. *)
Theorem text_bind_raises_TypeError (P : platform) (param : BindParam.t)
    (s : string) :
  DataValue.type (BindParam.value param) ∈ [A_INVALID_TYPE; A_STRING; A_NCHAR] →
  ∃ param',
    assign P param (VStr s) = (param', Raise TypeError)
    ∧ DataValue.type (BindParam.value param')
      = (if DataValue.type (BindParam.value param) =? A_INVALID_TYPE
         then A_STRING else DataValue.type (BindParam.value param))
    ∧ DataValue.buffer (BindParam.value param')
      = DataValue.buffer (BindParam.value param)
    ∧ DataValue.buffer_size (BindParam.value param')
      = DataValue.buffer_size (BindParam.value param)
    ∧ DataValue.length (BindParam.value param')
      = DataValue.length (BindParam.value param).
Proof.
  intros Hty. destruct param as [dir [buf bsz len ty nul] nm]. fields.
  unfold assign, mk_assign, assign_text. fields.
  repeat (apply elem_of_cons in Hty as [->|Hty]);
    [| | | by apply elem_of_nil in Hty];
    eexists; (split; [vm_compute; reflexivity|]); repeat split.
Qed.

(** ** Tags without a decode rule *)

Lemma format_length : length (Str.chars format) = 16%nat.
Proof. reflexivity. Qed.

Lemma format_index_out_of_range (tag : Z) :
  tag < -16 ∨ 16 <= tag →
  py_getitem (Str.chars format) tag = Raise IndexError.
Proof.
  intros H. unfold py_getitem. rewrite format_length.
  change (Z.of_nat 16) with 16.
  destruct (Z.ltb_spec tag 0).
  - destruct (Z.ltb_spec (tag + 16) 0); [reflexivity | lia].
  - destruct (Z.ltb_spec tag 0); [lia|].
    destruct (Z.leb_spec 16 tag); [reflexivity | lia].
Qed.

Lemma outside_codes_not_elem (tag : Z) (l : list Z) :
  tag <= 0 ∨ 17 <= tag →
  forallb (λ y, (1 <=? y) && (y <=? 16)) l = true →
  bool_decide (tag ∈ l) = false.
Proof.
  intros Htag Hl. apply bool_decide_eq_false. intros Hin.
  rewrite forallb_forall in Hl.
  apply list_elem_of_In, Hl in Hin. lia.
Qed.

(** The tags without a decode rule are those outside the codes 1..16. *)
Lemma uncovered_outside_codes (tag : Z) :
  uncovered tag = true → tag <= 0 ∨ 17 <= tag.
Proof.
  intros H.
  destruct (Z.le_gt_cases tag 0) as [|Hlo]; [by left|].
  destruct (Z.le_gt_cases 17 tag) as [|Hhi]; [by right|].
  exfalso.
  assert (Hall : forallb (λ t, negb (uncovered t)) (seqZ 1 16) = true)
    by (vm_compute; reflexivity).
  rewrite forallb_forall in Hall.
  specialize (Hall tag). rewrite H in Hall.
  assert (negb true = true); [|done].
  apply Hall, list_elem_of_In, elem_of_seqZ. lia.
Qed.

(** C8, as the code has it. A buffer that is not null and carries a tag
    without a decode rule (outside -13..-5, where the index into [format]
    wraps around to a numeric character) makes [valueof] raise
    [IndexError], whatever its buffer pointer and its length are. *)
Theorem uncovered_tag_raises_IndexError (P : platform) (data : DataValue.t) :
  DataValue.is_null data = Some 0 →
  uncovered (DataValue.type data) = true →
  ¬ (-13 <= DataValue.type data <= -5) →
  valueof P data = Raise IndexError.
Proof.
  destruct data as [buf bsz len ty nul]. fields.
  intros -> Hty%uncovered_outside_codes Hwrap.
  unfold valueof, mk_valueof. fields.
  change (negb (0 =? 0)) with false. cbv iota.
  rewrite !(outside_codes_not_elem ty _ Hty) by reflexivity.
  destruct (Z.lt_ge_cases ty (-16)) as [Hlo|Hlo];
    [by rewrite format_index_out_of_range by lia|].
  destruct (Z.le_gt_cases 17 ty) as [Hhi|Hhi];
    [by rewrite format_index_out_of_range by lia|].
  assert (ty = -16 ∨ ty = -15 ∨ ty = -14 ∨ ty = -4 ∨ ty = -3 ∨ ty = -2
          ∨ ty = -1 ∨ ty = 0) as Hcases by lia.
  assert (struct.unpack (sys_byteorder P) "x" (pointer_slice P buf 1)
          = Return []) as Hpad.
  { unfold struct.unpack. cbn [struct.layout_of Ascii.eqb and_then].
    rewrite length_pointer_slice. reflexivity. }
  repeat (destruct Hcases as [->|Hcases]); try subst ty;
    change (py_getitem (Str.chars format) _)
      with (Return "x"%char : result ascii);
    cbn [and_then];
    change (struct.calcsize "x") with (Return 1 : result Z);
    cbn [and_then]; rewrite Hpad; reflexivity.
Qed.

(** ** Column descriptors *)

(** No wide-character column gets a descriptor: when the true division
    by 2 gives a [float], the assignment to the integer field refuses it. *)
Lemma wide_column_never_described (info : ColumnInfo.t) :
  ColumnInfo.native_type info ∈ wide_types →
  returns (column_of info) = false.
Proof.
  intros Hw. unfold column_of.
  rewrite bool_decide_eq_true_2 by done.
  by destruct (Double.truediv (ColumnInfo.precision info) 2).
Qed.

(** C4. The wide-character column with native precision 20 and size 40:
    for each of the four wide native types [columns] yields no descriptor
    and raises [TypeError], and [executemany] on a query with such a
    column raises it too and leaves [rowcount] at -1. *)
Theorem wide_column_descriptor_raises :
  Forall (λ t, column_of (wide_column t) = Raise TypeError) wide_types
  ∧ (let run := executemany example_host (query_library (wide_column DT_NSTRING))
                  fresh_cursor (VStr "SELECT name FROM t") [[]] in
     snd run = Raise TypeError
     ∧ Cursor.rowcount (fst run) = -1
     ∧ Cursor.description (fst run) = None).
Proof.
  split; [repeat constructor|]; vm_compute; repeat split; reflexivity.
Qed.

(** ** Fetching without a result set *)

Lemma rows_next_no_description (P : platform) (L : library) (self : Cursor.t) :
  Cursor.description self = None →
  rows_next P L false self = (self, Raise InterfaceError).
Proof. intros H. unfold rows_next. rewrite H. reflexivity. Qed.

(** C9, as the code has it. On a cursor whose [description] is not set,
    [fetchone] and [fetchall] raise [InterfaceError], and so does
    [fetchmany] whenever the number of rows asked for (the argument, or
    [arraysize] without one) is positive; the cursor is left as it was. *)
Theorem fetch_without_result_set (P : platform) (L : library)
    (self : Cursor.t) :
  Cursor.description self = None →
  fetchone P L self = (self, Raise InterfaceError)
  ∧ fetchall P L self = (self, Raise InterfaceError)
  ∧ (∀ size : option Z,
       0 < default (Cursor.arraysize self) size →
       fetchmany P L self size = (self, Raise InterfaceError)).
Proof.
  intros Hd. split; [|split].
  - unfold fetchone, fetchmany. change (Z.to_nat 1) with 1%nat.
    cbn [zip_range_rows].
    by rewrite rows_next_no_description.
  - unfold fetchall.
    assert (Hself : Cursor.set_native (Cursor.runs self) (Cursor.pending self) self = self)
      by (by destruct self).
    destruct (Cursor.pending self) eqn:Hp; cbn [list_rows];
      rewrite Hself, rows_next_no_description by done; reflexivity.
  - intros size Hsize. unfold fetchmany.
    replace (match size with Some n => n | None => Cursor.arraysize self end)
      with (default (Cursor.arraysize self) size) by (by destruct size).
    destruct (Z.to_nat (default (Cursor.arraysize self) size)) as [|n] eqn:Hn;
      [lia|].
    cbn [zip_range_rows]. by rewrite rows_next_no_description.
Qed.

(** ** The row count of a batch *)

Lemma add_rowcount_unknown (c : Z) : add_rowcount (-1) c = -1.
Proof. unfold add_rowcount. by destruct (c <? 0). Qed.

Lemma add_rowcount_negative (rc c : Z) : c < 0 → add_rowcount rc c = -1.
Proof. intros H. unfold add_rowcount. by destruct (Z.ltb_spec c 0); [|lia]. Qed.

Lemma fold_add_rowcount_unknown (counts : list Z) :
  fold_left add_rowcount counts (-1) = -1.
Proof.
  induction counts as [|c counts IH]; [done|].
  cbn [fold_left]. by rewrite add_rowcount_unknown.
Qed.

Lemma fold_add_rowcount_negative (counts : list Z) (rc : Z) :
  Exists (λ c, c < 0) counts → fold_left add_rowcount counts rc = -1.
Proof.
  intros H. revert rc. induction H as [c counts Hc|c counts _ IH]; intros rc.
  - cbn [fold_left]. rewrite add_rowcount_negative by done.
    apply fold_add_rowcount_unknown.
  - cbn [fold_left]. apply IH.
Qed.

Lemma fold_add_rowcount_known (counts : list Z) (rc : Z) :
  Forall (λ c, 0 <= c) counts → 0 <= rc →
  fold_left add_rowcount counts rc = rc + foldr Z.add 0 counts.
Proof.
  intros H. revert rc. induction H as [|c counts Hc _ IH]; intros rc Hrc.
  - cbn. lia.
  - cbn [fold_left foldr]. unfold add_rowcount at 2.
    destruct (Z.ltb_spec c 0); [lia|].
    destruct (Z.geb_spec rc 0); [|lia].
    rewrite IH by lia. lia.
Qed.

Lemma describe_result_rowcount (L : library) (self self' : Cursor.t)
    (e : execution) (r : result Z) :
  describe_result L self e = (self', r) →
  Cursor.rowcount self' = Cursor.rowcount self.
Proof.
  unfold describe_result.
  destruct (columns L self (column_infos e)) as [[|col cols]|x].
  - by intros [= <- _].
  - by intros [= <- _].
  - destruct (exn_isa x ValueError); by intros [= <- _].
Qed.

Lemma run_once_rowcount (P : platform) (L : library) (bind_count : Z)
    (self self' : Cursor.t) (parameters : list pyval)
    (r : result (Z * list BindParam.t)) :
  run_once P L bind_count self parameters = (self', r) →
  Cursor.rowcount self' = Cursor.rowcount self.
Proof.
  unfold run_once.
  destruct (bind_from P L self 0 _) as [parms|x]; [|by intros [= <- _]].
  destruct (stmt_get L self) as [h|x]; [|by intros [= <- _]].
  destruct (negb _); [by intros [= <- _]|].
  destruct (describe_result L _ _) as [s1 [c|x]] eqn:Hd;
    apply describe_result_rowcount in Hd; by intros [= <- _].
Qed.

(** The loop of [executemany]: when it ends without an exception, every
    parameter set was executed and [rowcount] is the fold of the reported
    counts. *)
Lemma execute_each_rowcount (P : platform) (L : library) (bind_count : Z)
    (seq : list (list pyval)) :
  ∀ (self self' : Cursor.t) (parms parms' : option (list BindParam.t)),
    execute_each P L bind_count self parms seq = (self', Return parms') →
    let counts := reported_counts P L bind_count self seq in
    length counts = length seq
    ∧ Cursor.rowcount self'
      = fold_left add_rowcount counts (Cursor.rowcount self).
Proof.
  induction seq as [|parameters rest IH]; intros self self' parms parms'.
  - cbn. by intros [= <- _].
  - cbn [execute_each reported_counts]. unfold execute_once.
    destruct (run_once P L bind_count self parameters)
      as [s1 [[c ps]|x]] eqn:Hrun; [|discriminate].
    intros Hrest. apply IH in Hrest as [Hlen Hrc].
    apply run_once_rowcount in Hrun.
    cbn [length fold_left]. split; [by rewrite Hlen|].
    by rewrite Hrc, Hrun.
Qed.

(** C3. The row count of a batch.  With [counts] the counts the executions
    of the batch report: a call that returns has run every parameter set
    and leaves [rowcount] at the fold of [add_rowcount] over [counts] from
    0, which is their sum when none is negative; as soon as one reported
    count is negative [rowcount] is -1 when the call ends, however it
    ends; and three executions reporting 2, -1, 3 leave it at -1. *)
Theorem rowcount_aggregation (P : platform) (L : library) (self : Cursor.t)
    (operation : pyval) (seq : list (list pyval)) :
  let run := executemany P L self operation seq in
  let counts := batch_counts P L self operation seq in
  (returns (snd run) = true →
     length counts = length seq
     ∧ Cursor.rowcount (fst run) = fold_left add_rowcount counts 0)
  ∧ (returns (snd run) = true → Forall (λ c, 0 <= c) counts →
       Cursor.rowcount (fst run) = foldr Z.add 0 counts)
  ∧ (Exists (λ c, c < 0) counts → Cursor.rowcount (fst run) = -1)
  ∧ (let run3 := executemany example_host (dml_library [2; -1; 3])
                   fresh_cursor (VStr "DELETE FROM t") [[]; []; []] in
     batch_counts example_host (dml_library [2; -1; 3]) fresh_cursor
       (VStr "DELETE FROM t") [[]; []; []] = [2; -1; 3]
     ∧ snd run3 = Return []
     ∧ Cursor.rowcount (fst run3) = -1).
Proof.
  cbv zeta.
  assert (Hrun :
    match executemany_try P L self operation seq with
    | (s1, Return _) =>
        length (batch_counts P L self operation seq) = length seq
        ∧ Cursor.rowcount s1
          = fold_left add_rowcount (batch_counts P L self operation seq) 0
    | (_, Raise _) => True
    end).
  { unfold executemany_try, batch_counts.
    destruct (new_statement P L self operation) as [s0 [[]|x]]; [|done].
    destruct (stmt_get L s0) as [h|x]; [|done].
    destruct (execute_each P L (ads_num_params L) (Cursor.set_rowcount 0 s0)
                None seq) as [s1 [parms|x]] eqn:Hloop; [|done].
    by apply execute_each_rowcount in Hloop. }
  unfold executemany.
  destruct (executemany_try P L self operation seq) as [s1 [parms|x]].
  - destruct Hrun as [Hlen Hrc].
    assert (Hfst : ∀ r : result (list pyval),
              Cursor.rowcount (fst (s1, r)) = Cursor.rowcount s1) by done.
    destruct parms as [parms|]; cbn [fst snd returns].
    + split; [done|]. split; [|split].
      * intros _ Hpos. rewrite Hrc, fold_add_rowcount_known by done. lia.
      * intros Hneg. by rewrite Hrc, fold_add_rowcount_negative.
      * vm_compute. repeat split; reflexivity.
    + split; [done|]. split; [done|]. split.
      * intros Hneg. by rewrite Hrc, fold_add_rowcount_negative.
      * vm_compute. repeat split; reflexivity.
  - cbn [fst snd returns]. split; [done|]. split; [done|]. split; [done|].
    vm_compute. repeat split; reflexivity.
Qed.

(** C10. An empty batch: [executemany] with no parameter set never
    returns; when the statement is prepared it raises [UnboundLocalError],
    which is a [NameError] and none of the module's [Error] classes, and
    leaves [rowcount] at 0. *)
Theorem executemany_empty_batch (P : platform) (L : library)
    (self : Cursor.t) (operation : pyval) :
  let run := executemany P L self operation [] in
  returns (snd run) = false
  ∧ (prepares P L self operation = true →
       snd run = Raise UnboundLocalError
       ∧ Cursor.rowcount (fst run) = 0)
  ∧ exn_isa UnboundLocalError NameError = true
  ∧ exn_isa UnboundLocalError Error = false.
Proof.
  cbv zeta. unfold executemany, executemany_try, prepares.
  destruct (new_statement P L self operation) as [s0 [[]|x]].
  - destruct (stmt_get L s0) as [h|x]; cbn [returns execute_each fst snd].
    + repeat split; done.
    + repeat split; done.
  - repeat split; done.
Qed.

(** ** Instances *)

Lemma null_indicator_decodes_to_None_witness :
  mk_valueof example_host [A_BINARY; A_STRING] "utf-16"
    (DataValue.mk (Some (ascii_bytes "04/05/2021")) 10 (Some 10) A_DATE
       (Some 1))
  = Return VNone.
Proof.
  apply (null_indicator_decodes_to_None example_host [A_BINARY; A_STRING]
           "utf-16" _ 1); [reflexivity | discriminate].
Defined.

Lemma numeric_round_trip_witness :
  ∃ param',
    assign example_host (input_param A_VAL16) (VInt (-32768))
    = (param', Return tt)
    ∧ valueof example_host (BindParam.value param') = Return (VInt (-32768)).
Proof.
  apply (numeric_round_trip example_host (input_param A_VAL16)
           (struct.sint 2) (VInt (-32768))); reflexivity.
Defined.

(** The boundary values of every numeric tag round-trip on both byte
    orders. *)
Example boundary_round_trips :
  forallb
    (λ tag, match numeric_layout tag with
            | Some l =>
                forallb (λ v, round_trips example_host tag v
                              && round_trips big_endian_host tag v)
                  (boundary_values l)
            | None => false
            end)
    [A_DOUBLE; A_VAL64; A_UVAL64; A_VAL32; A_UVAL32;
     A_VAL16; A_UVAL16; A_VAL8; A_UVAL8] = true.
Proof. vm_compute; reflexivity. Qed.

Lemma text_bind_raises_TypeError_witness :
  ∃ param',
    assign example_host (input_param A_NCHAR) (VStr "ab")
    = (param', Raise TypeError)
    ∧ DataValue.type (BindParam.value param') = A_NCHAR
    ∧ DataValue.buffer (BindParam.value param') = None
    ∧ DataValue.buffer_size (BindParam.value param') = 0
    ∧ DataValue.length (BindParam.value param') = None.
Proof.
  apply (text_bind_raises_TypeError example_host (input_param A_NCHAR) "ab").
  vm_compute. set_solver.
Defined.



(** C8, as stated, fails: the tag 0 has no decode rule, and [valueof] on a
    buffer with that tag raises [IndexError], which is not a [DataError]. *)
Lemma invalid_tag_not_DataError :
  uncovered A_INVALID_TYPE = true
  ∧ DataValue.is_null (buffer_of A_INVALID_TYPE [x00]) = Some 0
  ∧ valueof example_host (buffer_of A_INVALID_TYPE [x00]) = Raise IndexError
  ∧ valueof example_host (buffer_of A_INVALID_TYPE [x00]) ≠ Raise DataError
  ∧ raises (valueof example_host (buffer_of A_INVALID_TYPE [x00])) DataError
    = false.
Proof. repeat split; try (vm_compute; reflexivity); discriminate. Qed.

Lemma uncovered_tag_raises_IndexError_witness :
  valueof example_host (DataValue.mk None 0 None A_INVALID_TYPE (Some 0))
  = Raise IndexError.
Proof.
  apply (uncovered_tag_raises_IndexError example_host
           (DataValue.mk None 0 None A_INVALID_TYPE (Some 0)));
    [reflexivity | reflexivity |].
  cbn [DataValue.type]. unfold A_INVALID_TYPE. lia.
Defined.

(** A tag between -13 and -5 indexes [format] from its end and is decoded
    as a number. *)
Lemma wrapped_tag_decodes :
  uncovered (-5) = true
  ∧ valueof example_host (buffer_of (-5) [x2a]) = Return (VInt 42).
Proof. split; vm_compute; reflexivity. Qed.

(** C9, as stated, fails: [fetchmany] asked for no row returns an empty
    list on a cursor without result set. *)
Lemma fetchmany_zero_returns :
  Cursor.description fresh_cursor = None
  ∧ fetchmany example_host (dml_library []) fresh_cursor (Some 0)
    = (fresh_cursor, Return [])
  ∧ raises (snd (fetchmany example_host (dml_library []) fresh_cursor
                   (Some 0))) InterfaceError = false.
Proof. repeat split. Qed.

Lemma fetch_without_result_set_witness :
  fetchone example_host (dml_library []) fresh_cursor
  = (fresh_cursor, Raise InterfaceError)
  ∧ fetchall example_host (dml_library []) fresh_cursor
    = (fresh_cursor, Raise InterfaceError)
  ∧ fetchmany example_host (dml_library []) fresh_cursor None
    = (fresh_cursor, Raise InterfaceError).
Proof.
  destruct (fetch_without_result_set example_host (dml_library [])
              fresh_cursor eq_refl) as (Hone & Hall & Hmany).
  split; [exact Hone|]. split; [exact Hall|].
  apply Hmany. reflexivity.
Defined.

Lemma rowcount_aggregation_witness :
  Cursor.rowcount
    (fst (executemany example_host (dml_library [5; -1; 7; 1]) fresh_cursor
            (VStr "UPDATE t SET a = 1") [[]; []; []; []])) = -1.
Proof.
  destruct (rowcount_aggregation example_host (dml_library [5; -1; 7; 1])
              fresh_cursor (VStr "UPDATE t SET a = 1") [[]; []; []; []])
    as (_ & _ & Hneg & _).
  apply Hneg. vm_compute. apply Exists_cons_tl, Exists_cons_hd. reflexivity.
Defined.

Lemma executemany_empty_batch_witness :
  snd (executemany example_host (dml_library []) fresh_cursor
         (VStr "DELETE FROM t") []) = Raise UnboundLocalError
  ∧ Cursor.rowcount
      (fst (executemany example_host (dml_library []) fresh_cursor
              (VStr "DELETE FROM t") [])) = 0.
Proof.
  destruct (executemany_empty_batch example_host (dml_library [])
              fresh_cursor (VStr "DELETE FROM t")) as (_ & Hprepared & _).
  apply Hprepared; reflexivity.
Defined.

(* ===================================================================== *)
(** * Further properties *)
(* ===================================================================== *)

(** ** Decoding *)

(** X1. On a connection a buffer tagged binary, string or timestamp decodes
    to [length] bytes as they are, the first ones of its buffer when the
    buffer holds that many: no charset is applied to a string, and a
    timestamp is not parsed. *)
Theorem raw_tags_decode_to_bytes (P : platform) (data : DataValue.t)
    (n : Z) :
  DataValue.is_null data = Some 0 →
  DataValue.type data ∈ [A_BINARY; A_STRING; A_TIMESTAMP] →
  DataValue.length data = Some n →
  valueof P data = Return (VBytes (pointer_slice P (DataValue.buffer data) n))
  ∧ ∀ buf,
      DataValue.buffer data = Some buf →
      (Z.to_nat n <= length buf)%nat →
      valueof P data = Return (VBytes (take (Z.to_nat n) buf)).
Proof.
  destruct data as [b bsz len ty nul]. fields. intros -> Hty ->.
  assert (valueof P (DataValue.mk b bsz (Some n) ty (Some 0))
          = Return (VBytes (pointer_slice P b n))) as Hraw.
  { repeat (apply elem_of_cons in Hty as [->|Hty]);
      [| | | by apply elem_of_nil in Hty]; reflexivity. }
  split; [exact Hraw|].
  intros buf -> Hn. by rewrite Hraw, pointer_slice_within.
Qed.

(** X2. A buffer tagged decimal never decodes: [valueof] raises
    [TypeError].  A buffer tagged date or time decodes to [None] when its
    length is zero and raises [TypeError] otherwise, whatever its buffer
    pointer is. *)
Theorem string_typed_values_never_decode (P : platform) (data : DataValue.t)
    (n : Z) :
  DataValue.is_null data = Some 0 →
  DataValue.length data = Some n →
  (DataValue.type data = A_DECIMAL → valueof P data = Raise TypeError)
  ∧ (DataValue.type data ∈ [A_DATE; A_TIME] →
       valueof P data
       = if n <=? 0 then Return VNone else Raise TypeError).
Proof.
  destruct data as [b bsz len ty nul]. fields. intros -> ->. split.
  - intros ->. reflexivity.
  - intros Hty.
    pose proof (length_pointer_slice P b n) as Hlen.
    repeat (apply elem_of_cons in Hty as [->|Hty]);
      [| | by apply elem_of_nil in Hty];
      unfold valueof, mk_valueof, buffer_to_length; fields;
      destruct (pointer_slice P b n) as [|x xs];
      cbn [length] in Hlen;
      (destruct (Z.leb_spec n 0); [|lia] || (destruct (Z.leb_spec n 0); [lia|]));
      reflexivity.
Qed.

(** X3. A tag from -13 to -5 is decoded as the tag 16 above it: the index
    into [format] counts from the end of the string. *)
Theorem negative_tag_wraps (P : platform) (data : DataValue.t) :
  -13 <= DataValue.type data <= -5 →
  valueof P data
  = valueof P (DataValue.set_type (DataValue.type data + 16) data).
Proof.
  destruct data as [b bsz len ty nul]. fields. intros Hty.
  assert (ty = -13 ∨ ty = -12 ∨ ty = -11 ∨ ty = -10 ∨ ty = -9 ∨ ty = -8
          ∨ ty = -7 ∨ ty = -6 ∨ ty = -5) as Hcases by lia.
  repeat (destruct Hcases as [->|Hcases]); try subst ty; reflexivity.
Qed.

(** ** Binding *)

Lemma assign_text_raises (P : platform) (param : BindParam.t) (v : pyval) :
  assign_text P param v = (param, Raise TypeError).
Proof. destruct v; reflexivity. Qed.

Lemma pack_calcsize (o : byteorder) (c : ascii) (v : pyval) (bs : list byte) :
  struct.pack o c v = Return bs →
  struct.calcsize c = Return (Z.of_nat (length bs)).
Proof.
  unfold struct.pack, struct.calcsize.
  destruct (struct.layout_of c) as [l|e]; [|discriminate]. cbn [and_then].
  destruct l as [|n|n|], v as [|z|b| | | | |]; try discriminate.
  - destruct (_ && _); [|discriminate]. intros [= <-].
    by rewrite length_int_to_bytes.
  - destruct (_ && _); [|discriminate]. intros [= <-].
    by rewrite length_int_to_bytes.
  - destruct (Double.of_int z) as [b|e]; [|discriminate]. intros [= <-].
    by rewrite length_int_to_bytes.
  - intros [= <-]. by rewrite length_int_to_bytes.
Qed.

(** [assign] in one piece: the tag and the value it goes on with decide
    everything. *)
Lemma assign_cases (P : platform) (param : BindParam.t) (v : pyval) :
  let param0 :=
    BindParam.mk (BindParam.direction param)
      (DataValue.mk (DataValue.buffer (BindParam.value param))
         (DataValue.buffer_size (BindParam.value param))
         (DataValue.length (BindParam.value param))
         (bound_tag param v) (Some (null_flag v)))
      (BindParam.name param) in
  assign P param v =
    match py_getitem (Str.chars format) (bound_tag param v) with
    | Raise e => (param0, Raise e)
    | Return c =>
        if Ascii.eqb c "x" then (param0, Raise TypeError)
        else match struct.pack (sys_byteorder P) c (bound_value param v) with
             | Raise e => (param0, Raise e)
             | Return bs => (bound_param param v bs, Return tt)
             end
    end.
Proof.
  destruct param as [dir [buf bsz len ty nul] nm]. cbv zeta.
  unfold assign, mk_assign, bound_param, bound_tag, bound_value. fields.
  assert (Hgo : ∀ (v' : pyval) (ty' flag : Z),
    match py_getitem (Str.chars format) ty' with
    | Return fmt =>
        let '(param, filled) :=
          if Ascii.eqb fmt "x"
          then assign_text P
                 (BindParam.mk dir (DataValue.mk buf bsz len ty' (Some flag)) nm) v'
          else (BindParam.mk dir (DataValue.mk buf bsz len ty' (Some flag)) nm,
                let! packed := struct.pack (sys_byteorder P) fmt v' in
                let! buffer := create_string_buffer (VBytes packed) in
                let! n := struct.calcsize fmt in
                Return (buffer, n, n)) in
        match filled with
        | Return (buffer, size, length) =>
            (BindParam.set_value
               (DataValue.set_length (Some length)
                  (DataValue.set_buffer_size size
                     (DataValue.set_buffer (Some buffer)
                        (BindParam.value param)))) param, Return tt)
        | Raise e => (param, Raise e)
        end
    | Raise e =>
        (BindParam.mk dir (DataValue.mk buf bsz len ty' (Some flag)) nm, Raise e)
    end
    = match py_getitem (Str.chars format) ty' with
      | Raise e =>
          (BindParam.mk dir (DataValue.mk buf bsz len ty' (Some flag)) nm, Raise e)
      | Return c =>
          if Ascii.eqb c "x"
          then (BindParam.mk dir (DataValue.mk buf bsz len ty' (Some flag)) nm,
                Raise TypeError)
          else match struct.pack (sys_byteorder P) c v' with
               | Raise e =>
                   (BindParam.mk dir (DataValue.mk buf bsz len ty' (Some flag)) nm,
                    Raise e)
               | Return bs =>
                   (BindParam.mk dir
                      (DataValue.mk (Some (bs ++ [x00])) (Z.of_nat (length bs))
                         (Some (Z.of_nat (length bs))) ty' (Some flag)) nm,
                    Return tt)
               end
      end).
  { intros v' ty' flag.
    destruct (py_getitem (Str.chars format) ty') as [c|e]; [|reflexivity].
    destruct (Ascii.eqb c "x"); [by rewrite assign_text_raises|].
    destruct (struct.pack (sys_byteorder P) c v') as [bs|e] eqn:Hpack;
      [|reflexivity].
    cbn [and_then create_string_buffer].
    rewrite (pack_calcsize _ _ _ _ Hpack). reflexivity. }
  destruct (Z.eqb_spec ty A_INVALID_TYPE) as [->|Hty];
    destruct v; destruct (dir =? DD_INPUT);
    cbn [andb is_int is_float is_Binary null_flag]; fields; apply Hgo.
Qed.

Lemma layout_not_pad (c : ascii) (l : struct.layout) :
  Ascii.eqb c "x" = false → struct.layout_of c = Return l → l ≠ struct.pad.
Proof.
  intros Hx. unfold struct.layout_of. rewrite Hx. clear Hx.
  repeat (destruct (Ascii.eqb c _); [by intros [= <-]|]). discriminate.
Qed.

Lemma pack_layout (o : byteorder) (c : ascii) (v : pyval) (bs : list byte) :
  struct.pack o c v = Return bs →
  ∃ l, struct.layout_of c = Return l ∧ length bs = struct.size l.
Proof.
  intros Hpack. pose proof (pack_calcsize _ _ _ _ Hpack) as Hsize.
  unfold struct.pack in Hpack. unfold struct.calcsize in Hsize.
  destruct (struct.layout_of c) as [l|e]; [|discriminate].
  exists l. split; [done|]. cbn [and_then] in Hsize.
  injection Hsize as Hsize. lia.
Qed.

(** X4. What [assign] can bind: it returns only when the tag it ends with
    has a numeric format character, so never for an unset, binary, string,
    national-character, decimal, date, time or timestamp tag; the
    parameter then holds the packed value followed by a NUL, with
    [buffer_size] and [length] the packed size and the null indicator of
    the value. *)
Theorem assign_binds_only_numbers (P : platform) (param param' : BindParam.t)
    (v : pyval) :
  assign P param v = (param', Return tt) →
  ∃ c l bs,
    py_getitem (Str.chars format) (bound_tag param v) = Return c
    ∧ struct.layout_of c = Return l
    ∧ l ≠ struct.pad
    ∧ struct.pack (sys_byteorder P) c (bound_value param v) = Return bs
    ∧ length bs = struct.size l
    ∧ param' = bound_param param v bs
    ∧ bound_tag param v ∉ A_INVALID_TYPE :: named_tags.
Proof.
  rewrite assign_cases.
  destruct (py_getitem (Str.chars format) (bound_tag param v)) as [c|e] eqn:Hc;
    [|discriminate].
  destruct (Ascii.eqb c "x") eqn:Hx; [discriminate|].
  destruct (struct.pack (sys_byteorder P) c (bound_value param v))
    as [bs|e] eqn:Hpack; [|discriminate].
  intros [= <-].
  destruct (pack_layout _ _ _ _ Hpack) as (l & Hl & Hlen).
  exists c, l, bs. repeat split; try done.
  - by apply (layout_not_pad c).
  - intros Hin. unfold named_tags in Hin.
    repeat (apply elem_of_cons in Hin as [Heq|Hin]);
      [..|by apply elem_of_nil in Hin];
      rewrite Heq in Hc; vm_compute in Hc; try discriminate Hc;
      injection Hc as <-; discriminate Hx.
Qed.

(** X5. The tags that cannot be bound: for a parameter tagged binary,
    string, national character, decimal, date or time [assign] raises
    [TypeError] whatever the value is, and for one tagged timestamp it
    raises [IndexError], the tag 16 being one past the end of [format]. *)
Theorem unbindable_tags (P : platform) (param : BindParam.t) (v : pyval) :
  (DataValue.type (BindParam.value param)
     ∈ [A_BINARY; A_STRING; A_NCHAR; A_DECIMAL; A_DATE; A_TIME] →
   snd (assign P param v) = Raise TypeError)
  ∧ (DataValue.type (BindParam.value param) = A_TIMESTAMP →
     snd (assign P param v) = Raise IndexError).
Proof.
  rewrite assign_cases. unfold bound_tag.
  destruct param as [dir [buf bsz len ty nul] nm]. fields. split.
  - intros Hty.
    repeat (apply elem_of_cons in Hty as [->|Hty]);
      [..|by apply elem_of_nil in Hty]; reflexivity.
  - intros ->. reflexivity.
Qed.

Lemma pack_None (o : byteorder) (c : ascii) :
  returns (struct.pack o c VNone) = false.
Proof.
  unfold struct.pack. destruct (struct.layout_of c) as [l|e]; [|done].
  by destruct l.
Qed.

Lemma numeric_tag_cases (ty : Z) :
  numeric_layout ty ≠ None →
  ty = 3 ∨ ty = 4 ∨ ty = 5 ∨ ty = 6 ∨ ty = 7 ∨ ty = 8 ∨ ty = 9 ∨ ty = 10
  ∨ ty = 11.
Proof.
  intros H.
  destruct (Z.lt_ge_cases ty 3) as [Hlo|Hlo].
  - exfalso. apply H. destruct ty as [|p|p]; try reflexivity.
    assert (p = 1 ∨ p = 2)%positive as [-> | ->] by lia; reflexivity.
  - destruct (Z.le_gt_cases ty 11) as [Hhi|Hhi]; [lia|].
    exfalso. apply H. destruct ty as [|p|p]; try lia.
    do 4 (destruct p as [p|p|]; try lia; try reflexivity).
Qed.

(** X6. Binding [None]: to an input parameter whose tag is unset or
    numeric [assign] binds a zero of that type with the null indicator
    set, and the bound buffer decodes to [None]; to a parameter of another
    direction [assign] never returns. *)
Theorem None_binds_to_input_only (P : platform) (param : BindParam.t) :
  (BindParam.direction param = DD_INPUT →
   DataValue.type (BindParam.value param) = A_INVALID_TYPE
   ∨ numeric_layout (DataValue.type (BindParam.value param)) ≠ None →
   ∃ param',
     assign P param VNone = (param', Return tt)
     ∧ DataValue.is_null (BindParam.value param') = Some 1
     ∧ DataValue.type (BindParam.value param') = bound_tag param VNone
     ∧ valueof P (BindParam.value param') = Return VNone)
  ∧ (BindParam.direction param ≠ DD_INPUT →
     returns (snd (assign P param VNone)) = false).
Proof.
  rewrite assign_cases. split.
  - intros Hdir Hty. unfold bound_value, bound_tag, bound_param.
    destruct param as [dir [buf bsz len ty nul] nm]. fields. subst dir.
    change (DD_INPUT =? DD_INPUT) with true. cbv iota.
    assert (ty = 0 ∨ ty = 3 ∨ ty = 4 ∨ ty = 5 ∨ ty = 6 ∨ ty = 7 ∨ ty = 8
            ∨ ty = 9 ∨ ty = 10 ∨ ty = 11) as Hcases.
    { destruct Hty as [->|Hty]; [by left|right].
      by apply numeric_tag_cases. }
    destruct P as [o dec st]. cbn [sys_byteorder].
    repeat (destruct Hcases as [->|Hcases]); try subst ty;
      destruct o; eexists; (split; [reflexivity|]); repeat split.
  - intros Hdir. unfold bound_value.
    destruct (Z.eqb_spec (BindParam.direction param) DD_INPUT); [done|].
    destruct (py_getitem _ _) as [c|e]; [|done].
    destruct (Ascii.eqb c "x"); [done|].
    pose proof (pack_None (sys_byteorder P) c) as Hpack.
    by destruct (struct.pack _ c VNone).
Qed.

(** The round trip of a number, through the tag [assign] ends with. *)
Lemma assign_then_valueof (P : platform) (param : BindParam.t) (v : pyval)
    (l : struct.layout) :
  numeric_layout (bound_tag param v) = Some l →
  representable l v = true →
  ∃ param',
    assign P param v = (param', Return tt)
    ∧ DataValue.type (BindParam.value param') = bound_tag param v
    ∧ valueof P (BindParam.value param') = Return v.
Proof.
  intros Hl Hv.
  destruct (format_of_numeric _ _ Hl) as (c & Hc & Hlay & Hx & Hinv & Hcov).
  destruct (pack_unpack (sys_byteorder P) c l v Hlay Hv)
    as (bs & Hpack & Hlen & Hunpack).
  assert (Hbv : bound_value param v = v)
    by (destruct l, v; try discriminate Hv; reflexivity).
  assert (Hflag : null_flag v = 0)
    by (destruct l, v; try discriminate Hv; reflexivity).
  rewrite assign_cases, Hc, Hx, Hbv, Hpack.
  eexists. split; [reflexivity|]. split; [reflexivity|].
  unfold bound_param, valueof, mk_valueof. fields. rewrite Hflag.
  change (negb (0 =? 0)) with false. cbv iota.
  rewrite (not_elem_of_sublist _ _ [A_BINARY; A_STRING] Hcov) by reflexivity.
  rewrite (not_elem_of_sublist _ _ [A_STRING] Hcov) by reflexivity.
  rewrite (not_elem_of_sublist _ _ [A_NCHAR] Hcov) by reflexivity.
  rewrite (not_elem_of_sublist _ _ [A_DECIMAL] Hcov) by reflexivity.
  rewrite (not_elem_of_sublist _ _ [A_DATE] Hcov) by reflexivity.
  rewrite (not_elem_of_sublist _ _ [A_TIME] Hcov) by reflexivity.
  rewrite (not_elem_of_sublist _ _ [A_TIMESTAMP] Hcov) by reflexivity.
  rewrite Hc. fields. unfold struct.calcsize. rewrite Hlay. fields.
  rewrite <- Hlen, pointer_slice_app_length, Hunpack. reflexivity.
Qed.

(** X7. A parameter without tag takes it from the value: an [int] is bound
    as a signed 32-bit number and comes back when it is within that range,
    and raises [struct.error] when it is not; a [float] is bound as a
    double and comes back bit for bit. *)
Theorem untagged_parameter_inference (P : platform) (param : BindParam.t) :
  DataValue.type (BindParam.value param) = A_INVALID_TYPE →
  (∀ z, - 2 ^ 31 <= z < 2 ^ 31 →
     ∃ param', assign P param (VInt z) = (param', Return tt)
               ∧ DataValue.type (BindParam.value param') = A_VAL32
               ∧ valueof P (BindParam.value param') = Return (VInt z))
  ∧ (∀ z, ¬ (- 2 ^ 31 <= z < 2 ^ 31) →
       snd (assign P param (VInt z)) = Raise struct_error)
  ∧ (∀ b, 0 <= b < 2 ^ 64 →
       ∃ param', assign P param (VFloat b) = (param', Return tt)
                 ∧ DataValue.type (BindParam.value param') = A_DOUBLE
                 ∧ valueof P (BindParam.value param') = Return (VFloat b)).
Proof.
  intros Hty.
  assert (Hint : ∀ z, bound_tag param (VInt z) = A_VAL32)
    by (intros z; unfold bound_tag; by rewrite Hty).
  assert (Hfloat : ∀ b, bound_tag param (VFloat b) = A_DOUBLE)
    by (intros b; unfold bound_tag; by rewrite Hty).
  split; [|split].
  - intros z Hz.
    destruct (assign_then_valueof P param (VInt z) (struct.sint 4))
      as (param' & Ha & Ht & Hv).
    + by rewrite Hint.
    + change (representable (struct.sint 4) (VInt z))
        with ((- 2 ^ 31 <=? z) && (z <=? 2 ^ 31 - 1)).
      apply andb_true_iff. split; apply Z.leb_le; lia.
    + exists param'. by rewrite Ht, Hint in *.
  - intros z Hz. rewrite assign_cases, Hint.
    change (py_getitem (Str.chars format) A_VAL32) with (Return "i"%char : result ascii).
    cbn [Ascii.eqb Bool.eqb bound_value]. unfold struct.pack.
    change (struct.layout_of "i") with (Return (struct.sint 4)).
    cbn [and_then].
    change (struct.bits 4 - 1) with 31.
    destruct (Z.leb_spec (- 2 ^ 31) z); destruct (Z.ltb_spec z (2 ^ 31));
      try reflexivity; lia.
  - intros b Hb.
    destruct (assign_then_valueof P param (VFloat b) struct.float64)
      as (param' & Ha & Ht & Hv).
    + by rewrite Hfloat.
    + change (representable struct.float64 (VFloat b))
        with ((0 <=? b) && (b <? 2 ^ 64)).
      apply andb_true_iff. split; [apply Z.leb_le|apply Z.ltb_lt]; lia.
    + exists param'. by rewrite Ht, Hfloat in *.
Qed.

(** ** Converters and categories *)

(** X8. The date and time converters return [None] for an empty argument
    and raise [TypeError] for every other one; the timestamp converter
    returns its argument as it is. *)
Theorem converters_accept_only_empty (s : pyval) :
  ads_typecast_date s = (if truthy s then Raise TypeError else Return VNone)
  ∧ ads_typecast_time s = (if truthy s then Raise TypeError else Return VNone)
  ∧ ads_typecast_timestamp s = Return s.
Proof.
  split; [|split]; [| |reflexivity].
  - destruct (truthy s) eqn:Hs; [by apply ads_typecast_date_raises|].
    unfold ads_typecast_date, ads_typecast_date_in. by rewrite Hs.
  - destruct (truthy s) eqn:Hs; [by apply ads_typecast_time_raises|].
    unfold ads_typecast_time, ads_typecast_time_in. by rewrite Hs.
Qed.

Lemma category_members (C : gset Z) (c : Z) :
  C ∈ categories → c ∈ C → 1 <= c <= 16.
Proof.
  unfold categories. intros HC Hc.
  repeat (apply elem_of_cons in HC as [->|HC]);
    [..|by apply elem_of_nil in HC];
    apply elem_of_list_to_set in Hc;
    repeat (apply elem_of_cons in Hc as [->|Hc]);
    try (by apply elem_of_nil in Hc); done.
Qed.

(** X9. The categories split the native codes: each code from 1 to 16
    equals exactly one of STRING, BINARY, NUMBER, DATE, TIME and TIMESTAMP,
    every other code equals none of them, and no code equals ROWID. *)
Theorem categories_partition_codes (c : Z) :
  length (filter (λ C, py_eq (Cat C) (Code c) = Return true) categories)
  = (if (1 <=? c) && (c <=? 16) then 1%nat else 0%nat)
  ∧ py_eq (Cat ROWID) (Code c) = Return false.
Proof.
  split; [|reflexivity].
  destruct ((1 <=? c) && (c <=? 16)) eqn:Hc.
  - apply andb_true_iff in Hc as [Hlo%Z.leb_le Hhi%Z.leb_le].
    assert (c = 1 ∨ c = 2 ∨ c = 3 ∨ c = 4 ∨ c = 5 ∨ c = 6 ∨ c = 7 ∨ c = 8
            ∨ c = 9 ∨ c = 10 ∨ c = 11 ∨ c = 12 ∨ c = 13 ∨ c = 14 ∨ c = 15
            ∨ c = 16) as Hcases by lia.
    repeat (destruct Hcases as [->|Hcases]); try subst c; reflexivity.
  - assert (Hout : ¬ (1 <= c <= 16)).
    { intros [Hlo%Z.leb_le Hhi%Z.leb_le]. by rewrite Hlo, Hhi in Hc. }
    assert (Hnone : ∀ C, C ∈ categories
                         → ¬ (py_eq (Cat C) (Code c) = Return true)).
    { intros C HC Heq. cbn in Heq. injection Heq as Heq.
      apply bool_decide_eq_true in Heq.
      by apply Hout, (category_members C). }
    clear Hc Hout. induction categories as [|C Cs IH]; [done|].
    rewrite filter_cons_False by (apply Hnone; left).
    apply IH. intros D HD. apply Hnone. by right.
Qed.

(** ** The statement of a cursor *)

Ltac cursor_fields :=
  cbn [Cursor.parent Cursor.arraysize Cursor.converter Cursor.rowcount
       Cursor.stmt Cursor.description Cursor.runs Cursor.pending
       Cursor.set_rowcount Cursor.set_stmt Cursor.set_description
       Cursor.set_native fst snd] in *.

(** X10. [free_statement] is idempotent and leaves no live handle: a
    cursor holding a statement loses it together with its description,
    converter, pending rows and row count, and any other cursor (no
    statement, or the NULL handle of a failed prepare) is left as it is. *)
Theorem free_statement_idempotent (self : Cursor.t) :
  let freed := fst (free_statement self) in
  free_statement freed = (freed, Return tt)
  ∧ (∀ a, Cursor.stmt freed ≠ Some (pointer a))
  ∧ (∀ a, Cursor.stmt self = Some (pointer a) →
       Cursor.stmt freed = None ∧ Cursor.description freed = None
       ∧ Cursor.converter freed = None ∧ Cursor.rowcount freed = -1
       ∧ Cursor.pending freed = [])
  ∧ ((∀ a, Cursor.stmt self ≠ Some (pointer a)) → freed = self).
Proof.
  cbv zeta. unfold free_statement.
  destruct self as [p asz cv rc st d n rows].
  destruct st as [[|a]|]; cursor_fields; repeat split; try done.
  intros H. by destruct (H a).
Qed.

Lemma con_raises_InterfaceError (self : Cursor.t) (e : exn) :
  con self = Raise e → e = InterfaceError.
Proof.
  unfold con, Connection_con.
  destruct (Cursor.parent self) as [p|]; [|by intros [= <-]].
  destruct (Connection.c p) as [h|]; [|by intros [= <-]].
  destruct (handle_true h); [discriminate|by intros [= <-]].
Qed.

Lemma con_free_statement (self : Cursor.t) :
  con (fst (free_statement self)) = con self.
Proof.
  unfold free_statement. by destruct (Cursor.stmt self) as [[|a]|].
Qed.

Lemma free_statement_pair (self : Cursor.t) :
  free_statement self = (fst (free_statement self), Return tt).
Proof. unfold free_statement. by destruct (Cursor.stmt self) as [[|a]|]. Qed.

(** X11. On a cursor that is closed, or whose connection is, [executemany]
    never returns: it frees the statement the cursor held and leaves
    [rowcount] at -1, whatever the operation and the parameters; and for
    an operation that is not a [str], which goes to the library without
    being encoded first, the exception is [InterfaceError]. *)
Theorem executemany_when_closed (P : platform) (L : library)
    (self : Cursor.t) (operation : pyval) (seq : list (list pyval)) :
  returns (con self) = false →
  let run := executemany P L self operation seq in
  fst run = Cursor.set_rowcount (-1) (fst (free_statement self))
  ∧ returns (snd run) = false
  ∧ (is_str operation = false → snd run = Raise InterfaceError).
Proof.
  intros Hcon run.
  assert (run = (Cursor.set_rowcount (-1) (fst (free_statement self)),
                 Raise InterfaceError)) as ->; [|by repeat split].
  unfold run, executemany, executemany_try, new_statement.
  rewrite free_statement_pair, con_free_statement.
  destruct (con self) as [h|e] eqn:He; [discriminate|].
  by apply con_raises_InterfaceError in He as ->.
Qed.

Lemma new_statement_returns (P : platform) (L : library)
    (self s : Cursor.t) (operation : pyval) :
  new_statement P L self operation = (s, Return tt) →
  s = Cursor.set_stmt (Some (ads_prepare L))
        (Cursor.set_native 0 [] (fst (free_statement self)))
  ∧ ∃ h, con s = Return h.
Proof.
  unfold new_statement. rewrite free_statement_pair.
  destruct (con (fst (free_statement self))) as [h|e] eqn:Hcon; [|discriminate].
  destruct (as_argument _); [|discriminate].
  intros [= <-]. split; [done|]. exists h.
  revert Hcon. unfold con. by cursor_fields.
Qed.

Lemma raise_parent_error_connected (L : library) (s : Cursor.t) (h : handle)
    (A : Type) :
  con s = Return h → @raise_parent_error L A s = Raise (error_class L).
Proof.
  unfold con, raise_parent_error, Connection_error, error_class.
  destruct (Cursor.parent s) as [p|]; [|discriminate].
  intros ->. cbn [and_then]. by destruct (bool_decide _).
Qed.

(** X12. A statement the library cannot prepare: when the connection is
    live and [ads_prepare] answers NULL, [executemany] raises the
    connection's error ([IntegrityError] for the codes -193 to -196,
    [OperationalError] for every other code), runs nothing and leaves
    [rowcount] at -1. *)
Theorem prepare_failure_is_classified (P : platform) (L : library)
    (self : Cursor.t) (operation : pyval) (seq : list (list pyval)) :
  snd (new_statement P L self operation) = Return tt →
  ads_prepare L = NULL →
  let run := executemany P L self operation seq in
  snd run = Raise (error_class L)
  ∧ Cursor.rowcount (fst run) = -1
  ∧ Cursor.runs (fst run) = 0%nat
  ∧ Cursor.stmt (fst run) = Some NULL.
Proof.
  intros Hnew Hnull. cbv zeta. unfold executemany, executemany_try.
  destruct (new_statement P L self operation) as [s [[]|e]] eqn:Hs;
    [|discriminate].
  apply new_statement_returns in Hs as [Hs [h Hcon]].
  unfold stmt_get.
  assert (Hstmt : Cursor.stmt s = Some NULL) by (rewrite Hs, Hnull; done).
  rewrite Hstmt. cbn [handle_true].
  rewrite (raise_parent_error_connected L s h _ Hcon). cursor_fields.
  repeat split; try done. by rewrite Hs.
Qed.

(** X13. An execution the library rejects: for a prepared statement
    without parameters whose first execution fails, [executemany] raises
    the connection's error after that one execution, runs none of the
    parameter sets that follow, and leaves [rowcount] at -1. *)
Theorem execute_failure_is_classified (P : platform) (L : library)
    (self : Cursor.t) (operation : pyval) (parameters : list pyval)
    (rest : list (list pyval)) :
  prepares P L self operation = true →
  ads_num_params L = 0 →
  succeeded (ads_execute L 0 []) = false →
  let run := executemany P L self operation (parameters :: rest) in
  snd run = Raise (error_class L)
  ∧ Cursor.rowcount (fst run) = -1
  ∧ Cursor.runs (fst run) = 1%nat.
Proof.
  intros Hprep Hn Hfail. cbv zeta.
  unfold prepares in Hprep. unfold executemany, executemany_try.
  destruct (new_statement P L self operation) as [s [[]|e]] eqn:Hs;
    [|discriminate].
  apply new_statement_returns in Hs as [Hs [h Hcon]].
  destruct (stmt_get L s) as [hs|e] eqn:Hget; [|discriminate].
  cbn [execute_each]. unfold execute_once, run_once. rewrite Hn.
  change (py_slice_to parameters 0) with (@nil pyval).
  cbn [bind_from].
  assert (Hget0 : stmt_get L (Cursor.set_rowcount 0 s) = Return hs)
    by (by destruct s).
  rewrite Hget0.
  assert (Hruns : Cursor.runs (Cursor.set_rowcount 0 s) = 0%nat)
    by (rewrite Hs; done).
  rewrite Hruns, Hfail. cbn [negb].
  rewrite (raise_parent_error_connected L _ h).
  - cursor_fields. done.
  - revert Hcon. unfold con. by destruct s.
Qed.

(** ** What [executemany] leaves behind *)

Lemma fold_add_rowcount_lower (counts : list Z) (rc : Z) :
  -1 <= rc → -1 <= fold_left add_rowcount counts rc.
Proof.
  revert rc. induction counts as [|c counts IH]; intros rc Hrc; [done|].
  cbn [fold_left]. apply IH. unfold add_rowcount.
  destruct (Z.ltb_spec c 0); [lia|]. destruct (Z.geb_spec rc 0); lia.
Qed.

(** X14. The row count is never below -1: after [executemany], however it
    ends and whatever counts the library reports (negative ones too),
    [rowcount] is -1 or a natural number. *)
Theorem rowcount_at_least_unknown (P : platform) (L : library)
    (self : Cursor.t) (operation : pyval) (seq : list (list pyval)) :
  -1 <= Cursor.rowcount (fst (executemany P L self operation seq)).
Proof.
  unfold executemany, executemany_try.
  destruct (new_statement P L self operation) as [s0 [[]|x]];
    [|cursor_fields; lia].
  destruct (stmt_get L s0) as [h|x]; [|cursor_fields; lia].
  destruct (execute_each P L (ads_num_params L) (Cursor.set_rowcount 0 s0)
              None seq) as [s1 [parms|x]] eqn:Hloop; [|cursor_fields; lia].
  apply execute_each_rowcount in Hloop as [_ Hrc].
  assert (Hlow : -1 <= Cursor.rowcount s1).
  { rewrite Hrc. apply fold_add_rowcount_lower. cursor_fields. lia. }
  by destruct parms.
Qed.

Lemma column_of_native_type (info : ColumnInfo.t) (col : column) (t : Z) :
  column_of info = Return (col, t) → col_native_type col = t.
Proof.
  unfold column_of.
  destruct (bool_decide _).
  - destruct (Double.truediv _ 2); discriminate.
  - cbn [and_then]. destruct (ToPyType !! _); [|discriminate].
    by intros [= <- <-].
Qed.

Lemma collect_column_of_types (infos : list ColumnInfo.t)
    (cols : list (column * Z)) :
  collect column_of infos = Return cols →
  cols.*2 = col_native_type <$> cols.*1.
Proof.
  revert cols. induction infos as [|info infos IH]; intros cols.
  - by intros [= <-].
  - cbn [collect].
    destruct (column_of info) as [[col t]|e] eqn:Hcol; [|discriminate].
    cbn [and_then].
    destruct (collect column_of infos) as [cols'|e]; [|discriminate].
    intros [= <-]. cbn. f_equal.
    + symmetry. by apply (column_of_native_type info).
    + by apply IH.
Qed.

Lemma describe_result_described (L : library) (self s : Cursor.t)
    (e : execution) (c : Z) :
  describe_result L self e = (s, Return c) → described s.
Proof.
  unfold describe_result, columns.
  destruct (get_stmt L self) as [h|x]; cbn [and_then].
  - destruct (collect column_of (column_infos e)) as [[|col cols]|x] eqn:Hc.
    + intros [= <- _]. by left.
    + intros [= <- _]. right. destruct col as [col t].
      exists col, (cols.*1). cursor_fields. split; [done|].
      f_equal. by apply collect_column_of_types in Hc.
    + destruct (exn_isa x ValueError); [|discriminate].
      intros [= <- _]. by left.
  - destruct (exn_isa x ValueError); [|discriminate].
    intros [= <- _]. by left.
Qed.

Lemma described_set_rowcount (s : Cursor.t) (rc : Z) :
  described s → described (Cursor.set_rowcount rc s).
Proof. by destruct s. Qed.

Lemma execute_once_described (P : platform) (L : library) (bind_count : Z)
    (self s : Cursor.t) (parameters : list pyval) (ps : list BindParam.t) :
  execute_once P L bind_count self parameters = (s, Return ps) →
  described s.
Proof.
  unfold execute_once, run_once.
  destruct (bind_from P L self 0 _) as [parms|x]; [|discriminate].
  destruct (stmt_get L self) as [h|x]; [|discriminate].
  destruct (negb _).
  { unfold raise_parent_error. cursor_fields.
    destruct (Cursor.parent self) as [p|]; [|discriminate].
    destruct (Connection_error L p); discriminate. }
  destruct (describe_result L _ _) as [s1 [c|x]] eqn:Hd; [|discriminate].
  intros [= <- _]. apply described_set_rowcount.
  by apply describe_result_described in Hd.
Qed.

(** What the last turn of the loop establishes holds when the loop ends
    with [parms] assigned. *)
Lemma execute_each_last (P : platform) (L : library) (bind_count : Z)
    (Q : Cursor.t → Prop) :
  (∀ self s parameters ps,
     execute_once P L bind_count self parameters = (s, Return ps) → Q s) →
  ∀ (seq : list (list pyval)) (self s : Cursor.t)
    (parms : option (list BindParam.t)) (ps : list BindParam.t),
    execute_each P L bind_count self parms seq = (s, Return (Some ps)) →
    parms = None ∨ Q self →
    Q s.
Proof.
  intros Hone. induction seq as [|parameters rest IH]; intros self s parms ps.
  - cbn. intros [= <- ->] [|]; done.
  - cbn [execute_each].
    destruct (execute_once P L bind_count self parameters)
      as [s1 [p1|x]] eqn:H1; [|discriminate].
    intros Hrest _. apply (IH _ _ _ _ Hrest). right. by apply Hone in H1.
Qed.

Lemma executemany_last (P : platform) (L : library) (Q : Cursor.t → Prop) :
  (∀ self s parameters ps,
     execute_once P L (ads_num_params L) self parameters = (s, Return ps) →
     Q s) →
  ∀ (self s : Cursor.t) (operation : pyval) (seq : list (list pyval))
    (out : list pyval),
    executemany P L self operation seq = (s, Return out) → Q s.
Proof.
  intros Hone self s operation seq out.
  unfold executemany, executemany_try.
  destruct (new_statement P L self operation) as [s0 [[]|x]]; [|discriminate].
  destruct (stmt_get L s0) as [h|x]; [|discriminate].
  destruct (execute_each P L (ads_num_params L) (Cursor.set_rowcount 0 s0)
              None seq) as [s1 [[parms|]|x]] eqn:Hloop; try discriminate.
  intros [= <- _].
  apply (execute_each_last P L _ Q Hone _ _ _ _ _ Hloop). by left.
Qed.

(** X15. The description after a call: whenever [executemany] returns,
    [description] and [converter] are both unset (no result set), or
    [description] is a non-empty list of columns and the converter's types
    are the native types of those columns, in order. *)
Theorem description_after_executemany (P : platform) (L : library)
    (self s : Cursor.t) (operation : pyval) (seq : list (list pyval))
    (out : list pyval) :
  executemany P L self operation seq = (s, Return out) →
  described s.
Proof.
  apply (executemany_last P L described).
  intros s0 s1 parameters ps. apply execute_once_described.
Qed.

Lemma py_slice_to_take {A} (l : list A) (n : Z) :
  0 <= n → py_slice_to (take (Z.to_nat n) l) n = py_slice_to l n.
Proof.
  intros Hn. unfold py_slice_to.
  destruct (Z.ltb_spec n 0); [lia|]. by rewrite take_take, Nat.min_id.
Qed.

Lemma execute_each_take (P : platform) (L : library) (n : Z)
    (seq : list (list pyval)) :
  0 <= n →
  ∀ (self : Cursor.t) (parms : option (list BindParam.t)),
    execute_each P L n self parms (take (Z.to_nat n) <$> seq)
    = execute_each P L n self parms seq.
Proof.
  intros Hn. induction seq as [|parameters rest IH]; intros self parms; [done|].
  cbn [fmap list_fmap execute_each]. unfold execute_once, run_once.
  rewrite py_slice_to_take by done.
  destruct (bind_from P L self 0 _) as [bound|x]; [|done].
  destruct (stmt_get L self) as [h|x]; [|done].
  destruct (negb _); [by destruct (raise_parent_error _ _) as [[c p]|x]|].
  destruct (describe_result L _ _) as [s1 [c|x]]; [|done].
  apply IH.
Qed.

(** X16. Values beyond the parameter count are ignored: when the library
    reports [n] parameters ([n] not negative), [executemany] does on each
    parameter set what it does on its first [n] values, with the same
    cursor and the same result or exception. *)
Theorem surplus_parameters_ignored (P : platform) (L : library)
    (self : Cursor.t) (operation : pyval) (seq : list (list pyval)) :
  0 <= ads_num_params L →
  executemany P L self operation (take (Z.to_nat (ads_num_params L)) <$> seq)
  = executemany P L self operation seq.
Proof.
  intros Hn. unfold executemany, executemany_try.
  destruct (new_statement P L self operation) as [s0 [[]|x]]; [|done].
  destruct (stmt_get L s0) as [h|x]; [|done].
  by rewrite execute_each_take.
Qed.

(** ** Fetching rows *)

Lemma collect_app {A B} (f : A → result B) (l k : list A) (r : list B) :
  collect f (l ++ k) = Return r →
  ∃ r1 r2, collect f l = Return r1 ∧ collect f k = Return r2 ∧ r = r1 ++ r2.
Proof.
  revert r. induction l as [|a l IH]; intros r.
  - cbn. intros H. by exists [], r.
  - cbn [app collect]. destruct (f a) as [b|e]; [|discriminate].
    cbn [and_then].
    destruct (collect f (l ++ k)) as [r'|e] eqn:Hr; [|discriminate].
    intros [= <-]. destruct (IH r' eq_refl) as (r1 & r2 & -> & -> & ->).
    by exists (b :: r1), r2.
Qed.

Lemma with_pending_twice (rows rows' : list (list DataValue.t))
    (s : Cursor.t) :
  with_pending rows (with_pending rows' s) = with_pending rows s.
Proof. by destruct s. Qed.

Lemma with_pending_same (s : Cursor.t) :
  with_pending (Cursor.pending s) s = s.
Proof. by destruct s. Qed.

Section Fetch.

Variables (P : platform) (L : library).

(** One [next] of the generator on a cursor with a statement. *)
Lemma rows_next_row (started : bool) (self : Cursor.t) (h : handle)
    (row : list DataValue.t) (rest : list (list DataValue.t)) :
  started = true ∨ has_result_set self = true →
  stmt_get L self = Return h →
  Cursor.pending self = row :: rest →
  rows_next P L started self
  = (with_pending rest self,
     let! vs := collect (valueof P) row in Return (Some vs)).
Proof.
  intros Hstart Hstmt Hp. unfold rows_next, has_result_set in *.
  replace (negb started && negb _) with false
    by (destruct Hstart as [->| ->]; [done|by destruct started]).
  unfold get_stmt. rewrite Hstmt, Hp. unfold values, get_stmt.
  replace (stmt_get L (Cursor.set_native (Cursor.runs self) rest self))
    with (stmt_get L self) by (by destruct self).
  by rewrite Hstmt.
Qed.

Lemma rows_next_end (started : bool) (self : Cursor.t) (h : handle) :
  started = true ∨ has_result_set self = true →
  stmt_get L self = Return h →
  Cursor.pending self = [] →
  rows_next P L started self = (self, Return None).
Proof.
  intros Hstart Hstmt Hp. unfold rows_next, has_result_set in *.
  replace (negb started && negb _) with false
    by (destruct Hstart as [->| ->]; [done|by destruct started]).
  unfold get_stmt. by rewrite Hstmt, Hp.
Qed.

Lemma stmt_get_with_pending (rows : list (list DataValue.t))
    (self : Cursor.t) :
  stmt_get L (with_pending rows self) = stmt_get L self.
Proof. by destruct self. Qed.

Lemma zip_range_rows_decoded (n : nat) :
  ∀ (started : bool) (self : Cursor.t) (h : handle)
    (rs : list (list pyval)),
    started = true ∨ has_result_set self = true →
    stmt_get L self = Return h →
    decode_rows P (take n (Cursor.pending self)) = Return rs →
    zip_range_rows P L n started self
    = (with_pending (drop n (Cursor.pending self)) self, Return rs).
Proof.
  induction n as [|n IH]; intros started self h rs Hstart Hstmt Hrs.
  - cbn in Hrs. injection Hrs as <-. cbn [zip_range_rows].
    by rewrite drop_0, with_pending_same.
  - cbn [zip_range_rows].
    destruct (Cursor.pending self) as [|row rest] eqn:Hp.
    + cbn in Hrs. injection Hrs as <-.
      rewrite (rows_next_end started self h) by done.
      rewrite drop_nil. by rewrite <- Hp, with_pending_same.
    + rewrite (rows_next_row started self h row rest) by done.
      unfold decode_rows in Hrs. cbn [take collect] in Hrs.
      destruct (collect (valueof P) row) as [vs|e]; [|discriminate].
      cbn [and_then] in *.
      destruct (collect (collect (valueof P)) (take n rest)) as [rs'|e] eqn:Hrest;
        [|discriminate].
      injection Hrs as <-.
      assert (Hrest' : Cursor.pending (with_pending rest self) = rest)
        by (by destruct self).
      rewrite (IH true (with_pending rest self) h rs');
        [| by left | by rewrite stmt_get_with_pending | by rewrite Hrest'].
      rewrite Hrest', with_pending_twice. reflexivity.
Qed.

Lemma list_rows_decoded (rows : list (list DataValue.t)) :
  ∀ (started : bool) (self : Cursor.t) (h : handle)
    (rs : list (list pyval)),
    started = true ∨ has_result_set self = true →
    stmt_get L self = Return h →
    decode_rows P rows = Return rs →
    list_rows P L started self rows = (with_pending [] self, Return rs).
Proof.
  induction rows as [|row rest IH]; intros started self h rs Hstart Hstmt Hrs.
  - cbn in Hrs. injection Hrs as <-. cbn [list_rows].
    fold (with_pending [] self).
    rewrite (rows_next_end started _ h);
      [done| by destruct self, Hstart; auto
      | by rewrite stmt_get_with_pending | by destruct self].
  - cbn [list_rows]. fold (with_pending (row :: rest) self).
    rewrite (rows_next_row started _ h row rest);
      [| by destruct self, Hstart; auto
       | by rewrite stmt_get_with_pending | by destruct self].
    unfold decode_rows in Hrs. cbn [collect] in Hrs.
    destruct (collect (valueof P) row) as [vs|e]; [|discriminate].
    cbn [and_then] in *.
    destruct (collect (collect (valueof P)) rest) as [rs'|e] eqn:Hrest;
      [|discriminate].
    injection Hrs as <-. rewrite with_pending_twice.
    rewrite (IH true (with_pending rest self) h rs');
      [| by left | by rewrite stmt_get_with_pending | done].
    by rewrite with_pending_twice.
Qed.

(** X17. [fetchall] on a result set: when every pending row decodes, it
    returns all of them, in the library's order, and leaves none to
    fetch. *)
Theorem fetchall_returns_every_row (self : Cursor.t) (h : handle)
    (rs : list (list pyval)) :
  has_result_set self = true →
  stmt_get L self = Return h →
  decode_rows P (Cursor.pending self) = Return rs →
  fetchall P L self = (with_pending [] self, Return rs).
Proof.
  intros Hd Hstmt Hrs. unfold fetchall.
  apply (list_rows_decoded _ _ _ h); auto.
Qed.

(** X18. [fetchmany] on a result set: with [n] the size asked for (the
    argument, or [arraysize]), it returns the first [n] pending rows, or
    all of them when fewer are left, and leaves the others to fetch. *)
Theorem fetchmany_returns_first_rows (self : Cursor.t) (size : option Z)
    (h : handle) (rs : list (list pyval)) :
  has_result_set self = true →
  stmt_get L self = Return h →
  let n := Z.to_nat (default (Cursor.arraysize self) size) in
  decode_rows P (take n (Cursor.pending self)) = Return rs →
  fetchmany P L self size
  = (with_pending (drop n (Cursor.pending self)) self, Return rs).
Proof.
  intros Hd Hstmt n Hrs. unfold fetchmany.
  replace (match size with Some k => k | None => Cursor.arraysize self end)
    with (default (Cursor.arraysize self) size) by (by destruct size).
  apply (zip_range_rows_decoded _ _ _ h); auto.
Qed.

(** X19. Fetching in pieces: when every pending row decodes, a
    [fetchmany] followed by a [fetchall] returns together the rows a
    single [fetchall] returns, in the same order, and ends with the same
    cursor. *)
Theorem fetchmany_then_fetchall (self : Cursor.t) (size : option Z)
    (h : handle) (rs : list (list pyval)) :
  has_result_set self = true →
  stmt_get L self = Return h →
  decode_rows P (Cursor.pending self) = Return rs →
  ∃ (s1 s2 : Cursor.t) (first rest : list (list pyval)),
    fetchmany P L self size = (s1, Return first)
    ∧ fetchall P L s1 = (s2, Return rest)
    ∧ fetchall P L self = (s2, Return (first ++ rest))
    ∧ first ++ rest = rs.
Proof.
  intros Hd Hstmt Hrs.
  set (n := Z.to_nat (default (Cursor.arraysize self) size)).
  pose proof Hrs as Hsplit.
  rewrite <- (take_drop n (Cursor.pending self)) in Hsplit.
  apply collect_app in Hsplit as (r1 & r2 & H1 & H2 & ->).
  exists (with_pending (drop n (Cursor.pending self)) self),
    (with_pending [] self), r1, r2.
  split.
  { unfold fetchmany.
    replace (match size with Some k => k | None => Cursor.arraysize self end)
      with (default (Cursor.arraysize self) size) by (by destruct size).
    by apply (zip_range_rows_decoded _ _ _ h); auto. }
  unfold fetchall.
  split; [|split; [by apply (list_rows_decoded _ _ _ h); auto|done]].
  replace (Cursor.pending (with_pending (drop n (Cursor.pending self)) self))
    with (drop n (Cursor.pending self)) by (by destruct self).
  rewrite (list_rows_decoded _ false _ h r2).
  - by rewrite with_pending_twice.
  - right. by destruct self.
  - by rewrite stmt_get_with_pending.
  - done.
Qed.

(** X20. [fetchone] on a result set: it returns [None] when no row is
    left, which is not an error; otherwise it takes one row from the
    library and returns its values, and when a value of that row does not
    decode it raises, the row being taken all the same. *)
Theorem fetchone_steps (self : Cursor.t) (h : handle) :
  has_result_set self = true →
  stmt_get L self = Return h →
  (Cursor.pending self = [] → fetchone P L self = (self, Return None))
  ∧ (∀ row rest,
       Cursor.pending self = row :: rest →
       fetchone P L self
       = (with_pending rest self,
          match collect (valueof P) row with
          | Return vs => Return (Some vs)
          | Raise e => Raise e
          end)).
Proof.
  intros Hd Hstmt. unfold fetchone, fetchmany.
  change (Z.to_nat 1) with 1%nat. cbn [zip_range_rows]. split.
  - intros Hp. by rewrite (rows_next_end false self h) by auto.
  - intros row rest Hp.
    rewrite (rows_next_row false self h row rest) by auto.
    by destruct (collect (valueof P) row).
Qed.

End Fetch.

(** ** Statements and their result sets *)

Lemma fetch_raises_without_description (P : platform) (L : library)
    (s : Cursor.t) :
  Cursor.description s = None →
  snd (fetchone P L s) = Raise InterfaceError
  ∧ snd (fetchall P L s) = Raise InterfaceError.
Proof.
  intros Hd. split.
  - unfold fetchone, fetchmany. change (Z.to_nat 1) with 1%nat.
    cbn [zip_range_rows]. by rewrite rows_next_no_description.
  - unfold fetchall.
    replace (list_rows P L false s (Cursor.pending s))
      with (s, @Raise (list (list pyval)) InterfaceError); [done|].
    assert (Hs : Cursor.set_native (Cursor.runs s) (Cursor.pending s) s = s)
      by (by destruct s).
    destruct (Cursor.pending s) eqn:Hp; cbn [list_rows];
      by rewrite Hs, rows_next_no_description.
Qed.

Lemma execute_once_no_columns (P : platform) (L : library) (bind_count : Z)
    (self s : Cursor.t) (parameters : list pyval) (ps : list BindParam.t) :
  (∀ n parms, column_infos (ads_execute L n parms) = []) →
  execute_once P L bind_count self parameters = (s, Return ps) →
  Cursor.description s = None.
Proof.
  intros Hcols. unfold execute_once, run_once.
  destruct (bind_from P L self 0 _) as [parms|x]; [|discriminate].
  destruct (stmt_get L self) as [h|x]; [|discriminate].
  destruct (negb _).
  { unfold raise_parent_error. cursor_fields.
    destruct (Cursor.parent self) as [p|]; [|discriminate].
    destruct (Connection_error L p); discriminate. }
  unfold describe_result, columns. rewrite Hcols.
  destruct (get_stmt L _) as [h'|x]; cbn [and_then collect].
  - by intros [= <- _].
  - destruct (exn_isa x ValueError); [|discriminate]. by intros [= <- _].
Qed.

(** X21. After a statement without result set: when no execution of the
    statement reports a column, a call of [executemany] that returns
    leaves [description] unset, and [fetchone] and [fetchall] on the
    cursor then raise [InterfaceError]. *)
Theorem fetch_after_statement_without_columns (P : platform) (L : library)
    (self s : Cursor.t) (operation : pyval) (seq : list (list pyval))
    (out : list pyval) :
  (∀ n parms, column_infos (ads_execute L n parms) = []) →
  executemany P L self operation seq = (s, Return out) →
  Cursor.description s = None
  ∧ snd (fetchone P L s) = Raise InterfaceError
  ∧ snd (fetchall P L s) = Raise InterfaceError.
Proof.
  intros Hcols Hrun.
  assert (Hd : Cursor.description s = None).
  { revert Hrun. apply (executemany_last P L (λ s, Cursor.description s = None)).
    intros s0 s1 parameters ps. by apply execute_once_no_columns. }
  split; [done|]. by apply fetch_raises_without_description.
Qed.

Lemma column_of_raise_class (info : ColumnInfo.t) (x : exn) :
  column_of info = Raise x → exn_isa x ValueError = false.
Proof.
  unfold column_of. destruct (bool_decide _).
  - unfold Double.truediv. change (2 =? 0) with false. cbv iota.
    destruct (if ColumnInfo.precision info =? 0 then _ else _);
      cbn [and_then set_int_field]; by intros [= <-].
  - cbn [and_then]. destruct (ToPyType !! _); [discriminate|].
    by intros [= <-].
Qed.

Lemma collect_wide_raises (infos : list ColumnInfo.t) :
  Exists (λ info, ColumnInfo.native_type info ∈ wide_types) infos →
  ∃ x, collect column_of infos = Raise x ∧ exn_isa x ValueError = false.
Proof.
  induction 1 as [info infos Hw|info infos _ IH]; cbn [collect].
  - pose proof (wide_column_never_described info Hw) as Hnever.
    destruct (column_of info) as [c|x] eqn:Hc; [discriminate|].
    exists x. split; [done|]. by apply (column_of_raise_class info).
  - destruct (column_of info) as [c|x] eqn:Hc.
    + destruct IH as (x & -> & Hx). by exists x.
    + exists x. split; [done|]. by apply (column_of_raise_class info).
Qed.

(** X22. No query with a wide-character column can be run: when every
    execution of the statement reports a column of a wide native type,
    [executemany] returns for no cursor, operation and parameters. *)
Theorem wide_result_set_never_returns (P : platform) (L : library)
    (self : Cursor.t) (operation : pyval) (seq : list (list pyval)) :
  (∀ n parms,
     Exists (λ info, ColumnInfo.native_type info ∈ wide_types)
       (column_infos (ads_execute L n parms))) →
  returns (snd (executemany P L self operation seq)) = false.
Proof.
  intros Hwide.
  destruct (executemany P L self operation seq) as [s [out|x]] eqn:Hrun;
    [|done].
  exfalso. revert Hrun. apply (executemany_last P L (λ _, False)).
  intros s0 s1 parameters ps. unfold execute_once, run_once.
  destruct (bind_from P L s0 0 _) as [parms|x]; [|discriminate].
  destruct (stmt_get L s0) as [h|x] eqn:Hstmt; [|discriminate].
  destruct (negb _).
  { unfold raise_parent_error. cursor_fields.
    destruct (Cursor.parent s0) as [p|]; [|discriminate].
    destruct (Connection_error L p); discriminate. }
  unfold describe_result, columns, get_stmt.
  replace (stmt_get L (Cursor.set_native _ _ s0)) with (stmt_get L s0)
    by (by destruct s0).
  rewrite Hstmt. cbn [and_then].
  destruct (collect_wide_raises _ (Hwide (Cursor.runs s0) parms))
    as (x & -> & ->).
  discriminate.
Qed.

(** ** Type converters *)

(** X23. A [TypeConverter] serves one row: when [gen] has run without
    exception over a row with at least as many values as there are types,
    it has yielded one value per type and left no converter, and every
    later [gen] of the same object yields nothing, whatever the values and
    the registered callbacks. *)
Theorem type_converter_serves_one_row (registry : gmap Z callback)
    (types rest : list Z) (values out : list pyval) :
  (length types <= length values)%nat →
  gen registry types values = (rest, Return out) →
  length out = length types
  ∧ rest = []
  ∧ ∀ registry' values', gen registry' rest values' = ([], Return []).
Proof.
  revert values rest out.
  induction types as [|t types IH]; intros values rest out Hlen.
  - cbn. intros [= <- <-]. done.
  - destruct values as [|v values]; [cbn in Hlen; lia|]. cbn [gen].
    destruct (find_converter registry t v) as [w|e]; [|discriminate].
    destruct (gen registry types values) as [rest' [ws|e]] eqn:Hgen;
      [|discriminate].
    cbn [and_then]. intros [= <- <-].
    destruct (IH values rest' ws) as (Hout & -> & Hlater);
      [cbn in Hlen; lia|done|].
    cbn [length]. by rewrite Hout.
Qed.

(** Without a registered callback the values pass unchanged. *)
Lemma gen_without_callbacks (types : list Z) (values : list pyval) :
  length types = length values →
  gen ∅ types values = ([], Return values).
Proof.
  revert values. induction types as [|t types IH]; intros [|v values] Hlen;
    try discriminate Hlen; [done|].
  cbn [gen]. unfold find_converter. rewrite lookup_empty. cbn [default].
  rewrite IH by (by injection Hlen). reflexivity.
Qed.

(** ** Date and time literals *)

Lemma string_app_cons (x : ascii) (a b : string) :
  (String x a ++ b = String x (a ++ b))%string.
Proof. reflexivity. Qed.

Lemma string_app_assoc (a b c : string) :
  ((a ++ b) ++ c = a ++ (b ++ c))%string.
Proof.
  induction a as [|x a IH]; [done|]. rewrite !string_app_cons. by f_equal.
Qed.

Lemma string_app_empty (a : string) : ("" ++ a = a)%string.
Proof. reflexivity. Qed.

Lemma fill_int (w : nat) (ps : list piece) (a : pyval) (args : list pyval) :
  fill (zero_padded_int w :: ps) (a :: args)
  = (let! n := as_integer a in
     let! s := fill ps args in
     Return (zero_padded w n ++ s)%string).
Proof. reflexivity. Qed.

Lemma fill_literal (c : ascii) (ps : list piece) (args : list pyval) :
  fill (literal c :: ps) args
  = (let! s := fill ps args in Return (String c s)).
Proof. reflexivity. Qed.

(** X24. A timestamp literal is a date literal, a space and a time
    literal: for every three date fields and every tuple of time fields
    [Timestamp] returns the text of [Date], a space and the text of
    [Time], and raises what the first of them to fail raises. *)
Theorem Timestamp_is_Date_and_Time (y m d : pyval) (hms : list pyval) :
  Timestamp (y :: m :: d :: hms)
  = (let! date := Date [y; m; d] in
     let! time := Time hms in
     Return (date ++ " " ++ time)%string).
Proof.
  unfold Timestamp, Date, Time, percent.
  change (parse_format (Str.chars "%04d/%02d/%02d %02d:%02d:%02d"))
    with (Return [zero_padded_int 4; literal "/"; zero_padded_int 2;
                  literal "/"; zero_padded_int 2; literal " ";
                  zero_padded_int 2; literal ":"; zero_padded_int 2;
                  literal ":"; zero_padded_int 2]).
  change (parse_format (Str.chars "%04d/%02d/%02d"))
    with (Return [zero_padded_int 4; literal "/"; zero_padded_int 2;
                  literal "/"; zero_padded_int 2]).
  change (parse_format (Str.chars "%02d:%02d:%02d"))
    with (Return [zero_padded_int 2; literal ":"; zero_padded_int 2;
                  literal ":"; zero_padded_int 2]).
  cbn [and_then]. repeat (rewrite fill_int || rewrite fill_literal).
  change (fill [] []) with (Return ""%string : result string).
  destruct (as_integer y) as [yi|e]; [|done].
  destruct (as_integer m) as [mi|e]; [|done].
  destruct (as_integer d) as [di|e]; [|done].
  cbn [and_then].
  destruct (fill _ hms) as [t|e]; [|done].
  cbn [and_then]. f_equal.
  repeat (rewrite string_app_assoc || rewrite string_app_cons).
  by rewrite !string_app_empty.
Qed.

(* ===================================================================== *)
(** ** Loading the library and opening a connection *)
(* ===================================================================== *)

(** X25. [load_library] returns the library of the first name that loads,
    after every name before it failed to, and raises [InterfaceError]
    exactly when no name loads. *)
Theorem load_library_first_loadable {lib : Type}
    (LoadLibrary : string → option lib) (names : list string) :
  match load_library LoadLibrary names with
  | Return l =>
      ∃ before name after,
        names = before ++ name :: after
        ∧ Forall (λ n, LoadLibrary n = None) before
        ∧ LoadLibrary name = Some l
  | Raise e =>
      e = InterfaceError ∧ Forall (λ n, LoadLibrary n = None) names
  end.
Proof.
  induction names as [|name names IH]; cbn [load_library].
  - split; [reflexivity | constructor].
  - destruct (LoadLibrary name) as [l|] eqn:Hname.
    + exists [], name, names. repeat split; [constructor | exact Hname].
    + destruct (load_library LoadLibrary names) as [l|e].
      * destruct IH as (before & n & after & -> & Hbefore & Hn).
        exists (name :: before), n, after.
        repeat split; [by constructor | exact Hn].
      * destruct IH as [-> Hall]. split; [reflexivity | by constructor].
Qed.

Lemma replace_by_empty_cons (old c : ascii) (s : string) :
  replace_by_empty old (String c s)
  = if Ascii.eqb c old then replace_by_empty old s
    else String c (replace_by_empty old s).
Proof. reflexivity. Qed.

Lemma replace_by_empty_app (old : ascii) (a b : string) :
  (replace_by_empty old (a ++ b)
   = replace_by_empty old a ++ replace_by_empty old b)%string.
Proof.
  induction a as [|c a IH]; [reflexivity|].
  rewrite string_app_cons, !replace_by_empty_cons.
  destruct (Ascii.eqb c old); [exact IH|].
  by rewrite string_app_cons, IH.
Qed.

Lemma replace_by_empty_idem (old : ascii) (s : string) :
  replace_by_empty old (replace_by_empty old s) = replace_by_empty old s.
Proof.
  induction s as [|c s IH]; [reflexivity|].
  rewrite replace_by_empty_cons.
  destruct (Ascii.eqb c old) eqn:Hc; [exact IH|].
  by rewrite replace_by_empty_cons, Hc, IH.
Qed.

Lemma replace_by_empty_absent (old : ascii) (s : string) :
  old ∉ Str.chars (replace_by_empty old s).
Proof.
  induction s as [|c s IH]; [by apply not_elem_of_nil|].
  rewrite replace_by_empty_cons.
  destruct (Ascii.eqb c old) eqn:Hc; [exact IH|].
  apply Ascii.eqb_neq in Hc.
  change (old ∉ c :: Str.chars (replace_by_empty old s)).
  apply not_elem_of_cons. split; [congruence | exact IH].
Qed.

Lemma replace_by_empty_concat (old : ascii) (sep : string)
    (items : list string) :
  replace_by_empty old (String.concat sep (replace_by_empty old <$> items))
  = replace_by_empty old (String.concat sep items).
Proof.
  induction items as [|a items IH]; [reflexivity|].
  destruct items as [|b items].
  - apply replace_by_empty_idem.
  - change (replace_by_empty old
              (replace_by_empty old a ++ sep
               ++ String.concat sep (replace_by_empty old <$> b :: items))
            = replace_by_empty old (a ++ sep ++ String.concat sep (b :: items)))%string.
    rewrite !replace_by_empty_app, IH.
    by rewrite replace_by_empty_idem.
Qed.

Lemma connection_items_without_spaces (kwargs : list (string * pyval)) :
  collect (λ '(kw, arg), str_add (kw ++ "=") arg) (without_spaces <$> kwargs)
  = let! items :=
      collect (λ '(kw, arg), str_add (kw ++ "=") arg) kwargs in
    Return (replace_by_empty " " <$> items).
Proof.
  induction kwargs as [|[kw arg] kwargs IH]; [reflexivity|].
  rewrite fmap_cons. cbn [collect]. rewrite IH. clear IH.
  unfold without_spaces at 1. cbn [fst snd].
  destruct arg; cbn [str_add and_then]; try reflexivity.
  - destruct (collect _ kwargs); cbn [and_then]; [|reflexivity].
    by rewrite fmap_cons, !replace_by_empty_app.
  - destruct (collect _ kwargs); cbn [and_then]; [|reflexivity].
    by rewrite fmap_cons, !replace_by_empty_app.
Qed.

Lemma code_of_space (c : ascii) : Str.code c = 32 → c = " "%char.
Proof.
  unfold Str.code. intros H.
  rewrite <- (ascii_N_embedding c).
  replace (N_of_ascii c) with 32%N by lia. reflexivity.
Qed.

Lemma code_bounds (c : ascii) : 0 ≤ Str.code c < 256.
Proof.
  unfold Str.code. pose proof (N_ascii_bounded c). lia.
Qed.

Lemma byte_of_Z_inj (a b : Z) :
  0 ≤ a < 256 → 0 ≤ b < 256 → byte_of_Z a = byte_of_Z b → a = b.
Proof.
  intros Ha Hb H. apply (f_equal byte_to_Z) in H.
  rewrite !byte_to_of_Z in H.
  change 255 with (Z.ones 8) in H. rewrite !Z.land_ones in H by lia.
  rewrite !Z.mod_small in H by lia. exact H.
Qed.

Lemma encode_utf8_no_space (s : string) :
  " "%char ∉ Str.chars s → byte_of_Z 32 ∉ encode_utf8 s.
Proof.
  unfold encode_utf8.
  induction s as [|c s IH]; [intros _; by apply not_elem_of_nil|].
  change (Str.chars (String c s)) with (c :: Str.chars s).
  rewrite not_elem_of_cons, fmap_cons. intros [Hc Hs].
  cbn [concat]. rewrite not_elem_of_app. split; [|by apply IH].
  pose proof (code_bounds c) as Hb.
  destruct (Str.code c <? 128) eqn:Hlt.
  - apply Z.ltb_lt in Hlt. rewrite elem_of_cons, elem_of_nil.
    intros [H|[]]. apply byte_of_Z_inj in H; [|lia..].
    apply Hc. symmetry. by apply code_of_space.
  - apply Z.ltb_ge in Hlt.
    assert (2 ≤ Str.code c / 64 < 4) as Hdiv.
    { split; [apply Z.div_le_lower_bound | apply Z.div_lt_upper_bound]; lia. }
    pose proof (Z.mod_pos_bound (Str.code c) 64 ltac:(lia)) as Hmod.
    rewrite !elem_of_cons, elem_of_nil.
    intros [H|[H|[]]]; apply byte_of_Z_inj in H; lia.
Qed.

(** X26. The connection string holds no space: blanks in the names and in
    the texts of the keyword arguments are taken out, so two calls whose
    arguments differ only in blanks end alike; and when some argument is
    not a [str], building the string raises [TypeError]. *)
Theorem connection_string_drops_spaces (kwargs : list (string * pyval)) :
  connection_string (without_spaces <$> kwargs) = connection_string kwargs
  ∧ (∀ bs, connection_string kwargs = Return bs → byte_of_Z 32 ∉ bs)
  ∧ (Exists (λ item, is_str item.2 = false) kwargs →
     connection_string kwargs = Raise TypeError).
Proof.
  unfold connection_string. split; [|split].
  - rewrite connection_items_without_spaces.
    destruct (collect _ kwargs) as [items|e]; cbn [and_then]; [|reflexivity].
    by rewrite replace_by_empty_concat.
  - intros bs.
    destruct (collect _ kwargs) as [items|e]; cbn [and_then]; [|discriminate].
    intros [= <-]. apply encode_utf8_no_space, replace_by_empty_absent.
  - intros Hsome.
    assert (collect (λ '(kw, arg), str_add (kw ++ "=") arg) kwargs
            = Raise TypeError) as ->; [|reflexivity].
    induction Hsome as [[kw arg] kwargs Harg|[kw arg] kwargs Hsome IH];
      cbn [collect snd] in *.
    + by destruct arg.
    + rewrite IH. by destruct arg.
Qed.

(** X27. Opening a connection, once the connection string is built: when
    the library hands out no handle the call raises [InterfaceError],
    whatever error the library holds; when the library refuses the
    connection string the handle is freed and the error of the library is
    raised, in the class of its code; otherwise the connection returned is
    open on the handle, and nothing was freed. *)
Theorem connect_outcomes (K : connector) (L : library) (args : list pyval)
    (kwargs : list (string * pyval)) (paramsTwo : list byte) :
  connection_string kwargs = Return paramsTwo →
  connect K L args kwargs
  = match ads_new_connection K with
    | NULL => ([], Raise InterfaceError)
    | pointer a =>
        if ads_connect K paramsTwo
        then ([], Return (Connection.mk (Some (pointer a))))
        else ([ads_free_connection (pointer a)], Raise (error_class L))
      end
  ∧ ∀ calls self, connect K L args kwargs = (calls, Return self) →
      Connection_con self = Return (ads_new_connection K).
Proof.
  intros Hstr. unfold connect, Connection_init. rewrite Hstr.
  unfold Connection_error, Connection_con, error_class.
  cbn [Connection.c].
  destruct (ads_new_connection K) as [|a]; cbn [handle_true negb and_then].
  - split; [reflexivity | discriminate].
  - destruct (ads_connect K paramsTwo); cbn [negb].
    + split; [reflexivity|]. by intros calls self [= _ <-].
    + split; [by destruct (bool_decide _) | by destruct (bool_decide _)].
Qed.

(** ** Closing *)

Lemma Cursor_close_held (x : nat) (self : Cursor.t)
    (cursors : option (gset nat)) :
  Cursor_close false x self cursors
  = ((after_close self, cursors, close_calls self), Return tt).
Proof.
  unfold Cursor_close, after_close, close_calls.
  destruct (Cursor.parent self) as [p|]; [|reflexivity].
  by rewrite (free_statement_pair (set_parent None self)).
Qed.

Lemma close_each_held (held : list (nat * Cursor.t))
    (cursors : option (gset nat)) :
  close_each held cursors
  = ((prod_map id after_close <$> held,
      flat_map (λ o, close_calls o.2) held),
     Return tt).
Proof.
  induction held as [|[x self] held IH]; [reflexivity|].
  cbn [close_each]. rewrite IH, Cursor_close_held. reflexivity.
Qed.

Lemma parent_free_statement (self : Cursor.t) :
  Cursor.parent (fst (free_statement self)) = Cursor.parent self.
Proof.
  unfold free_statement. by destruct (Cursor.stmt self) as [[|a]|].
Qed.

Lemma con_without_parent (self : Cursor.t) :
  Cursor.parent self = None → con self = Raise InterfaceError.
Proof. unfold con. by intros ->. Qed.

Lemma con_refer_to_closed (self : Cursor.t) :
  con (refer_to (Connection.mk None) self) = Raise InterfaceError.
Proof.
  unfold refer_to, con. by destruct (Cursor.parent self) eqn:Hp; [|rewrite Hp].
Qed.

(** X28. Closing an open connection returns, and it releases in order:
    the statements of the cursors the connection holds are freed first,
    then the connection is disconnected and its handle freed.  Afterwards
    every cursor created on the connection finds it closed, and each
    cursor the connection held has lost its parent and its statement. *)
Theorem close_releases_every_cursor (s : Session.t)
    (objects : gmap nat Cursor.t) (c : handle) (members : gset nat) :
  Connection_con (Session.connection s) = Return c →
  Session.cursors s = Some members →
  ∃ objects' frees,
    Connection_close s objects
    = ((Session.mk (Connection.mk None) None, objects',
        frees ++ [ads_disconnect c; ads_free_connection c]), Return tt)
    ∧ (∀ k, k ∈ frees → ∃ a, k = ads_free_stmt (pointer a))
    ∧ (∀ x self, objects !! x = Some self →
         ∃ self', objects' !! x = Some self'
           ∧ con self' = Raise InterfaceError
           ∧ (x ∈ members → Cursor.parent self ≠ None →
                Cursor.parent self' = None
                ∧ ∀ a, Cursor.stmt self = Some (pointer a) →
                    Cursor.stmt self' = None
                    ∧ ads_free_stmt (pointer a) ∈ frees)).
Proof.
  intros Hc Hm. unfold Connection_close. rewrite Hc, Hm.
  rewrite close_each_held.
  set (m := refer_to (Connection.mk None) <$> objects).
  eexists _, _. split; [reflexivity|]. split.
  - intros k Hk. apply list_elem_of_In, in_flat_map in Hk.
    destruct Hk as ([x self] & _ & Hk). apply list_elem_of_In in Hk.
    unfold close_calls in Hk. cbn [snd] in Hk.
    destruct (Cursor.parent self); [|by apply elem_of_nil in Hk].
    unfold free_statement_calls in Hk.
    destruct (Cursor.stmt self) as [[|a]|]; try by apply elem_of_nil in Hk.
    apply elem_of_cons in Hk as [->|Hk]; [by exists a|].
    by apply elem_of_nil in Hk.
  - intros x self Hx.
    assert (m !! x = Some (refer_to (Connection.mk None) self)) as Hmx.
    { unfold m. by rewrite lookup_fmap, Hx. }
    rewrite list_to_map_fmap, list_to_map_to_list.
    destruct (decide (x ∈ members)) as [Hin|Hout].
    + exists (after_close (refer_to (Connection.mk None) self)).
      assert (filter (λ o : nat * Cursor.t, o.1 ∈ members) m !! x
              = Some (refer_to (Connection.mk None) self)) as Hheld.
      { by apply map_lookup_filter_Some. }
      split.
      { apply lookup_union_Some_l. by rewrite lookup_fmap, Hheld. }
      unfold after_close, refer_to.
      destruct (Cursor.parent self) as [p|] eqn:Hp.
      * cbn [set_parent Cursor.parent]. split; [|intros _ _; split].
        -- apply con_without_parent. by rewrite parent_free_statement.
        -- by rewrite parent_free_statement.
        -- intros a Ha. split.
           ++ clear -Ha. destruct self as [p0 asz cv rc st d n rows].
              cbn [Cursor.stmt] in Ha. by subst st.
           ++ apply list_elem_of_In, in_flat_map.
              exists (x, refer_to (Connection.mk None) self). split.
              ** apply list_elem_of_In, elem_of_map_to_list. exact Hheld.
              ** apply list_elem_of_In. unfold close_calls, refer_to.
                 cbn [snd]. rewrite Hp. cbn [set_parent Cursor.parent].
                 unfold free_statement_calls.
                 clear -Ha. destruct self as [p0 asz cv rc st d n rows].
                 cbn [Cursor.stmt] in Ha. subst st.
                 apply list_elem_of_here.
      * rewrite Hp. split; [by apply con_without_parent|].
        intros _ Hne. by destruct Hne.
    + exists (refer_to (Connection.mk None) self). split; [|split].
      * apply lookup_union_Some_raw. right. split; [|exact Hmx].
        rewrite lookup_fmap.
        assert (filter (λ o : nat * Cursor.t, o.1 ∈ members) m !! x = None)
          as ->; [|reflexivity].
        apply map_lookup_filter_None. right. intros self' _. exact Hout.
      * apply con_refer_to_closed.
      * intros Hin. by destruct Hout.
Qed.

(** X29. A connection that was closed stays closed: closing it again,
    committing, rolling back and leaving a [with] block raise
    [InterfaceError] without a call of the library, and asking it for a
    cursor raises [AttributeError]. *)
Theorem close_is_final (s s' : Session.t) (objects objects' : gmap nat Cursor.t)
    (calls : list call) :
  Connection_close s objects = ((s', objects', calls), Return tt) →
  Connection_close s' objects' = ((s', objects', []), Raise InterfaceError)
  ∧ Connection_commit s' = ([], Raise InterfaceError)
  ∧ Connection_rollback s' = ([], Raise InterfaceError)
  ∧ (∀ exc, Connection_exit exc s' = ([], Raise InterfaceError))
  ∧ snd (Connection_cursor s' objects') = Raise AttributeError.
Proof.
  unfold Connection_close at 1.
  destruct (Connection_con (Session.connection s)) as [c|e]; [|discriminate].
  destruct (Session.cursors s) as [members|]; [|discriminate].
  destruct (close_each _ _) as [[held' calls'] [[]|e]]; [|discriminate].
  intros [= <- _ _].
  repeat split; try reflexivity. by intros [e|].
Qed.

(** X30. [Cursor.close] acts once: after a call of it, whether it returned
    or raised, any further call returns and changes and frees nothing.
    So when the call raised - [KeyError] for a cursor its connection does
    not hold, [AttributeError] when the connection was closed first - the
    statement the cursor holds is kept and no later [close] frees it. *)
Theorem Cursor_close_acts_once (remove : bool) (x : nat)
    (self self' : Cursor.t) (cursors cursors' : option (gset nat))
    (calls : list call) (r : result unit) :
  Cursor_close remove x self cursors = ((self', cursors', calls), r) →
  (∀ remove', Cursor_close remove' x self' cursors'
              = ((self', cursors', []), Return tt))
  ∧ (∀ e, r = Raise e →
       remove = true ∧ (e = KeyError ∨ e = AttributeError)
       ∧ Cursor.stmt self' = Cursor.stmt self ∧ calls = []
       ∧ cursors' = cursors).
Proof.
  unfold Cursor_close at 1.
  assert (∀ t : Cursor.t, Cursor.parent t = None →
            ∀ remove' cs, Cursor_close remove' x t cs = ((t, cs, []), Return tt))
    as Hnone.
  { intros t Ht remove' cs. unfold Cursor_close. by rewrite Ht. }
  destruct (Cursor.parent self) as [p|] eqn:Hp.
  - rewrite (free_statement_pair (set_parent None self)).
    destruct remove.
    + destruct cursors as [members|].
      * destruct (bool_decide (x ∈ members)).
        -- intros [= <- <- <- <-]. split; [|discriminate].
           intros remove'. apply Hnone. by rewrite parent_free_statement.
        -- intros [= <- <- <- <-]. split; [intros remove'; by apply Hnone|].
           intros e [= <-]. repeat split; by auto.
      * intros [= <- <- <- <-]. split; [intros remove'; by apply Hnone|].
        intros e [= <-]. repeat split; by auto.
    + intros [= <- <- <- <-]. split; [|discriminate].
      intros remove'. apply Hnone. by rewrite parent_free_statement.
  - intros [= <- <- <- <-]. split; [intros remove'; by apply Hnone|discriminate].
Qed.

(* ===================================================================== *)
(** ** Instances of the further properties *)
(* ===================================================================== *)

Lemma raw_tags_decode_to_bytes_witness :
  valueof example_host (buffer_of A_TIMESTAMP (ascii_bytes "2021-04-05"))
  = Return (VBytes (ascii_bytes "2021-04-05")).
Proof.
  destruct (raw_tags_decode_to_bytes example_host
              (buffer_of A_TIMESTAMP (ascii_bytes "2021-04-05")) 10)
    as [_ Hwithin]; [reflexivity | repeat constructor | reflexivity |].
  apply (Hwithin (ascii_bytes "2021-04-05")); [reflexivity | cbn; lia].
Defined.

Lemma string_typed_values_never_decode_witness :
  valueof example_host (buffer_of A_DECIMAL (ascii_bytes "1.5"))
  = Raise TypeError.
Proof.
  destruct (string_typed_values_never_decode example_host
              (buffer_of A_DECIMAL (ascii_bytes "1.5")) 3
              eq_refl eq_refl) as [Hdecimal _].
  apply Hdecimal. reflexivity.
Defined.

Lemma negative_tag_wraps_witness :
  valueof example_host (buffer_of (-5) [x2a])
  = valueof example_host
      (DataValue.set_type (DataValue.type (buffer_of (-5) [x2a]) + 16)
         (buffer_of (-5) [x2a])).
Proof.
  apply (negative_tag_wraps example_host (buffer_of (-5) [x2a])).
  cbn. lia.
Defined.

Lemma assign_binds_only_numbers_witness :
  ∃ c l bs,
    py_getitem (Str.chars format) (bound_tag (input_param A_VAL16) (VInt 5))
    = Return c
    ∧ struct.layout_of c = Return l
    ∧ l ≠ struct.pad
    ∧ struct.pack (sys_byteorder example_host) c
        (bound_value (input_param A_VAL16) (VInt 5)) = Return bs
    ∧ length bs = struct.size l
    ∧ fst (assign example_host (input_param A_VAL16) (VInt 5))
      = bound_param (input_param A_VAL16) (VInt 5) bs
    ∧ bound_tag (input_param A_VAL16) (VInt 5)
      ∉ A_INVALID_TYPE :: named_tags.
Proof.
  apply (assign_binds_only_numbers example_host (input_param A_VAL16)
           (fst (assign example_host (input_param A_VAL16) (VInt 5)))
           (VInt 5)).
  reflexivity.
Defined.

Lemma unbindable_tags_witness :
  snd (assign example_host (input_param A_DATE) (VStr "2021-04-05"))
  = Raise TypeError
  ∧ snd (assign example_host (input_param A_TIMESTAMP) (VInt 0))
    = Raise IndexError.
Proof.
  split.
  - destruct (unbindable_tags example_host (input_param A_DATE)
                (VStr "2021-04-05")) as [Htext _].
    apply Htext. repeat constructor.
  - destruct (unbindable_tags example_host (input_param A_TIMESTAMP)
                (VInt 0)) as [_ Hstamp].
    apply Hstamp. reflexivity.
Defined.

Lemma None_binds_to_input_only_witness :
  ∃ param',
    assign example_host (input_param A_VAL32) VNone = (param', Return tt)
    ∧ DataValue.is_null (BindParam.value param') = Some 1
    ∧ DataValue.type (BindParam.value param')
      = bound_tag (input_param A_VAL32) VNone
    ∧ valueof example_host (BindParam.value param') = Return VNone.
Proof.
  destruct (None_binds_to_input_only example_host (input_param A_VAL32))
    as [Hinput _].
  apply Hinput; [reflexivity | right; discriminate].
Defined.

Lemma untagged_parameter_inference_witness :
  ∃ param',
    assign example_host (input_param A_INVALID_TYPE) (VInt 7)
    = (param', Return tt)
    ∧ DataValue.type (BindParam.value param') = A_VAL32
    ∧ valueof example_host (BindParam.value param') = Return (VInt 7).
Proof.
  destruct (untagged_parameter_inference example_host
              (input_param A_INVALID_TYPE) eq_refl) as (Hint & _ & _).
  apply Hint. lia.
Defined.

Lemma executemany_when_closed_witness :
  fst (executemany example_host (dml_library []) closed_cursor
         (VBytes (ascii_bytes "DELETE FROM t")) [[]])
  = Cursor.set_rowcount (-1) (fst (free_statement closed_cursor))
  ∧ snd (executemany example_host (dml_library []) closed_cursor
           (VBytes (ascii_bytes "DELETE FROM t")) [[]])
    = Raise InterfaceError.
Proof.
  pose proof (executemany_when_closed example_host (dml_library [])
                closed_cursor (VBytes (ascii_bytes "DELETE FROM t")) [[]]
                eq_refl) as H.
  cbv zeta in H. destruct H as (Hcursor & _ & Hraised).
  split; [exact Hcursor | by apply Hraised].
Defined.

Lemma prepare_failure_is_classified_witness :
  snd (executemany example_host (failing_library 7200) fresh_cursor
         (VStr "SELEC 1") [[]]) = Raise (error_class (failing_library 7200))
  ∧ error_class (failing_library 7200) = OperationalError.
Proof.
  split; [|reflexivity].
  pose proof (prepare_failure_is_classified example_host
                (failing_library 7200) fresh_cursor (VStr "SELEC 1") [[]]
                eq_refl eq_refl) as H.
  cbv zeta in H. destruct H as (Hraise & _). exact Hraise.
Defined.

Lemma execute_failure_is_classified_witness :
  snd (executemany example_host (rejecting_library (-193)) fresh_cursor
         (VStr "INSERT INTO t VALUES (1)") [[]])
  = Raise (error_class (rejecting_library (-193)))
  ∧ error_class (rejecting_library (-193)) = IntegrityError.
Proof.
  split; [|reflexivity].
  pose proof (execute_failure_is_classified example_host
                (rejecting_library (-193)) fresh_cursor
                (VStr "INSERT INTO t VALUES (1)") [] []
                eq_refl eq_refl eq_refl) as H.
  cbv zeta in H. destruct H as (Hraise & _). exact Hraise.
Defined.

Lemma description_after_executemany_witness :
  described
    (fst (executemany example_host (dml_library [1]) fresh_cursor
            (VStr "DELETE FROM t") [[]])).
Proof.
  eapply (description_after_executemany example_host (dml_library [1])
            fresh_cursor _ (VStr "DELETE FROM t") [[]] _).
  vm_compute. reflexivity.
Defined.

Lemma surplus_parameters_ignored_witness :
  executemany example_host (dml_library [1]) fresh_cursor
    (VStr "DELETE FROM t")
    (take (Z.to_nat (ads_num_params (dml_library [1]))) <$> [[VInt 1]])
  = executemany example_host (dml_library [1]) fresh_cursor
      (VStr "DELETE FROM t") [[VInt 1]].
Proof.
  apply (surplus_parameters_ignored example_host (dml_library [1])
           fresh_cursor (VStr "DELETE FROM t") [[VInt 1]]).
  cbn. lia.
Defined.

Lemma fetchall_returns_every_row_witness :
  fetchall example_host (dml_library []) query_cursor
  = (with_pending [] query_cursor, Return [[VInt 1]; [VInt 2]; [VInt 3]]).
Proof.
  apply (fetchall_returns_every_row example_host (dml_library [])
           query_cursor (pointer 1)); vm_compute; reflexivity.
Defined.

Lemma fetchmany_returns_first_rows_witness :
  fetchmany example_host (dml_library []) query_cursor (Some 2)
  = (with_pending [[int_value 3]] query_cursor,
     Return [[VInt 1]; [VInt 2]]).
Proof.
  apply (fetchmany_returns_first_rows example_host (dml_library [])
           query_cursor (Some 2) (pointer 1)); vm_compute; reflexivity.
Defined.

Lemma fetchmany_then_fetchall_witness :
  ∃ (s1 s2 : Cursor.t) (first rest : list (list pyval)),
    fetchmany example_host (dml_library []) query_cursor (Some 2)
    = (s1, Return first)
    ∧ fetchall example_host (dml_library []) s1 = (s2, Return rest)
    ∧ fetchall example_host (dml_library []) query_cursor
      = (s2, Return (first ++ rest))
    ∧ first ++ rest = [[VInt 1]; [VInt 2]; [VInt 3]].
Proof.
  apply (fetchmany_then_fetchall example_host (dml_library [])
           query_cursor (Some 2) (pointer 1)); vm_compute; reflexivity.
Defined.

Lemma fetchone_steps_witness :
  fetchone example_host (dml_library []) query_cursor
  = (with_pending [[int_value 2]; [int_value 3]] query_cursor,
     match collect (valueof example_host) [int_value 1] with
     | Return vs => Return (Some vs)
     | Raise e => Raise e
     end).
Proof.
  destruct (fetchone_steps example_host (dml_library []) query_cursor
              (pointer 1) eq_refl eq_refl) as [_ Hrow].
  apply Hrow. reflexivity.
Defined.

Lemma fetch_after_statement_without_columns_witness :
  Cursor.description
    (fst (executemany example_host (dml_library [1]) fresh_cursor
            (VStr "DELETE FROM t") [[]])) = None
  ∧ snd (fetchone example_host (dml_library [1])
           (fst (executemany example_host (dml_library [1]) fresh_cursor
                   (VStr "DELETE FROM t") [[]]))) = Raise InterfaceError
  ∧ snd (fetchall example_host (dml_library [1])
           (fst (executemany example_host (dml_library [1]) fresh_cursor
                   (VStr "DELETE FROM t") [[]]))) = Raise InterfaceError.
Proof.
  eapply (fetch_after_statement_without_columns example_host
            (dml_library [1]) fresh_cursor _ (VStr "DELETE FROM t") [[]] _).
  - intros n parms. reflexivity.
  - vm_compute. reflexivity.
Defined.

Lemma wide_result_set_never_returns_witness :
  returns
    (snd (executemany example_host (query_library (wide_column DT_NSTRING))
            fresh_cursor (VStr "SELECT name FROM t") [[]])) = false.
Proof.
  apply (wide_result_set_never_returns example_host
           (query_library (wide_column DT_NSTRING)) fresh_cursor
           (VStr "SELECT name FROM t") [[]]).
  intros n parms. apply Exists_cons_hd. repeat constructor.
Defined.

Lemma type_converter_serves_one_row_witness :
  length [VInt 1; VNone] = length [DT_INT; DT_DATE]
  ∧ ([] : list Z) = []
  ∧ ∀ registry' values', gen registry' [] values' = ([], Return []).
Proof.
  apply (type_converter_serves_one_row
           (register_converter DT_DATE ads_typecast_date ∅)
           [DT_INT; DT_DATE] [] [VInt 1; VNone] [VInt 1; VNone]).
  - cbn. lia.
  - vm_compute. reflexivity.
Defined.

Lemma connect_outcomes_witness :
  connect refusing_connector (failing_library (-194)) []
    [("ServerName"%string, VStr "my server")]
  = ([ads_free_connection (pointer 7)],
     Raise (error_class (failing_library (-194))))
  ∧ error_class (failing_library (-194)) = IntegrityError.
Proof.
  split; [|reflexivity].
  destruct (connect_outcomes refusing_connector (failing_library (-194)) []
              [("ServerName"%string, VStr "my server")]
              (ascii_bytes "ServerName=myserver"))
    as [Houtcome _]; [vm_compute; reflexivity|].
  exact Houtcome.
Defined.

Lemma close_releases_every_cursor_witness :
  ∃ objects' frees,
    Connection_close example_session example_objects
    = ((Session.mk (Connection.mk None) None, objects',
        frees ++ [ads_disconnect (pointer 7);
                  ads_free_connection (pointer 7)]), Return tt)
    ∧ (∀ k, k ∈ frees → ∃ a, k = ads_free_stmt (pointer a))
    ∧ (∀ x self, example_objects !! x = Some self →
         ∃ self', objects' !! x = Some self'
           ∧ con self' = Raise InterfaceError
           ∧ (x ∈ ({[1%nat]} : gset nat) → Cursor.parent self ≠ None →
                Cursor.parent self' = None
                ∧ ∀ a, Cursor.stmt self = Some (pointer a) →
                    Cursor.stmt self' = None
                    ∧ ads_free_stmt (pointer a) ∈ frees)).
Proof.
  apply (close_releases_every_cursor example_session example_objects
           (pointer 7) {[1%nat]}); reflexivity.
Defined.

Lemma close_is_final_witness :
  Connection_commit (Session.mk (Connection.mk None) None)
  = ([], Raise InterfaceError)
  ∧ snd (Connection_cursor (Session.mk (Connection.mk None) None)
           (snd (fst (fst (Connection_close example_session
                             example_objects)))))
    = Raise AttributeError.
Proof.
  destruct (close_is_final example_session
              (Session.mk (Connection.mk None) None) example_objects
              (snd (fst (fst (Connection_close example_session
                                example_objects))))
              (snd (fst (Connection_close example_session
                           example_objects))))
    as (_ & Hcommit & _ & _ & Hcursor); [vm_compute; reflexivity|].
  split; [exact Hcommit | exact Hcursor].
Defined.

Lemma Cursor_close_acts_once_witness :
  Cursor_close false 2 (set_parent None fresh_cursor) (Some {[1%nat]})
  = ((set_parent None fresh_cursor, Some {[1%nat]}, []), Return tt)
  ∧ Cursor.stmt (set_parent None fresh_cursor) = Cursor.stmt fresh_cursor.
Proof.
  destruct (Cursor_close_acts_once true 2 fresh_cursor
              (set_parent None fresh_cursor) (Some {[1%nat]})
              (Some {[1%nat]}) [] (Raise KeyError))
    as [Honce Hraised]; [vm_compute; reflexivity|].
  split; [apply Honce|].
  destruct (Hraised KeyError eq_refl) as (_ & _ & Hstmt & _). exact Hstmt.
Defined.
